(** * GateKeeper: abuse-mitigation decision engine

    A shallow embedding of the Go packages [domain], [ratelimit],
    [database], [config], [notification], [queue] and [gatekeeper], followed
    by the properties of the design document that are settled against them.

    Conventions.
    - A Go [int] is a 64-bit two's-complement integer, carried as a [Z] with
      the wrap-around of each arithmetic operation written out ([wrap64]).
    - A [time.Time] read by [time.Now()] is an instant in nanoseconds on the
      process clock, a [time.Duration] is an int64 number of nanoseconds and
      [Time.Sub] saturates, as in package [time]. [Duration.Seconds] goes
      through float64, with its rounding.
    - SQLite's [datetime('now')] has a resolution of one second: database
      instants are whole seconds.
    - Maps ([map[string]*visitor], the [ip_info] table keyed by its primary
      key) are [gmap string _]; writing through a pointer held in a map is an
      insert at the same key. *)

From Stdlib Require Import ZArith List Bool Ascii String Lia.
From stdpp Require Import gmap strings list fin_maps.
Import ListNotations.

Local Open Scope Z_scope.

(** ** Machine integers and time *)

Definition wrap64 (z : Z) : Z := (z + 2 ^ 63) mod 2 ^ 64 - 2 ^ 63.

Definition Time := Z.
Definition Duration := Z.

Definition minDuration : Duration := - 2 ^ 63.
Definition maxDuration : Duration := 2 ^ 63 - 1.

Definition Nanosecond : Duration := 1.
Definition Second : Duration := 1000000000 * Nanosecond.
Definition Minute : Duration := 60 * Second.
Definition Hour : Duration := 60 * Minute.

(** [t.Sub(u)]: the difference [t - u], clamped to the range of a
    [Duration]. *)
Definition Sub (t u : Time) : Duration :=
  Z.max minDuration (Z.min maxDuration (t - u)).

(** ** Binary64 floating point

    A finite float64 is a pair [(m, e)] that stands for [m * 2^e]. Every
    operation rounds the exact result to the nearest float of 53 bits, ties
    to even. Overflow, subnormal numbers and division by zero are left out:
    the operands here are numbers of seconds and nanoseconds of an int64
    duration, and the divisor is the constant 1e9. *)

Module float64.

Definition float : Type := Z * Z.

(** [floor (log2 (a / q))], for positive [a] and [q]. *)
Definition floor_log2_q (a q : Z) : Z :=
  let e0 := Z.log2 a - Z.log2 q in
  let ge := if 0 <=? e0 then q * 2 ^ e0 <=? a else q <=? a * 2 ^ (- e0) in
  if ge then e0 else e0 - 1.

(** [n / d] rounded to the nearest integer, ties to even. *)
Definition round_half_even (n d : Z) : Z :=
  let m0 := n / d in
  let r := n mod d in
  if 2 * r <? d then m0
  else if d <? 2 * r then m0 + 1
  else if Z.even m0 then m0 else m0 + 1.

(** The float nearest to the rational [p / q], [q] positive. *)
Definition round_q (p q : Z) : float :=
  if p =? 0 then (0, 0)
  else
    let a := Z.abs p in
    let s := 52 - floor_log2_q a q in
    let m := if 0 <=? s then round_half_even (a * 2 ^ s) q
             else round_half_even a (q * 2 ^ (- s)) in
    (Z.sgn p * m, - s).

(** [float64(z)]. *)
Definition of_int (z : Z) : float := round_q z 1.

Definition div (x y : float) : float :=
  let k := x.2 - y.2 in
  round_q (Z.sgn y.1 * x.1 * (if 0 <=? k then 2 ^ k else 1))
          (Z.abs y.1 * (if 0 <=? k then 1 else 2 ^ (- k))).

Definition add (x y : float) : float :=
  let emin := Z.min x.2 y.2 in
  let p := x.1 * 2 ^ (x.2 - emin) + y.1 * 2 ^ (y.2 - emin) in
  if 0 <=? emin then round_q (p * 2 ^ emin) 1 else round_q p (2 ^ (- emin)).

(** [int(x)]: the integer part, towards zero. *)
Definition to_int (x : float) : Z :=
  if 0 <=? x.2 then x.1 * 2 ^ x.2 else Z.quot x.1 (2 ^ (- x.2)).

End float64.

(** [d.Seconds()]: [float64(d / Second) + float64(d % Second) / 1e9]. *)
Definition Seconds (d : Duration) : float64.float :=
  float64.add (float64.of_int (Z.quot d Second))
              (float64.div (float64.of_int (Z.rem d Second))
                           (float64.of_int 1000000000)).

(** ** Strings, as package [strings] has them: byte sequences *)

Module gostrings.

Fixpoint IndexByte (s : string) (c : ascii) : option nat :=
  match s with
  | EmptyString => None
  | String a rest =>
      if decide (a = c) then Some 0%nat
      else S <$> IndexByte rest c
  end.

Fixpoint CountByte (s : string) (c : ascii) : nat :=
  match s with
  | EmptyString => 0%nat
  | String a rest =>
      if decide (a = c) then S (CountByte rest c) else CountByte rest c
  end.

Definition Contains (s : string) (c : ascii) : bool :=
  bool_decide (is_Some (IndexByte s c)).

Definition HasPrefix (s : string) (c : ascii) : bool :=
  match s with
  | String a _ => bool_decide (a = c)
  | EmptyString => false
  end.

(** [s[i:j]]. *)
Definition slice (s : string) (i j : nat) : string :=
  String.substring i (j - i) s.

End gostrings.

(** ** Package [domain] *)

Module domain.

Definition IPScore := Z.

Definition ScoreLow : IPScore := 25.
Definition ScoreMedium : IPScore := 75.
Definition ScoreHigh : IPScore := 100.
Definition ScoreThreshold : IPScore := 75.

(** The three declared severities; the [default] branches of [String] and
    [GetEmoji] serve no declared value. *)
Inductive Severity := SeverityLow | SeverityMedium | SeverityHigh.

Record IPInfo := mkIPInfo {
  Address : string;
  Score : IPScore;
  Country : string;
  Path : string;
  PayloadPath : string;
  BlockedInFW : bool;
  Timestamp : Z
}.

Definition IsHighRisk (i : IPInfo) : bool := Score i >? ScoreThreshold.

Definition GetSeverity (i : IPInfo) : Severity :=
  if Score i >? ScoreThreshold then SeverityHigh
  else if Score i >=? ScoreLow then SeverityMedium
  else SeverityLow.

Definition String (s : Severity) : string :=
  match s with
  | SeverityHigh => "High"
  | SeverityMedium => "Medium"
  | SeverityLow => "Low"
  end.

Definition GetEmoji (s : Severity) : string :=
  match s with
  | SeverityHigh => "🔴"
  | SeverityMedium => "🟡"
  | SeverityLow => "🟢"
  end.

Definition with_Path (i : IPInfo) (p : string) : IPInfo :=
  mkIPInfo (Address i) (Score i) (Country i) p (PayloadPath i)
           (BlockedInFW i) (Timestamp i).

Definition with_PayloadPath (i : IPInfo) (p : string) : IPInfo :=
  mkIPInfo (Address i) (Score i) (Country i) (Path i) p
           (BlockedInFW i) (Timestamp i).

Definition with_BlockedInFW (i : IPInfo) (b : bool) : IPInfo :=
  mkIPInfo (Address i) (Score i) (Country i) (Path i) (PayloadPath i)
           b (Timestamp i).

End domain.

(** ** Package [ratelimit] *)

Module ratelimit.

Definition DefaultRate : Z := 5.
Definition DefaultWindow : Duration := 1 * Minute.
Definition CleanupInterval : Duration := 5 * Minute.

Record visitor := mkVisitor {
  count : Z;
  lastReset : Time;
  lastAccess : Time
}.

Record IPRateLimiter := mkLimiter {
  visitors : gmap string visitor;
  rate : Z;
  window : Duration
}.

Definition with_visitors (rl : IPRateLimiter) (m : gmap string visitor)
  : IPRateLimiter :=
  mkLimiter m (rate rl) (window rl).

Definition NewIPRateLimiter (rate : Z) (window : Duration) : IPRateLimiter :=
  mkLimiter ∅ rate window.

Definition NewDefaultIPRateLimiter : IPRateLimiter :=
  NewIPRateLimiter DefaultRate DefaultWindow.

(** [Allow], under the limiter's lock; [now] is the reading of
    [time.Now()]. Returns the limiter after the call and the verdict. *)
Definition Allow (rl : IPRateLimiter) (ip : string) (now : Time)
  : IPRateLimiter * bool :=
  match visitors rl !! ip with
  | None =>
      (with_visitors rl (<[ip := mkVisitor 1 now now]> (visitors rl)), true)
  | Some v =>
      if Sub now (lastReset v) >? window rl then
        (with_visitors rl (<[ip := mkVisitor 1 now now]> (visitors rl)), true)
      else
        let c := wrap64 (count v + 1) in
        (with_visitors rl
           (<[ip := mkVisitor c (lastReset v) now]> (visitors rl)),
         c <=? rate rl)
  end.

Definition Reset (rl : IPRateLimiter) (ip : string) : IPRateLimiter :=
  with_visitors rl (delete ip (visitors rl)).

(** The body of the eviction pass run by [cleanupLoop]. *)
Definition cleanup (rl : IPRateLimiter) (now : Time) : IPRateLimiter :=
  with_visitors rl
    (filter (fun kv => negb (Sub now (lastAccess kv.2) >? wrap64 (window rl * 2)) = true)
            (visitors rl)).

(** Not in the package: the limiter after a run of calls for one identity,
    and the verdicts in call order. *)
Fixpoint allows (rl : IPRateLimiter) (ip : string) (times : list Time)
  : IPRateLimiter * list bool :=
  match times with
  | [] => (rl, [])
  | now :: rest =>
      let '(rl1, b) := Allow rl ip now in
      let '(rl2, bs) := allows rl1 ip rest in
      (rl2, b :: bs)
  end.

(** [extractIP], from the value of the [X-Forwarded-For] header and
    [r.RemoteAddr]: the header up to its first comma when it is not empty,
    else the remote address up to its first colon. *)
Definition extractIP (xff remoteAddr : string) : string :=
  if decide (xff = "") then
    match gostrings.IndexByte remoteAddr ":" with
    | Some idx => gostrings.slice remoteAddr 0 idx
    | None => remoteAddr
    end
  else
    match gostrings.IndexByte xff "," with
    | Some idx => gostrings.slice xff 0 idx
    | None => xff
    end.

(** [Middleware]: [None] is the 429 answer, [Some] the answer of [next]. *)
Definition Middleware {R : Type} (rl : IPRateLimiter) (next : unit -> R)
  (xff remoteAddr : string) (now : Time) : IPRateLimiter * option R :=
  let ip := extractIP xff remoteAddr in
  let '(rl1, allowed) := Allow rl ip now in
  if negb allowed then (rl1, None) else (rl1, Some (next tt)).

Record Stats := mkStats {
  TotalIPs : Z;
  ActiveLimiters : Z
}.

Definition GetStats (rl : IPRateLimiter) (now : Time) : Stats :=
  mkStats
    (Z.of_nat (size (visitors rl)))
    (Z.of_nat (size (filter (fun kv => Sub now (lastReset kv.2) <= window rl)
                            (visitors rl)))).

End ratelimit.

(** ** Package [database] *)

Module database.
Import domain.

Definition DefaultCleanupInterval : Duration := 10 * Minute.

(** A row of table [ip_info]; the primary key [address] is the key of the
    map that holds the row. [payload_path] is nullable. [timestamp] and
    [updated_at] hold readings of [datetime('now')], in seconds. *)
Record Row := mkRow {
  score : IPScore;
  country : string;
  path : string;
  payload_path : option string;
  blocked_in_fw : bool;
  timestamp : Z;
  updated_at : Z
}.

Record IPDatabase := mkDB {
  rows : gmap string Row;
  ttl : Duration
}.

Definition with_rows (db : IPDatabase) (m : gmap string Row) : IPDatabase :=
  mkDB m (ttl db).

(** [NewIPDatabase] opens the file at [dbPath]; [stored] is the content of
    table [ip_info] found there (empty when the file is new). *)
Definition NewIPDatabase (stored : gmap string Row) (ttl : Duration)
  : IPDatabase :=
  mkDB stored ttl.

(** [int(db.ttl.Seconds())], the number bound to the [?] of the TTL
    predicates: the duration in seconds as a float64, then its integer
    part. *)
Definition ttlSeconds (db : IPDatabase) : Z := float64.to_int (Seconds (ttl db)).

(** [datetime(timestamp, '+' || ? || ' seconds')]: the instant [secs]
    seconds after [ts]. A negative number makes the modifier ['+-n seconds'],
    which SQLite rejects, and the function is then NULL. *)
Definition datetime_plus (ts secs : Z) : option Z :=
  if secs <? 0 then None else Some (ts + secs).

(** [datetime(timestamp, ...) > datetime('now')]; a comparison with NULL
    does not hold. *)
Definition live (secs now : Z) (r : Row) : bool :=
  match datetime_plus (timestamp r) secs with
  | Some d => d >? now
  | None => false
  end.

(** [datetime(timestamp, ...) < datetime('now')]. *)
Definition expired (secs now : Z) (r : Row) : bool :=
  match datetime_plus (timestamp r) secs with
  | Some d => d <? now
  | None => false
  end.

(** The record [Get] fills from the selected columns; the text of
    [timestamp] parses to the instant it denotes. *)
Definition scan (address : string) (r : Row) : IPInfo :=
  mkIPInfo address (score r) (country r) (path r)
           (default "" (payload_path r)) (blocked_in_fw r)
           (timestamp r * Second).

(** [Get]; [now] is the reading of [datetime('now')], [fault] tells that
    the driver returned an error other than [sql.ErrNoRows]. *)
Definition Get (db : IPDatabase) (ip : string) (now : Z) (fault : bool)
  : option IPInfo :=
  if fault then None
  else match rows db !! ip with
       | Some r => if live (ttlSeconds db) now r then Some (scan ip r) else None
       | None => None
       end.

(** The nullable parameter [Set] binds to [payload_path]. *)
Definition payloadParam (info : IPInfo) : option string :=
  if decide (PayloadPath info = "") then None else Some (PayloadPath info).

(** [Set]: insert, or on a conflict on [address] update every column but
    [timestamp]. Returns the database and whether [Exec] failed. *)
Definition Set_ (db : IPDatabase) (info : IPInfo) (now : Z) (fault : bool)
  : IPDatabase * bool :=
  if fault then (db, true)
  else
    let created :=
      match rows db !! Address info with
      | Some old => timestamp old
      | None => now
      end in
    (with_rows db
       (<[Address info :=
            mkRow (Score info) (Country info) (Path info) (payloadParam info)
                  (BlockedInFW info) created now]> (rows db)),
     false).

Definition markRow (now : Z) (r : Row) : Row :=
  mkRow (score r) (country r) (path r) (payload_path r) true
        (timestamp r) now.

Definition MarkBlocked (db : IPDatabase) (ip : string) (now : Z) (fault : bool)
  : IPDatabase * bool :=
  if fault then (db, true)
  else (with_rows db (alter (markRow now) ip (rows db)), false).

Definition Delete (db : IPDatabase) (ip : string) (fault : bool)
  : IPDatabase * bool :=
  if fault then (db, true)
  else (with_rows db (delete ip (rows db)), false).

(** [cleanup]: delete the rows the TTL predicate calls expired; returns
    the database and [RowsAffected]. *)
Definition cleanup (db : IPDatabase) (now : Z) (fault : bool)
  : IPDatabase * Z :=
  if fault then (db, 0)
  else
    let kept :=
      filter (fun kv => expired (ttlSeconds db) now kv.2 = false) (rows db) in
    (with_rows db kept, Z.of_nat (size (rows db)) - Z.of_nat (size kept)).

Record Stats := mkStats {
  TotalEntries : Z;
  ActiveEntries : Z;
  BlockedEntries : Z
}.

(** [GetStats], without the size of the file. *)
Definition GetStats (db : IPDatabase) (now : Z) : Stats :=
  mkStats
    (Z.of_nat (size (rows db)))
    (Z.of_nat (size (filter (fun kv => live (ttlSeconds db) now kv.2 = true) (rows db))))
    (Z.of_nat (size (filter (fun kv => blocked_in_fw kv.2 = true) (rows db)))).

End database.

(** ** Package [config] *)

Module config.

Record TelegramNotificationConfig := mkTelegram {
  ChatId : string;
  Token : string;
  Template : string
}.

Record UnifiConfig := mkUnifi {
  URL : string;
  Username : string;
  Password : string
}.

Record RateLimitConfig := mkRateLimit {
  RequestsPerMinute : Z;
  RateLimit_Enabled : bool
}.

Record PayloadConfig := mkPayload {
  Payload_Enabled : bool;
  MaxSize : Z;
  Directory : string
}.

Record DashboardConfig := mkDashboard {
  Dashboard_Enabled : bool;
  Port : string
}.

Record Configuration := mkConfiguration {
  TelegramNotification : list TelegramNotificationConfig;
  Unifi : list UnifiConfig;
  APIKey : string;
  RateLimit : RateLimitConfig;
  Database_Path : string;
  Payload : PayloadConfig;
  Dashboard : DashboardConfig;
  ExcludedIPs : list string
}.

Definition defaultTemplate : string :=
"{{.Emoji}} *Accès direct par IP détecté*

🌐 *IP:* {{.IP}}
🌍 *Pays:* {{.Country}}
📊 *Score AbuseIPDB:* {{.Score}}/100 ({{.Severity}})
🛡️ *Bloqué:* {{.Blocked}}
📂 *Path:* {{.Path}}".

Definition fillTemplate (t : TelegramNotificationConfig)
  : TelegramNotificationConfig :=
  if decide (Template t = "")
  then mkTelegram (ChatId t) (Token t) defaultTemplate
  else t.

(** [LoadConfiguration], from the value [yaml.Unmarshal] decoded: the
    defaults it fills in. (Reading and parsing the file fail before this
    point.) *)
Definition LoadConfiguration (conf : Configuration) : Configuration :=
  let rl :=
    if RequestsPerMinute (RateLimit conf) =? 0
    then mkRateLimit 5 true
    else RateLimit conf in
  let size :=
    if MaxSize (Payload conf) =? 0 then 1024 * 1024
    else MaxSize (Payload conf) in
  let dir :=
    if decide (Directory (Payload conf) = "") then "./payloads"%string
    else Directory (Payload conf) in
  let port :=
    if decide (Port (Dashboard conf) = "") then ":8080"%string
    else Port (Dashboard conf) in
  mkConfiguration
    (map fillTemplate (TelegramNotification conf))
    (Unifi conf)
    (APIKey conf)
    rl
    (Database_Path conf)
    (mkPayload (Payload_Enabled (Payload conf)) size dir)
    (mkDashboard (Dashboard_Enabled (Dashboard conf)) port)
    (ExcludedIPs conf).

End config.

(** ** Package [notification] *)

Module notification.
Import domain.

Record TemplateData := mkTemplateData {
  Emoji : string;
  IP : string;
  Country : string;
  Score : Z;
  Severity : string;
  Blocked : string;
  Path : string
}.

Record TelegramNotifier := mkTelegramNotifier {
  config : config.TelegramNotificationConfig
}.

Definition NewTelegramNotifier (cfg : config.TelegramNotificationConfig)
  : TelegramNotifier :=
  mkTelegramNotifier cfg.

(** The data [formatMessage] hands to the template. *)
Definition formatMessage (info : IPInfo) : TemplateData :=
  let severity := GetSeverity info in
  let emoji := GetEmoji severity in
  let blockedStatus :=
    if BlockedInFW info then "✓ Oui (ajouté au firewall)"%string
    else "Non"%string in
  mkTemplateData emoji ("`" ++ Address info ++ "`")%string
                 (domain.Country info) (domain.Score info)
                 (String severity) blockedStatus (domain.Path info).

(** One call of [TelegramNotifier.Notify]: the chat of the notifier that is
    called and the data its [formatMessage] hands to the template. *)
Record Message := mkMessage {
  chat_id : string;
  data : TemplateData
}.

Definition MultiNotifier := list TelegramNotifier.

Definition NewMultiNotifier
  (configs : list config.TelegramNotificationConfig) : MultiNotifier :=
  map NewTelegramNotifier configs.

(** [MultiNotifier.Notify]: the calls of [TelegramNotifier.Notify] it
    starts, one goroutine per notifier, listed in the order of the loop that
    starts them; the goroutines themselves run in no fixed order. What
    becomes of a call (its template may fail to execute, its post may fail)
    is an answer of the world, and the error is logged inside the
    goroutine. *)
Definition Notify (m : MultiNotifier) (info : IPInfo) : list Message :=
  map (fun n =>
         mkMessage (config.ChatId (config n)) (formatMessage info))
      m.

(** The request [TelegramNotifier.Notify] hands to the HTTP client. *)
Record Post := mkPost {
  url : string;
  post_chat_id : string;
  text : string;
  parse_mode : string
}.

(** What the client returns for the request: an error, or a response with
    its status code. *)
Inductive Answer :=
| NoAnswer
| Status (code : Z).

Inductive error :=
| ErrFormat
| ErrSend
| ErrStatus (code : Z).

(** [TelegramNotifier.Notify]: the error returned ([None] is [nil]) and the
    request made, if any. [execute] is the execution of the notifier's
    template on the data, [None] when it fails; marshalling a map of strings
    does not fail. *)
Definition TelegramNotify (t : TelegramNotifier)
  (execute : TemplateData -> option string) (answer : Answer) (info : IPInfo)
  : option error * option Post :=
  match execute (formatMessage info) with
  | None => (Some ErrFormat, None)
  | Some message =>
      let post :=
        mkPost ("https://api.telegram.org/bot" ++ config.Token (config t)
                  ++ "/sendMessage")%string
               (config.ChatId (config t)) message "Markdown" in
      match answer with
      | NoAnswer => (Some ErrSend, Some post)
      | Status code =>
          if code =? 200 then (None, Some post)
          else (Some (ErrStatus code), Some post)
      end
  end.

(** What the goroutines of [MultiNotifier.Notify] do, listed by notifier
    (not by time): the i-th notifier with the template execution and the
    answer the world gives to it. *)
Definition NotifyAll (m : MultiNotifier)
  (execute : nat -> TemplateData -> option string) (answer : nat -> Answer)
  (info : IPInfo) : list (option error * option Post) :=
  imap (fun i n => TelegramNotify n (execute i) (answer i) info) m.

End notification.

(** ** Package [queue]

    A map from a key to the mutex of that key, made on first use. A mutex is
    known by the number it was allocated under. No other package of the
    repository calls this one: [GateKeeper] holds no [IPQueue]. *)

Module queue.

Record IPQueue := mkIPQueue {
  ipScan : gmap string nat;
  allocated : nat
}.

Definition NewIPQueue : IPQueue := mkIPQueue ∅ 0.

Definition Get (q : IPQueue) (key : string) : IPQueue * nat :=
  match ipScan q !! key with
  | Some value => (q, value)
  | None =>
      (mkIPQueue (<[key := allocated q]> (ipScan q)) (S (allocated q)),
       allocated q)
  end.

Definition Remove (q : IPQueue) (key : string) : IPQueue :=
  mkIPQueue (delete key (ipScan q)) (allocated q).

End queue.

(** ** Package [gatekeeper] *)

Module gatekeeper.
Import domain gostrings.

Definition DefaultCacheTTL : Duration := 1 * Hour.
Definition TarpitDuration : Duration := 1 * Hour.
Definition TarpitTickInterval : Duration := 1 * Second.

Record GateKeeper := mkGateKeeper {
  config : config.Configuration;
  db : database.IPDatabase;
  unifiClients : list config.UnifiConfig;
  notifier : notification.MultiNotifier;
  rateLimiter : ratelimit.IPRateLimiter
}.

Definition with_db (g : GateKeeper) (d : database.IPDatabase) : GateKeeper :=
  mkGateKeeper (config g) d (unifiClients g) (notifier g) (rateLimiter g).

Definition with_rateLimiter (g : GateKeeper) (rl : ratelimit.IPRateLimiter)
  : GateKeeper :=
  mkGateKeeper (config g) (db g) (unifiClients g) (notifier g) rl.

(** The controllers of [cfg] whose [Login] succeeded, in order. *)
Fixpoint loggedIn (cfgs : list config.UnifiConfig) (i : nat)
  (login_ok : nat -> bool) : list config.UnifiConfig :=
  match cfgs with
  | [] => []
  | c :: rest =>
      if login_ok i then c :: loggedIn rest (S i) login_ok
      else loggedIn rest (S i) login_ok
  end.

(** [NewGateKeeper]. [login_ok i] tells whether the login to the i-th
    controller succeeded, [stored] is the table found in the database file
    and [db_ok] whether it opened. [None] is the error return. *)
Definition NewGateKeeper (cfg : config.Configuration)
  (login_ok : nat -> bool) (stored : gmap string database.Row) (db_ok : bool)
  : option GateKeeper :=
  if decide (config.APIKey cfg = "") then None
  else
    let unifiClients := loggedIn (config.Unifi cfg) 0 login_ok in
    let notifier :=
      notification.NewMultiNotifier (config.TelegramNotification cfg) in
    let rateLimiter :=
      if config.RateLimit_Enabled (config.RateLimit cfg)
      then ratelimit.NewIPRateLimiter
             (config.RequestsPerMinute (config.RateLimit cfg)) (1 * Minute)
      else ratelimit.NewDefaultIPRateLimiter in
    if db_ok
    then Some (mkGateKeeper cfg (database.NewIPDatabase stored DefaultCacheTTL)
                            unifiClients notifier rateLimiter)
    else None.

(** What the handler reads of a request. *)
Record Request := mkRequest {
  XForwardedFor : string;
  RemoteAddr : string;
  RequestURI : string;
  Body : string
}.

(** How the server lets the handler take the connection over. *)
Inductive Hijack := NoHijacker | HijackError | Hijacked.

(** What the world answers while one request is handled: clock readings,
    the verdicts of the collaborators and the faults of the storage layer. *)
Record Env := mkEnv {
  now_allow : Time;
  now_get : Z;
  get_fault : bool;
  check : option (IPScore * string);
  now_info : Time;
  payload_file : string;
  now_set : Z;
  set_fault : bool;
  fw_ok : nat -> bool;
  now_mark : nat -> Z;
  mark_fault : nat -> bool;
  notify_ok : nat -> bool;
  hijack : Hijack
}.

Definition with_notify_ok (env : Env) (f : nat -> bool) : Env :=
  mkEnv (now_allow env) (now_get env) (get_fault env) (check env)
        (now_info env) (payload_file env) (now_set env) (set_fault env)
        (fw_ok env) (now_mark env) (mark_fault env) f (hijack env).

Inductive Response :=
| StatusOK
| StatusTooManyRequests
| StatusServiceUnavailable
| StatusForbidden
| NoResponse
| Tarpitted
| Closed.

(** The calls a request makes outside the handler, in program order. *)
Inductive Event :=
| EvAllow (ip : string) (allowed : bool)
| EvDbGet (ip : string) (found : bool)
| EvCheck (ip : string)
| EvSavePayload (ip : string)
| EvDbSet (info : IPInfo)
| EvAddIPToFirewall (client : nat) (ip : string) (ok : bool)
| EvDbMarkBlocked (ip : string)
| EvNotify (notifier : nat) (m : notification.Message) (delivered : bool).

Definition isLookup (e : Event) : bool :=
  match e with
  | EvDbGet _ _ | EvCheck _ => true
  | _ => false
  end.

Definition isNotify (e : Event) : bool :=
  match e with
  | EvNotify _ _ _ => true
  | _ => false
  end.

Definition isAllow (e : Event) : bool :=
  match e with
  | EvAllow _ _ => true
  | _ => false
  end.

Section Handler.

(** [strings.TrimSpace], of the Go library. *)
Variable TrimSpace : string -> string.

Definition extractClientIP (r : Request) : string :=
  let ip :=
    if decide (XForwardedFor r = "") then RemoteAddr r
    else match IndexByte (XForwardedFor r) "," with
         | Some (S n) => slice (XForwardedFor r) 0 (S n)
         | _ => XForwardedFor r
         end in
  let ip := TrimSpace ip in
  if Contains ip ":" then
    if HasPrefix ip "[" then
      match IndexByte ip "]" with
      | Some (S n) => slice ip 1 (S n)
      | _ => ip
      end
    else
      if (CountByte ip ":" =? 1)%nat then
        match IndexByte ip ":" with
        | Some n => slice ip 0 n
        | None => ip
        end
      else ip
  else ip.

Definition isExcludedIP (g : GateKeeper) (ip : string) : bool :=
  bool_decide (ip ∈ config.ExcludedIPs (config g)).

(** [savePayload]: the path of the file written, or the empty string.
    [payload_file] is the path when the directory exists and the write
    succeeds, and empty otherwise; a body of which [io.LimitReader]
    yields no byte is not written. *)
Definition savePayload (g : GateKeeper) (r : Request) (env : Env) : string :=
  let limit := config.MaxSize (config.Payload (config g)) in
  let body := slice (Body r) 0 (Z.to_nat limit) in
  if decide (body = "") then ""%string else payload_file env.

(** The loop of [blockIPInUniFi], from the client at index [i] on. *)
Fixpoint blockLoop (clients : list config.UnifiConfig) (i : nat)
  (d : database.IPDatabase) (info : IPInfo) (env : Env)
  : database.IPDatabase * IPInfo * list Event :=
  match clients with
  | [] => (d, info, [])
  | _ :: rest =>
      if fw_ok env i then
        let info1 := with_BlockedInFW info true in
        let d1 :=
          (database.MarkBlocked d (Address info1) (now_mark env i)
                                (mark_fault env i)).1 in
        let '(d2, info2, evs) := blockLoop rest (S i) d1 info1 env in
        (d2, info2,
         EvAddIPToFirewall i (Address info) true
           :: EvDbMarkBlocked (Address info1) :: evs)
      else
        let '(d2, info2, evs) := blockLoop rest (S i) d info env in
        (d2, info2, EvAddIPToFirewall i (Address info) false :: evs)
  end.

Definition blockIPInUniFi (g : GateKeeper) (info : IPInfo) (env : Env)
  : GateKeeper * IPInfo * list Event :=
  let '(d, info1, evs) := blockLoop (unifiClients g) 0 (db g) info env in
  (with_db g d, info1, evs).

Definition getOrCreateIPInfo (g : GateKeeper) (ip path : string)
  (r : Request) (env : Env) : GateKeeper * IPInfo * list Event :=
  match database.Get (db g) ip (now_get env) (get_fault env) with
  | Some entry => (g, with_Path entry path, [EvDbGet ip true])
  | None =>
      let '(score, country) :=
        match check env with
        | Some sc => sc
        | None => (0, "Unknown"%string)
        end in
      let ipInfo :=
        mkIPInfo ip score country path "" false (now_info env) in
      let '(ipInfo, evPayload) :=
        if config.Payload_Enabled (config.Payload (config g)) then
          let payloadPath := savePayload g r env in
          (if decide (payloadPath = "") then ipInfo
           else with_PayloadPath ipInfo payloadPath,
           [EvSavePayload ip])
        else (ipInfo, []) in
      let g1 :=
        with_db g (database.Set_ (db g) ipInfo (now_set env)
                                 (set_fault env)).1 in
      let evs := [EvDbGet ip false; EvCheck ip] ++ evPayload ++ [EvDbSet ipInfo] in
      if IsHighRisk ipInfo && (0 <? length (unifiClients g))%nat then
        let '(g2, ipInfo2, evBlock) := blockIPInUniFi g1 ipInfo env in
        (g2, ipInfo2, evs ++ evBlock)
      else (g1, ipInfo, evs)
  end.

Definition notifyEvents (g : GateKeeper) (info : IPInfo) (env : Env)
  : list Event :=
  imap (fun i m => EvNotify i m (notify_ok env i))
       (notification.Notify (notifier g) info).

Definition tarpit (env : Env) : Response :=
  match hijack env with
  | NoHijacker => StatusServiceUnavailable
  | HijackError => NoResponse
  | Hijacked => Tarpitted
  end.

Definition dropConnection (env : Env) : Response :=
  match hijack env with
  | NoHijacker => StatusForbidden
  | HijackError => StatusForbidden
  | Hijacked => Closed
  end.

(** [handler]: the gatekeeper after the request, what the client gets,
    and the calls made on the way. *)
Definition handler (g : GateKeeper) (r : Request) (env : Env)
  : GateKeeper * Response * list Event :=
  let ip := extractClientIP r in
  if isExcludedIP g ip then (g, StatusOK, [])
  else
    let '(rl, allowed) := ratelimit.Allow (rateLimiter g) ip (now_allow env) in
    let g := with_rateLimiter g rl in
    if negb allowed then (g, StatusTooManyRequests, [EvAllow ip false])
    else
      let path := RequestURI r in
      let '(g1, ipInfo, evs) := getOrCreateIPInfo g ip path r env in
      let evN := notifyEvents g1 ipInfo env in
      let resp := if IsHighRisk ipInfo then tarpit env else dropConnection env in
      (g1, resp, EvAllow ip true :: evs ++ evN).

(** Not in the package: the server handling a run of requests one after
    the other, each with the answers of the world to it. *)
Fixpoint serve (g : GateKeeper) (reqs : list (Request * Env))
  : GateKeeper * list (Response * list Event) :=
  match reqs with
  | [] => (g, [])
  | (r, env) :: rest =>
      let '(g1, resp, evs) := handler g r env in
      let '(g2, outs) := serve g1 rest in
      (g2, (resp, evs) :: outs)
  end.

End Handler.

End gatekeeper.

(** ** Concurrent calls of [getOrCreateIPInfo]

    The server runs every handler in a goroutine of its own, and
    [getOrCreateIPInfo] takes no lock: the calls of several goroutines
    interleave at the statements that reach the shared store or a
    collaborator. A [Point] is where one call stands between two such
    statements; the statements that touch only the call's own variables are
    run with the shared one before them, and a firewall call, whose remote
    state is not part of the model, with the [MarkBlocked] that follows
    it. *)

Module interleaving.
Import domain gatekeeper.

Inductive Point :=
| AtGet
| AtCheck
| AtSet (ipInfo : IPInfo)
| AtBlock (ipInfo : IPInfo) (i : nat) (clients : list config.UnifiConfig)
| Returned (ipInfo : IPInfo).

Record Call := mkCall {
  c_ip : string;
  c_path : string;
  c_req : Request;
  c_env : Env;
  c_point : Point
}.

Definition at_point (c : Call) (p : Point) : Call :=
  mkCall (c_ip c) (c_path c) (c_req c) (c_env c) p.

(** The shared state: the gatekeeper, and how many times
    [abuseIpClient.Check] has been called. *)
Record World := mkWorld {
  w_g : GateKeeper;
  w_checks : nat
}.

Definition blockFrom (ipInfo : IPInfo) (i : nat)
  (clients : list config.UnifiConfig) : Point :=
  match clients with
  | [] => Returned ipInfo
  | _ => AtBlock ipInfo i clients
  end.

(** The record a call builds from the answer of the reputation source
    and the payload it captured. *)
Definition resolved (g : GateKeeper) (ip path : string) (r : Request)
  (env : Env) : IPInfo :=
  let '(score, country) :=
    match check env with
    | Some sc => sc
    | None => (0, "Unknown"%string)
    end in
  let ipInfo :=
    mkIPInfo ip score country path "" false (now_info env) in
  if config.Payload_Enabled (config.Payload (config g)) then
    let payloadPath := savePayload g r env in
    if decide (payloadPath = "") then ipInfo
    else with_PayloadPath ipInfo payloadPath
  else ipInfo.

(** One statement of one call. *)
Definition step (w : World) (c : Call) : World * Call :=
  let g := w_g w in
  let env := c_env c in
  match c_point c with
  | AtGet =>
      match database.Get (db g) (c_ip c) (now_get env) (get_fault env) with
      | Some entry => (w, at_point c (Returned (with_Path entry (c_path c))))
      | None => (w, at_point c AtCheck)
      end
  | AtCheck =>
      (mkWorld g (S (w_checks w)),
       at_point c (AtSet (resolved g (c_ip c) (c_path c) (c_req c) env)))
  | AtSet ipInfo =>
      let g1 :=
        with_db g (database.Set_ (db g) ipInfo (now_set env)
                                 (set_fault env)).1 in
      (mkWorld g1 (w_checks w),
       at_point c
         (if IsHighRisk ipInfo && (0 <? length (unifiClients g))%nat
          then blockFrom ipInfo 0 (unifiClients g)
          else Returned ipInfo))
  | AtBlock ipInfo i clients =>
      match clients with
      | [] => (w, at_point c (Returned ipInfo))
      | _ :: rest =>
          if fw_ok env i then
            let info1 := with_BlockedInFW ipInfo true in
            let d1 :=
              (database.MarkBlocked (db g) (Address info1) (now_mark env i)
                                    (mark_fault env i)).1 in
            (mkWorld (with_db g d1) (w_checks w),
             at_point c (blockFrom info1 (S i) rest))
          else (w, at_point c (blockFrom ipInfo (S i) rest))
      end
  | Returned _ => (w, c)
  end.

(** A schedule names, statement by statement, the call that runs next. *)
Fixpoint run (w : World) (calls : list Call) (schedule : list nat)
  : World * list Call :=
  match schedule with
  | [] => (w, calls)
  | k :: rest =>
      match calls !! k with
      | Some c =>
          let '(w1, c1) := step w c in
          run w1 (<[k := c1]> calls) rest
      | None => run w calls rest
      end
  end.

(** One call running alone for [n] statements. *)
Fixpoint alone (n : nat) (w : World) (c : Call) : World * Call :=
  match n with
  | O => (w, c)
  | S n' => let '(w1, c1) := step w c in alone n' w1 c1
  end.

Definition returned (c : Call) : option IPInfo :=
  match c_point c with
  | Returned i => Some i
  | _ => None
  end.

End interleaving.

(** ** Package [cache]

    The in-memory store: a map from an address to the record of it, with the
    instant [Set] stamped on the record. *)

Module cache.
Import domain.

Definition DefaultCleanupInterval : Duration := 10 * Minute.

Record IPCache := mkCache {
  entries : gmap string IPInfo;
  ttl : Duration
}.

Definition NewIPCache (ttl : Duration) : IPCache := mkCache ∅ ttl.

(** [time.Since(entry.Timestamp) > c.ttl], [now] being the clock reading. *)
Definition stale (c : IPCache) (now : Time) (entry : IPInfo) : bool :=
  Sub now (Timestamp entry) >? ttl c.

Definition Get (c : IPCache) (ip : string) (now : Time) : option IPInfo :=
  match entries c !! ip with
  | None => None
  | Some entry => if stale c now entry then None else Some entry
  end.

(** [info.Timestamp = time.Now()], written through the caller's pointer. *)
Definition stamp (info : IPInfo) (now : Time) : IPInfo :=
  mkIPInfo (Address info) (Score info) (Country info) (Path info)
           (PayloadPath info) (BlockedInFW info) now.

Definition Set_ (c : IPCache) (info : IPInfo) (now : Time) : IPCache :=
  mkCache (<[Address info := stamp info now]> (entries c)) (ttl c).

Definition MarkBlocked (c : IPCache) (ip : string) : IPCache :=
  mkCache (alter (fun entry => with_BlockedInFW entry true) ip (entries c))
          (ttl c).

Definition Delete (c : IPCache) (ip : string) : IPCache :=
  mkCache (delete ip (entries c)) (ttl c).

Definition cleanup (c : IPCache) (now : Time) : IPCache :=
  mkCache (filter (fun kv => stale c now kv.2 = false) (entries c)) (ttl c).

End cache.

(** ** Package [unifi]

    The client of the controller. What the controller answers is an input:
    the groups a fetch returns ([None] when the fetch fails) and whether the
    update request is answered 200. What the client sends is an output: the
    update request it builds. *)

Module unifi.

Definition FirewallGroupName : string := "WAN_IN".

Record FirewallGroup := mkGroup {
  ID : string;
  Name : string;
  Members : list string
}.

Inductive error :=
| ErrFetch
| ErrFirewallGroupNotFound
| ErrUpdate.

(** The PUT of [updateFirewallGroup]: the group addressed and the
    [group_members] sent. *)
Record Put := mkPut {
  put_id : string;
  put_members : list string
}.

Fixpoint findFirewallGroup (groups : list FirewallGroup) (name : string)
  : option FirewallGroup :=
  match groups with
  | [] => None
  | g :: rest =>
      if decide (Name g = name) then Some g else findFirewallGroup rest name
  end.

Fixpoint ipExistsInGroup_members (members : list string) (ip : string) : bool :=
  match members with
  | [] => false
  | member :: rest =>
      if decide (member = ip) then true else ipExistsInGroup_members rest ip
  end.

Definition ipExistsInGroup (group : FirewallGroup) (ip : string) : bool :=
  ipExistsInGroup_members (Members group) ip.

(** [updateFirewallGroup]: the request built, and the error when it is not
    answered 200. *)
Definition updateFirewallGroup (group : FirewallGroup) (ip : string)
  (put_ok : bool) : Put * option error :=
  (mkPut (ID group) (Members group ++ [ip]),
   if put_ok then None else Some ErrUpdate).

(** [AddIPToFirewall]: the error returned ([None] is [nil]) and the update
    request sent, if any. *)
Definition AddIPToFirewall (fetched : option (list FirewallGroup))
  (ip : string) (put_ok : bool) : option error * option Put :=
  match fetched with
  | None => (Some ErrFetch, None)
  | Some groups =>
      match findFirewallGroup groups FirewallGroupName with
      | None => (Some ErrFirewallGroupNotFound, None)
      | Some wanGroup =>
          if ipExistsInGroup wanGroup ip then (None, None)
          else
            let '(put, err) := updateFirewallGroup wanGroup ip put_ok in
            (err, Some put)
      end
  end.

End unifi.

(** ** Reference behaviours the code is compared with *)

(** The verdicts of [n] more calls in the window of a visitor that has made
    [c] calls in it, under fixed-window counting with limit [limit]. *)
Fixpoint verdicts (c limit : Z) (n : nat) : list bool :=
  match n with
  | O => []
  | S n' => (c + 1 <=? limit) :: verdicts (c + 1) limit n'
  end.

(** The writes the request path makes to the store: [Set] and [MarkBlocked]
    ([Delete] and [cleanup] are the deletion paths). *)
Inductive StoreWrite :=
| WSet (info : domain.IPInfo) (now : Z) (fault : bool)
| WMarkBlocked (ip : string) (now : Z) (fault : bool).

Definition applyWrite (db : database.IPDatabase) (w : StoreWrite)
  : database.IPDatabase :=
  match w with
  | WSet info now fault => (database.Set_ db info now fault).1
  | WMarkBlocked ip now fault => (database.MarkBlocked db ip now fault).1
  end.

Definition applyWrites (db : database.IPDatabase) (ws : list StoreWrite)
  : database.IPDatabase :=
  fold_left applyWrite ws db.

(** The creation instant of the row of [ip], when there is one. *)
Definition created (db : database.IPDatabase) (ip : string) : option Z :=
  database.timestamp <$> database.rows db !! ip.

(** The row of [ip] exists, is flagged blocked and was created at [T]. *)
Definition blockedSince (db : database.IPDatabase) (ip : string) (T : Z) : Prop :=
  exists row,
    database.rows db !! ip = Some row
    /\ database.blocked_in_fw row = true
    /\ database.timestamp row = T.

(** In every window the limiter holds, the last access is not before the
    start of the window. *)
Definition wellTimed (rl : ratelimit.IPRateLimiter) : Prop :=
  forall ip v,
    ratelimit.visitors rl !! ip = Some v ->
    ratelimit.lastReset v <= ratelimit.lastAccess v.

Definition isCheck (e : gatekeeper.Event) : bool :=
  match e with
  | gatekeeper.EvCheck _ => true
  | _ => false
  end.

Definition isFirewallCall (e : gatekeeper.Event) : bool :=
  match e with
  | gatekeeper.EvAddIPToFirewall _ _ _ => true
  | _ => false
  end.

Definition isStoreWrite (e : gatekeeper.Event) : bool :=
  match e with
  | gatekeeper.EvDbSet _ | gatekeeper.EvDbMarkBlocked _ => true
  | _ => false
  end.

(** Two rows that differ at most in the flag and the time of update. *)
Definition sameRecord (r r' : database.Row) : Prop :=
  database.score r' = database.score r
  /\ database.country r' = database.country r
  /\ database.path r' = database.path r
  /\ database.payload_path r' = database.payload_path r
  /\ database.timestamp r' = database.timestamp r.

(** Every mutex of the queue was allocated by it, and no two keys share a
    mutex. *)
Definition queueOk (q : queue.IPQueue) : Prop :=
  (forall k m, queue.ipScan q !! k = Some m -> (m < queue.allocated q)%nat)
  /\ (forall k1 k2 m,
        queue.ipScan q !! k1 = Some m -> queue.ipScan q !! k2 = Some m -> k1 = k2).

(** ** Sample inputs *)

Module samples.
Import domain gatekeeper.

Definition cfg : config.Configuration :=
  config.LoadConfiguration
    (config.mkConfiguration
       [config.mkTelegram "-1001" "token" ""]
       [config.mkUnifi "https://unifi.example" "admin" "secret"]
       "key"
       (config.mkRateLimit 5 true)
       ""
       (config.mkPayload false 0 "")
       (config.mkDashboard false "")
       ["192.0.2.1"]).

(** The gatekeeper of [cfg] on a new database file, the controller
    logged in. *)
Definition g0 : GateKeeper :=
  mkGateKeeper cfg (database.NewIPDatabase ∅ DefaultCacheTTL)
               (config.Unifi cfg)
               (notification.NewMultiNotifier (config.TelegramNotification cfg))
               (ratelimit.NewIPRateLimiter 5 (1 * Minute)).

Definition req (ip : string) : Request :=
  mkRequest "" (ip ++ ":40312") "/admin" "".

(** A world in which the store is read and written at second [t], the
    reputation source answers [score] from France, every firewall call
    succeeds and nothing faults. *)
Definition world (t : Z) (score : IPScore) : Env :=
  mkEnv (t * Second) t false (Some (score, "FR"%string)) (t * Second) ""
        t false (fun _ => true) (fun _ => t) (fun _ => false)
        (fun _ => true) Hijacked.

Definition storedRow (g : GateKeeper) (ip : string) : option database.Row :=
  database.rows (db g) !! ip.

(** A configuration file that turns rate limiting off:
    [ratelimit: {enabled: false, requests_per_minute: 10}]. *)
Definition cfgDisabled : config.Configuration :=
  config.LoadConfiguration
    (config.mkConfiguration
       [] [] "key" (config.mkRateLimit 10 false) ""
       (config.mkPayload false 0 "") (config.mkDashboard false "") []).

(** As [world], with the reputation source failing. *)
Definition worldDown (t : Z) : Env :=
  mkEnv (t * Second) t false None (t * Second) ""
        t false (fun _ => true) (fun _ => t) (fun _ => false)
        (fun _ => true) Hijacked.

(** Two first-time resolutions of one address, started together; the
    reputation source answers the first and fails the second. *)
Definition twoCalls : list interleaving.Call :=
  [interleaving.mkCall "203.0.113.7" "/admin" (req "203.0.113.7")
                       (world 1000 90) interleaving.AtGet;
   interleaving.mkCall "203.0.113.7" "/admin" (req "203.0.113.7")
                       (worldDown 1000) interleaving.AtGet].

End samples.

(** * Properties *)

(** ** The conversion of a duration to seconds *)

Section Float.
Import float64.




(** A duration of 2^24 seconds and 999999999 nanoseconds converts to
    2^24 + 1 seconds: the sum rounds up. *)
Example Seconds_rounds_up :
  to_int (Seconds 16777216999999999) = 16777217.
Proof. reflexivity. Qed.

End Float.

(** ** The risk classifier *)

Section Classifier.
Import domain.

Lemma IsHighRisk_spec (i : IPInfo) : IsHighRisk i = true <-> Score i > 75.
Proof. unfold IsHighRisk, ScoreThreshold. lia. Qed.

Lemma GetSeverity_cases (i : IPInfo) :
  GetSeverity i =
    if decide (Score i > 75) then SeverityHigh
    else if decide (25 <= Score i) then SeverityMedium
    else SeverityLow.
Proof.
  unfold GetSeverity, ScoreThreshold, ScoreLow.
  repeat case_decide;
    repeat match goal with
      | |- context [?a >? ?b] => destruct (Z.gtb_spec a b)
      | |- context [?a >=? ?b] => destruct (Z.geb_spec a b)
      end; first [reflexivity | lia].
Qed.

Example severity_75 :
  GetSeverity (mkIPInfo "198.51.100.1" 75 "FR" "/" "" false 0) = SeverityMedium.
Proof. reflexivity. Qed.

Example severity_76 :
  GetSeverity (mkIPInfo "198.51.100.1" 76 "FR" "/" "" false 0) = SeverityHigh.
Proof. reflexivity. Qed.

End Classifier.

(** C1. The classifier is a function of the score alone: a record is
    high-risk exactly when its score is above 75; its severity is High above
    75, Medium from 25 to 75 and Low below 25. At the boundary, 75 is Medium
    and not high-risk, 76 is High and high-risk. This holds for every integer
    score, the scores 0 to 100 among them. *)
Theorem risk_classifier_exact (i : domain.IPInfo) :
  (domain.IsHighRisk i = true <-> domain.Score i > 75) /\
  (domain.Score i > 75 -> domain.GetSeverity i = domain.SeverityHigh) /\
  (25 <= domain.Score i <= 75 -> domain.GetSeverity i = domain.SeverityMedium) /\
  (domain.Score i < 25 -> domain.GetSeverity i = domain.SeverityLow) /\
  (domain.Score i = 75 ->
     domain.GetSeverity i = domain.SeverityMedium /\ domain.IsHighRisk i = false) /\
  (domain.Score i = 76 ->
     domain.GetSeverity i = domain.SeverityHigh /\ domain.IsHighRisk i = true).
Proof.
  pose proof (IsHighRisk_spec i) as Hh.
  pose proof (GetSeverity_cases i) as Hs.
  repeat split; intros; try (apply Hh; lia); try tauto;
    try (rewrite Hs; repeat case_decide; first [reflexivity | lia]).
  - apply not_true_is_false. intros Ht. apply Hh in Ht. lia.
Qed.

(** ** The rate limiter *)

Section RateLimiter.
Import ratelimit.

Lemma wrap64_small (z : Z) : - 2 ^ 63 <= z < 2 ^ 63 -> wrap64 z = z.
Proof.
  intros Hz. unfold wrap64.
  rewrite Z.mod_small by lia. lia.
Qed.

Lemma Allow_first (rl : IPRateLimiter) (ip : string) (now : Time) :
  visitors rl !! ip = None ->
  Allow rl ip now =
    (with_visitors rl (<[ip := mkVisitor 1 now now]> (visitors rl)), true).
Proof. intros H. unfold Allow. now rewrite H. Qed.

Lemma Allow_elapsed (rl : IPRateLimiter) (ip : string) (v : visitor) (now : Time) :
  visitors rl !! ip = Some v ->
  Sub now (lastReset v) > window rl ->
  Allow rl ip now =
    (with_visitors rl (<[ip := mkVisitor 1 now now]> (visitors rl)), true).
Proof.
  intros H Hgt. unfold Allow. rewrite H.
  destruct (Z.gtb_spec (Sub now (lastReset v)) (window rl)); [reflexivity | lia].
Qed.

Lemma Allow_within (rl : IPRateLimiter) (ip : string) (v : visitor) (now : Time) :
  visitors rl !! ip = Some v ->
  Sub now (lastReset v) <= window rl ->
  Allow rl ip now =
    (with_visitors rl
       (<[ip := mkVisitor (wrap64 (count v + 1)) (lastReset v) now]> (visitors rl)),
     wrap64 (count v + 1) <=? rate rl).
Proof.
  intros H Hle. unfold Allow. rewrite H.
  destruct (Z.gtb_spec (Sub now (lastReset v)) (window rl)); [lia | reflexivity].
Qed.

Lemma allows_rate (rl : IPRateLimiter) (ip : string) (times : list Time) :
  rate (allows rl ip times).1 = rate rl /\
  window (allows rl ip times).1 = window rl.
Proof.
  revert rl. induction times as [|t times IH]; intros rl; simpl; [easy|].
  destruct (Allow rl ip t) as [rl1 b] eqn:E.
  specialize (IH rl1). destruct (allows rl1 ip times) as [rl2 bs]. simpl in *.
  assert (rate rl1 = rate rl /\ window rl1 = window rl) as [Hr Hw].
  { unfold Allow in E. destruct (visitors rl !! ip) as [v|].
    - destruct (_ >? _); inversion E; subst; easy.
    - inversion E; subst; easy. }
  destruct IH as [IHr IHw]. split; congruence.
Qed.

(** Calls that all fall in the current window count up, and the k-th of
    the window is allowed exactly when k is at most the rate. *)
Lemma allows_within (times : list Time) :
  forall (rl : IPRateLimiter) (ip : string) (v : visitor),
    visitors rl !! ip = Some v ->
    0 <= count v ->
    count v + Z.of_nat (length times) < 2 ^ 63 ->
    Forall (fun t => Sub t (lastReset v) <= window rl) times ->
    (allows rl ip times).2 = verdicts (count v) (rate rl) (length times) /\
    exists last,
      visitors (allows rl ip times).1 !! ip =
        Some (mkVisitor (count v + Z.of_nat (length times)) (lastReset v) last).
Proof.
  induction times as [|t times IH]; intros rl ip v Hv Hc Hlen Hall.
  - simpl. split; [reflexivity|]. exists (lastAccess v).
    rewrite Hv, Z.add_0_r. now destruct v.
  - apply Forall_cons in Hall as [Ht Hall].
    cbn [length] in Hlen. rewrite Nat2Z.inj_succ in Hlen.
    cbn [allows]. rewrite (Allow_within rl ip v t Hv Ht).
    rewrite wrap64_small by lia.
    set (v1 := mkVisitor (count v + 1) (lastReset v) t).
    set (rl1 := with_visitors rl (<[ip := v1]> (visitors rl))).
    specialize (IH rl1 ip v1).
    destruct (allows rl1 ip times) as [rl2 bs] eqn:E. cbn [fst snd] in *.
    destruct IH as [IHb [last IHv]].
    + unfold rl1. cbn. apply lookup_insert_eq.
    + cbn. lia.
    + cbn. lia.
    + exact Hall.
    + split.
      * cbn [length verdicts]. f_equal. exact IHb.
      * exists last. rewrite IHv. cbn [length]. rewrite Nat2Z.inj_succ.
        subst v1. cbn. do 2 f_equal. lia.
Qed.

Lemma allows_app (ip : string) (ts us : list Time) :
  forall rl,
    allows rl ip (ts ++ us)
    = ((allows (allows rl ip ts).1 ip us).1,
       (allows rl ip ts).2 ++ (allows (allows rl ip ts).1 ip us).2).
Proof.
  induction ts as [|t ts IH]; intros rl.
  - cbn. now destruct (allows rl ip us).
  - cbn [app allows]. destruct (Allow rl ip t) as [r1 b]. rewrite IH.
    destruct (allows r1 ip ts) as [r2 bs]. reflexivity.
Qed.

End RateLimiter.

(** C2. Fixed-window counting. For every limiter and identity: (1) the first
    call after the creation of a limiter, and any call for an identity the
    limiter holds no window for, is allowed whatever the rate; (2) with rate 5, six calls of which the last
    five come no later than one window after the first are allowed, allowed,
    allowed, allowed, allowed, denied, and a seventh call issued more than
    one window after the first is allowed and leaves the count at 1 with
    the window restarted at that call; (3) in general a call issued more than
    one window after the window start is allowed and resets the count to 1. *)
Theorem fixed_window_counting (rl : ratelimit.IPRateLimiter) (ip : string) :
  (forall limit window now,
     (ratelimit.Allow (ratelimit.NewIPRateLimiter limit window) ip now).2 = true) /\
  (forall now,
     ratelimit.visitors rl !! ip = None ->
     (ratelimit.Allow rl ip now).2 = true) /\
  (forall t1 t2 t3 t4 t5 t6 t7,
     ratelimit.visitors rl !! ip = None ->
     ratelimit.rate rl = 5 ->
     Forall (fun t => Sub t t1 <= ratelimit.window rl) [t2; t3; t4; t5; t6] ->
     Sub t7 t1 > ratelimit.window rl ->
     (ratelimit.allows rl ip [t1; t2; t3; t4; t5; t6]).2
       = [true; true; true; true; true; false] /\
     (ratelimit.allows rl ip [t1; t2; t3; t4; t5; t6; t7]).2
       = [true; true; true; true; true; false; true] /\
     ratelimit.visitors (ratelimit.allows rl ip [t1; t2; t3; t4; t5; t6; t7]).1 !! ip
       = Some (ratelimit.mkVisitor 1 t7 t7)) /\
  (forall v now,
     ratelimit.visitors rl !! ip = Some v ->
     Sub now (ratelimit.lastReset v) > ratelimit.window rl ->
     (ratelimit.Allow rl ip now).2 = true /\
     ratelimit.visitors (ratelimit.Allow rl ip now).1 !! ip
       = Some (ratelimit.mkVisitor 1 now now)).
Proof.
  split; [|split; [|split]].
  - intros limit window now. now rewrite Allow_first.
  - intros now Hnone. now rewrite Allow_first.
  - intros t1 t2 t3 t4 t5 t6 t7 Hnone Hrate Hall Hgt.
    set (v1 := ratelimit.mkVisitor 1 t1 t1).
    set (rl1 := ratelimit.with_visitors rl (<[ip := v1]> (ratelimit.visitors rl))).
    assert (Hv1 : ratelimit.visitors rl1 !! ip = Some v1)
      by (unfold rl1; cbn; apply lookup_insert_eq).
    destruct (allows_within [t2; t3; t4; t5; t6] rl1 ip v1 Hv1)
      as [Hb [last Hlast]]; [cbn; lia | cbn; lia | exact Hall |].
    assert (Hrate1 : ratelimit.rate rl1 = 5) by exact Hrate.
    assert (Hb' : (ratelimit.allows rl1 ip [t2; t3; t4; t5; t6]).2
                  = [true; true; true; true; false])
      by (rewrite Hb, Hrate1; reflexivity).
    clear Hb. cbn [length] in Hlast.
    assert (Hsix : ratelimit.allows rl ip [t1; t2; t3; t4; t5; t6]
                   = ((ratelimit.allows rl1 ip [t2; t3; t4; t5; t6]).1,
                      true :: (ratelimit.allows rl1 ip [t2; t3; t4; t5; t6]).2)).
    { change (ratelimit.allows rl ip [t1; t2; t3; t4; t5; t6])
        with (let '(r1, b) := ratelimit.Allow rl ip t1 in
              let '(r2, bs) := ratelimit.allows r1 ip [t2; t3; t4; t5; t6] in
              (r2, b :: bs)).
      rewrite (Allow_first rl ip t1 Hnone). fold v1. fold rl1.
      now destruct (ratelimit.allows rl1 ip [t2; t3; t4; t5; t6]). }
    split; [rewrite Hsix; cbn [snd]; now rewrite Hb'|].
    set (rl6 := (ratelimit.allows rl1 ip [t2; t3; t4; t5; t6]).1) in *.
    assert (Hw6 : ratelimit.window rl6 = ratelimit.window rl)
      by (unfold rl6; now rewrite (proj2 (allows_rate rl1 ip _))).
    assert (Hseven : ratelimit.allows rl ip [t1; t2; t3; t4; t5; t6; t7]
                     = ((ratelimit.Allow rl6 ip t7).1,
                        [true; true; true; true; true; false]
                          ++ [(ratelimit.Allow rl6 ip t7).2])).
    { change [t1; t2; t3; t4; t5; t6; t7] with ([t1; t2; t3; t4; t5; t6] ++ [t7]).
      rewrite allows_app, Hsix. cbn [fst snd]. fold rl6. rewrite Hb'.
      cbn [ratelimit.allows].
      destruct (ratelimit.Allow rl6 ip t7). reflexivity. }
    rewrite Hseven. cbn [fst snd].
    rewrite (Allow_elapsed rl6 ip _ t7 Hlast) by (cbn; lia).
    cbn [fst snd]. split; [reflexivity|]. cbn. apply lookup_insert_eq.
  - intros v now Hv Hgt. rewrite (Allow_elapsed rl ip v now Hv Hgt).
    cbn. split; [reflexivity | apply lookup_insert_eq].
Qed.

(** A limiter of 5 requests per minute, created empty, and seven calls of
    one identity: at 0, 1, 2, 3, 4 and 60 seconds, then just after the
    minute. *)
Lemma fixed_window_counting_witness :
  (ratelimit.allows (ratelimit.NewIPRateLimiter 5 (60 * Second)) "203.0.113.9"
     [0; 1 * Second; 2 * Second; 3 * Second; 4 * Second; 60 * Second;
      60 * Second + 1]).2
  = [true; true; true; true; true; false; true].
Proof.
  refine (proj1 (proj2 (proj1 (proj2 (proj2
    (fixed_window_counting (ratelimit.NewIPRateLimiter 5 (60 * Second))
                           "203.0.113.9")))
    0 (1 * Second) (2 * Second) (3 * Second) (4 * Second) (60 * Second)
    (60 * Second + 1) _ _ _ _))).
  - reflexivity.
  - reflexivity.
  - repeat constructor; vm_compute; discriminate.
  - vm_compute. reflexivity.
Defined.

(** ** The reputation store *)

Section Store.
Import domain database.

Lemma Get_lookup (db : IPDatabase) (ip : string) (now : Z) :
  0 <= ttlSeconds db ->
  Get db ip now false =
    match rows db !! ip with
    | Some r => if now <? timestamp r + ttlSeconds db then Some (scan ip r) else None
    | None => None
    end.
Proof.
  intros Httl. unfold Get, live, datetime_plus.
  destruct (rows db !! ip) as [r|]; [|reflexivity].
  destruct (Z.ltb_spec (ttlSeconds db) 0); [lia|].
  rewrite Z.gtb_ltb. reflexivity.
Qed.

Lemma Get_created (db : IPDatabase) (ip : string) (now T : Z) :
  0 <= ttlSeconds db ->
  created db ip = Some T ->
  (now < T + ttlSeconds db ->
   exists r, Get db ip now false = Some r /\ Address r = ip
             /\ Timestamp r = T * Second) /\
  (T + ttlSeconds db <= now -> Get db ip now false = None).
Proof.
  intros Httl Hc. rewrite Get_lookup by exact Httl.
  unfold created in Hc. destruct (rows db !! ip) as [r|]; [|discriminate].
  cbn in Hc. injection Hc as <-.
  split; intros Hnow.
  - destruct (Z.ltb_spec now (timestamp r + ttlSeconds db)); [|lia].
    eexists; repeat split.
  - destruct (Z.ltb_spec now (timestamp r + ttlSeconds db)); [lia|reflexivity].
Qed.

Lemma ttl_applyWrite (db : IPDatabase) (w : StoreWrite) :
  ttl (applyWrite db w) = ttl db.
Proof.
  destruct w as [info now fault|ip now fault]; cbn;
    unfold Set_, MarkBlocked; destruct fault; reflexivity.
Qed.

(** No write of the request path changes the creation instant of a row
    that exists. *)
Lemma created_applyWrite (db : IPDatabase) (w : StoreWrite) (ip : string) (T : Z) :
  created db ip = Some T -> created (applyWrite db w) ip = Some T.
Proof.
  unfold created. intros Hc.
  destruct w as [info now fault|ip' now fault]; cbn;
    unfold Set_, MarkBlocked; destruct fault; cbn; try exact Hc.
  - destruct (decide (Address info = ip)) as [->|Hne].
    + rewrite lookup_insert_eq. cbn.
      destruct (rows db !! ip) as [r|]; [exact Hc | discriminate].
    + rewrite lookup_insert_ne by exact Hne. exact Hc.
  - destruct (decide (ip' = ip)) as [->|Hne].
    + rewrite lookup_alter_eq.
      destruct (rows db !! ip) as [r|]; [exact Hc | discriminate].
    + rewrite lookup_alter_ne by exact Hne. exact Hc.
Qed.

Lemma applyWrites_keeps (ws : list StoreWrite) :
  forall (db : IPDatabase) (ip : string) (T : Z),
    created db ip = Some T ->
    created (applyWrites db ws) ip = Some T /\
    ttlSeconds (applyWrites db ws) = ttlSeconds db.
Proof.
  induction ws as [|w ws IH]; intros db ip T Hc; [easy|].
  change (applyWrites db (w :: ws)) with (applyWrites (applyWrite db w) ws).
  destruct (IH (applyWrite db w) ip T) as [IHc IHt].
  - now apply created_applyWrite.
  - split; [exact IHc|].
    rewrite IHt. unfold ttlSeconds. now rewrite ttl_applyWrite.
Qed.


End Store.






Example store_absent_after_ttl :
  database.Get
    (database.Set_ (database.NewIPDatabase ∅ gatekeeper.DefaultCacheTTL)
       (domain.mkIPInfo "203.0.113.7" 90 "FR" "/admin" "" false 0) 1000 false).1
    "203.0.113.7" 4601 false
  = None.
Proof. vm_compute. reflexivity. Qed.

Section StoreWrites.
Import domain database.

Lemma with_rows_same (db : IPDatabase) : with_rows db (rows db) = db.
Proof. now destruct db. Qed.

Lemma MarkBlocked_lookup (db : IPDatabase) (ip ip' : string) (now : Z) :
  rows (MarkBlocked db ip now false).1 !! ip' =
    if decide (ip = ip') then markRow now <$> rows db !! ip'
    else rows db !! ip'.
Proof.
  unfold MarkBlocked. cbn. case_decide as Heq.
  - subst. apply lookup_alter_eq.
  - now apply lookup_alter_ne.
Qed.

Lemma Set_lookup (db : IPDatabase) (info : IPInfo) (ip' : string) (now : Z) :
  rows (Set_ db info now false).1 !! ip' =
    if decide (Address info = ip') then
      Some (mkRow (Score info) (Country info) (Path info) (payloadParam info)
                  (BlockedInFW info)
                  (default now (created db ip')) now)
    else rows db !! ip'.
Proof.
  unfold Set_, created. cbn. case_decide as Heq.
  - subst. rewrite lookup_insert_eq.
    now destruct (rows db !! Address info).
  - now apply lookup_insert_ne.
Qed.

End StoreWrites.

(** C10. [MarkBlocked] leaves every column of the row of the record but
    [blocked_in_fw] (and the bookkeeping column [updated_at], which no query
    reads) as it was: score, country, path, payload reference and the
    creation [timestamp] are unchanged, the address is still the key of the
    row, and the flag is set when the statement runs. So [Get] hits at the
    same times as before and returns the same record but for the flag, and
    the sweep deletes the row at the same times as before. Rows of other
    addresses are untouched, and when the address has no row the store is
    unchanged. *)
Theorem MarkBlocked_touches_only_flag
  (db : database.IPDatabase) (ip : string) (now : Z) (fault : bool) :
  let db' := (database.MarkBlocked db ip now fault).1 in
  (forall r,
     database.rows db !! ip = Some r ->
     exists r',
       database.rows db' !! ip = Some r'
       /\ database.score r' = database.score r
       /\ database.country r' = database.country r
       /\ database.path r' = database.path r
       /\ database.payload_path r' = database.payload_path r
       /\ database.timestamp r' = database.timestamp r
       /\ (fault = false -> database.blocked_in_fw r' = true)) /\
  (forall t f,
     database.Get db' ip t f
     = (if fault then id else fun i => domain.with_BlockedInFW i true)
         <$> database.Get db ip t f) /\
  (forall t f,
     is_Some (database.rows (database.cleanup db' t f).1 !! ip)
     <-> is_Some (database.rows (database.cleanup db t f).1 !! ip)) /\
  (forall ip', ip' <> ip -> database.rows db' !! ip' = database.rows db !! ip') /\
  database.ttl db' = database.ttl db /\
  (database.rows db !! ip = None -> db' = db).
Proof.
  intros db'. subst db'. destruct fault.
  - cbn. split; [|split; [|split; [|split; [|split]]]];
      [ intros r Hr; exists r; repeat split; [exact Hr | discriminate]
      | intros t f; now destruct (database.Get db ip t f)
      | reflexivity | reflexivity | reflexivity | reflexivity ].
  - repeat split.
    + intros r Hr. rewrite MarkBlocked_lookup, decide_True by reflexivity.
      rewrite Hr. cbn. eexists. repeat split.
    + intros t f. unfold database.Get. destruct f; [reflexivity|].
      rewrite MarkBlocked_lookup, decide_True by reflexivity.
      change (database.ttlSeconds _) with (database.ttlSeconds db).
      destruct (database.rows db !! ip) as [r|]; [|reflexivity]. cbn.
      change (database.live (database.ttlSeconds db) t (database.markRow now r))
        with (database.live (database.ttlSeconds db) t r).
      destruct (database.live _ t r); reflexivity.
    + unfold database.cleanup. destruct f; cbn.
      * rewrite lookup_alter_eq. intros [x Hx].
        destruct (database.rows db !! ip); [eauto | discriminate].
      * rewrite !map_lookup_filter, lookup_alter_eq.
        destruct (database.rows db !! ip) as [r|]; cbn; [|intros [? ?]; discriminate].
        change (database.expired _ t (database.markRow now r))
          with (database.expired (database.ttlSeconds db) t r).
        case_guard; cbn; [eauto | intros [? ?]; discriminate].
    + unfold database.cleanup. destruct f; cbn.
      * rewrite lookup_alter_eq. intros [x Hx].
        destruct (database.rows db !! ip); [eauto | discriminate].
      * rewrite !map_lookup_filter, lookup_alter_eq.
        destruct (database.rows db !! ip) as [r|]; cbn; [|intros [? ?]; discriminate].
        change (database.expired _ t (database.markRow now r))
          with (database.expired (database.ttlSeconds db) t r).
        case_guard; cbn; [eauto | intros [? ?]; discriminate].
    + intros ip' Hne. rewrite MarkBlocked_lookup.
      now rewrite decide_False by congruence.
    + intros Hnone. unfold database.MarkBlocked. cbn.
      rewrite alter_id; [apply with_rows_same|].
      intros x Hx. congruence.
Qed.

(** A row inserted at second 1000 and marked at second 2000 is still
    returned just before second [1000 + 3600], now with the flag, and no
    longer at that second. *)
Example MarkBlocked_keeps_expiry :
  let db0 := database.NewIPDatabase ∅ gatekeeper.DefaultCacheTTL in
  let db1 :=
    (database.Set_ db0 (domain.mkIPInfo "203.0.113.7" 90 "FR" "/" "p.bin" false 0)
                   1000 false).1 in
  let db2 := (database.MarkBlocked db1 "203.0.113.7" 2000 false).1 in
  database.Get db2 "203.0.113.7" 4599 false
    = Some (domain.mkIPInfo "203.0.113.7" 90 "FR" "/" "p.bin" true (1000 * Second))
  /\ database.Get db2 "203.0.113.7" 4600 false = None.
Proof. vm_compute. split; reflexivity. Qed.

(** ** The upsert *)

(** C6, as the code has it. [Set] is an upsert that overwrites: when a row
    for the address exists, score, country, path, blocked flag and payload
    reference all take the caller's values, and the payload reference becomes
    NULL when the caller supplies none; only the creation [timestamp] of the
    row is kept. Without a row, the record is inserted with the current time
    as [timestamp]. Rows of other addresses are untouched. *)
Theorem Set_upsert_overwrites
  (db : database.IPDatabase) (info : domain.IPInfo) (now : Z) :
  database.rows (database.Set_ db info now false).1 !! domain.Address info
  = Some (database.mkRow (domain.Score info) (domain.Country info)
            (domain.Path info)
            (if decide (domain.PayloadPath info = "") then None
             else Some (domain.PayloadPath info))
            (domain.BlockedInFW info)
            (match database.rows db !! domain.Address info with
             | Some old => database.timestamp old
             | None => now
             end)
            now)
  /\ (forall ip',
        ip' <> domain.Address info ->
        database.rows (database.Set_ db info now false).1 !! ip'
        = database.rows db !! ip')
  /\ database.ttl (database.Set_ db info now false).1 = database.ttl db.
Proof.
  split; [|split].
  - rewrite Set_lookup, decide_True by reflexivity.
    unfold created, database.payloadParam.
    now destruct (database.rows db !! domain.Address info).
  - intros ip' Hne. rewrite Set_lookup. now rewrite decide_False by congruence.
  - reflexivity.
Qed.

(** The stored payload reference is not preserved: a row that holds the
    reference [payloads/x.bin] holds NULL after a [Set] for the same address
    by a caller that supplies none. *)
Lemma Set_nulls_payload_reference :
  ~ (forall (db : database.IPDatabase) (info : domain.IPInfo) (now : Z)
            (old : database.Row),
       database.rows db !! domain.Address info = Some old ->
       domain.PayloadPath info = "" ->
       database.payload_path
         <$> database.rows (database.Set_ db info now false).1 !! domain.Address info
       = Some (database.payload_path old)).
Proof.
  intros H.
  specialize (H (database.Set_ (database.NewIPDatabase ∅ gatekeeper.DefaultCacheTTL)
                   (domain.mkIPInfo "203.0.113.7" 90 "FR" "/a" "payloads/x.bin" false 0)
                   1000 false).1
                (domain.mkIPInfo "203.0.113.7" 90 "FR" "/b" "" false 0)
                5000
                (database.mkRow 90 "FR" "/a" (Some "payloads/x.bin"%string) false
                                1000 1000)).
  vm_compute in H. specialize (H eq_refl eq_refl). discriminate H.
Qed.

(** ** The blocked flag across requests *)

Section BlockedFlag.
Import domain gatekeeper.

Variable TrimSpace : string -> string.
Variable ip : string.
Variable T : Z.

Lemma blockedSince_MarkBlocked (d : database.IPDatabase) (ip' : string)
  (now : Z) (fault : bool) :
  blockedSince d ip T ->
  blockedSince (database.MarkBlocked d ip' now fault).1 ip T.
Proof.
  intros (row & Hrow & Hb & Ht). destruct fault; [exists row; easy|].
  unfold blockedSince. rewrite MarkBlocked_lookup. case_decide.
  - rewrite Hrow. cbn. eexists. repeat split. exact Ht.
  - exists row. easy.
Qed.

Lemma blockedSince_Set_other (d : database.IPDatabase) (info : IPInfo)
  (now : Z) (fault : bool) :
  Address info <> ip ->
  blockedSince d ip T ->
  blockedSince (database.Set_ d info now fault).1 ip T.
Proof.
  intros Hne (row & Hrow & Hb & Ht). destruct fault; [exists row; easy|].
  unfold blockedSince. rewrite Set_lookup, decide_False by exact Hne.
  exists row. easy.
Qed.

Lemma blockLoop_keeps (clients : list config.UnifiConfig) :
  forall i d info env,
    blockedSince d ip T ->
    blockedSince (blockLoop clients i d info env).1.1 ip T
    /\ database.ttl (blockLoop clients i d info env).1.1 = database.ttl d.
Proof.
  induction clients as [|c rest IH]; intros i d info env Hd; [easy|].
  cbn [blockLoop]. destruct (fw_ok env i).
  - specialize (IH (S i)
      (database.MarkBlocked d (Address (with_BlockedInFW info true))
         (now_mark env i) (mark_fault env i)).1
      (with_BlockedInFW info true) env
      (blockedSince_MarkBlocked _ _ _ _ Hd)).
    destruct (blockLoop rest (S i) _ _ env) as [[d2 info2] evs].
    cbn [fst snd] in *. destruct IH as [IH1 IH2]. split; [exact IH1|].
    rewrite IH2. unfold database.MarkBlocked. now destruct (mark_fault env i).
  - specialize (IH (S i) d info env Hd).
    destruct (blockLoop rest (S i) d info env) as [[d2 info2] evs].
    exact IH.
Qed.

Lemma getOrCreateIPInfo_keeps (g : GateKeeper) (ip' path : string)
  (r : Request) (env : Env) :
  0 <= database.ttlSeconds (db g) ->
  blockedSince (db g) ip T ->
  (ip' = ip ->
   get_fault env = false /\ now_get env < T + database.ttlSeconds (db g)) ->
  blockedSince (db (getOrCreateIPInfo g ip' path r env).1.1) ip T
  /\ database.ttl (db (getOrCreateIPInfo g ip' path r env).1.1)
     = database.ttl (db g).
Proof.
  intros Httl Hd Hlive. unfold getOrCreateIPInfo.
  destruct (database.Get (db g) ip' (now_get env) (get_fault env))
    as [entry|] eqn:Hget; [easy|].
  destruct (decide (ip' = ip)) as [->|Hne].
  { destruct (Hlive eq_refl) as [Hf Hnow]. rewrite Hf in Hget.
    destruct Hd as (row & Hrow & Hb & Ht).
    assert (Hc : created (db g) ip = Some T)
      by (unfold created; rewrite Hrow; cbn; now rewrite Ht).
    destruct (Get_created (db g) ip (now_get env) T Httl Hc) as [Hhit _].
    destruct (Hhit Hnow) as (x & Hx & _). congruence. }
  destruct (match check env with Some sc => sc | None => (0, "Unknown"%string) end)
    as [score country].
  set (fresh := mkIPInfo ip' score country path "" false (now_info env)).
  assert (Haddr : forall p, Address (with_PayloadPath fresh p) = ip') by reflexivity.
  destruct (if config.Payload_Enabled (config.Payload (config g))
            then (if decide (savePayload g r env = "") then fresh
                  else with_PayloadPath fresh (savePayload g r env),
                  [EvSavePayload ip'])
            else (fresh, [])) as [ipInfo evPayload] eqn:Hp.
  assert (Hinfo : Address ipInfo = ip').
  { destruct (config.Payload_Enabled _); [|now inversion Hp].
    destruct (decide _); inversion Hp; subst; reflexivity. }
  assert (Hset : blockedSince
                   (database.Set_ (db g) ipInfo (now_set env) (set_fault env)).1
                   ip T)
    by (apply blockedSince_Set_other; [congruence | exact Hd]).
  assert (Hsetttl : database.ttl
                      (database.Set_ (db g) ipInfo (now_set env) (set_fault env)).1
                    = database.ttl (db g))
    by (unfold database.Set_; now destruct (set_fault env)).
  destruct (IsHighRisk ipInfo && (0 <? length (unifiClients g))%nat).
  - unfold blockIPInUniFi. cbn [unifiClients db with_db].
    pose proof (blockLoop_keeps (unifiClients g) 0 _ ipInfo env Hset) as [H1 H2].
    destruct (blockLoop (unifiClients g) 0 _ ipInfo env) as [[d2 info2] evs].
    cbn [fst snd db with_db] in *. split; [exact H1 | congruence].
  - cbn [fst snd db with_db]. split; [exact Hset | exact Hsetttl].
Qed.

Lemma handler_keeps (g : GateKeeper) (r : Request) (env : Env) :
  0 <= database.ttlSeconds (db g) ->
  blockedSince (db g) ip T ->
  (extractClientIP TrimSpace r = ip ->
   get_fault env = false /\ now_get env < T + database.ttlSeconds (db g)) ->
  blockedSince (db (handler TrimSpace g r env).1.1) ip T
  /\ database.ttl (db (handler TrimSpace g r env).1.1) = database.ttl (db g).
Proof.
  intros Httl Hd Hlive. unfold handler.
  destruct (isExcludedIP g _); [easy|].
  destruct (ratelimit.Allow (rateLimiter g) _ (now_allow env)) as [rl allowed].
  destruct allowed; cbn [negb]; [|easy].
  pose proof (getOrCreateIPInfo_keeps (with_rateLimiter g rl)
                (extractClientIP TrimSpace r) (RequestURI r) r env
                Httl Hd Hlive) as [H1 H2].
  destruct (getOrCreateIPInfo (with_rateLimiter g rl) _ _ r env)
    as [[g1 ipInfo] evs].
  cbn [fst snd] in *. easy.
Qed.

Lemma serve_keeps (reqs : list (Request * Env)) :
  forall g,
    0 <= database.ttlSeconds (db g) ->
    blockedSince (db g) ip T ->
    Forall (fun re =>
              extractClientIP TrimSpace re.1 = ip ->
              get_fault re.2 = false
              /\ now_get re.2 < T + database.ttlSeconds (db g)) reqs ->
    blockedSince (db (serve TrimSpace g reqs).1) ip T.
Proof.
  induction reqs as [|[r env] reqs IH]; intros g Httl Hd Hall; [exact Hd|].
  apply Forall_cons in Hall as [Hre Hall]. cbn [fst snd] in Hre.
  cbn [serve].
  pose proof (handler_keeps g r env Httl Hd Hre) as [H1 H2].
  destruct (handler TrimSpace g r env) as [[g1 resp] evs].
  cbn [fst snd] in *.
  assert (Hs : database.ttlSeconds (db g1) = database.ttlSeconds (db g))
    by (unfold database.ttlSeconds; now rewrite H2).
  specialize (IH g1). rewrite Hs in IH. specialize (IH Httl H1 Hall).
  destruct (serve TrimSpace g1 reqs) as [g2 outs]. exact IH.
Qed.

End BlockedFlag.

(** C7, as the code has it. The blocked flag of a stored record stays set
    for as long as the record is a hit of [Get]: if the row of an identity is
    flagged and every request of that identity in a run is handled while the
    row is within its TTL and the store answers the lookup, then after the
    run (requests of other identities included, whatever the world answers)
    the row is still there, still flagged, with the same creation time. *)
Theorem blocked_kept_while_live
  (TrimSpace : string -> string) (g : gatekeeper.GateKeeper) (ip : string)
  (T : Z) (reqs : list (gatekeeper.Request * gatekeeper.Env)) :
  0 <= database.ttlSeconds (gatekeeper.db g) ->
  blockedSince (gatekeeper.db g) ip T ->
  Forall (fun re =>
            gatekeeper.extractClientIP TrimSpace re.1 = ip ->
            gatekeeper.get_fault re.2 = false
            /\ gatekeeper.now_get re.2 < T + database.ttlSeconds (gatekeeper.db g))
         reqs ->
  blockedSince (gatekeeper.db (gatekeeper.serve TrimSpace g reqs).1) ip T.
Proof. intros Httl Hd Hall. now apply serve_keeps. Qed.

(** After a first request at second 1000 that got the address blocked, a
    request of the same address at second 2000 and one of another address at
    second 2500 leave the flag set. *)
Lemma blocked_kept_while_live_witness :
  blockedSince
    (gatekeeper.db
       (gatekeeper.serve (fun s => s)
          (gatekeeper.serve (fun s => s) samples.g0
             [(samples.req "203.0.113.7", samples.world 1000 90)]).1
          [(samples.req "203.0.113.7", samples.world 2000 10);
           (samples.req "198.51.100.4", samples.world 2500 95)]).1)
    "203.0.113.7" 1000.
Proof.
  apply blocked_kept_while_live.
  - vm_compute. discriminate.
  - exists (database.mkRow 90 "FR" "/admin" None true 1000 1000).
    vm_compute. repeat split.
  - repeat constructor; intros _; (split; [reflexivity | vm_compute; reflexivity]).
Defined.

(** The flag reverts: the address is blocked by a request at second 1000;
    the next request of the address comes after the TTL, the reputation
    source now answers 10, and the row is written back with the flag
    cleared. *)
Lemma blocked_flag_reverts_after_ttl :
  database.blocked_in_fw
    <$> samples.storedRow
          (gatekeeper.serve (fun s => s) samples.g0
             [(samples.req "203.0.113.7", samples.world 1000 90)]).1
          "203.0.113.7"
  = Some true
  /\ database.blocked_in_fw
       <$> samples.storedRow
             (gatekeeper.serve (fun s => s) samples.g0
                [(samples.req "203.0.113.7", samples.world 1000 90);
                 (samples.req "203.0.113.7", samples.world 4601 10)]).1
             "203.0.113.7"
     = Some false.
Proof. vm_compute. split; reflexivity. Qed.

(** ** The order of the checks and the notifications *)

Section HandlerTrace.
Import domain gatekeeper.

Lemma blockLoop_no_lookup_no_notify (clients : list config.UnifiConfig) :
  forall i d info env,
    filter (fun e => isLookup e = true) (blockLoop clients i d info env).2 = []
    /\ filter (fun e => isNotify e = true) (blockLoop clients i d info env).2 = [].
Proof.
  induction clients as [|c rest IH]; intros i d info env; [easy|].
  cbn [blockLoop]. destruct (fw_ok env i).
  - specialize (IH (S i)
      (database.MarkBlocked d (Address (with_BlockedInFW info true))
         (now_mark env i) (mark_fault env i)).1
      (with_BlockedInFW info true) env).
    destruct (blockLoop rest (S i) _ _ env) as [[d2 info2] evs].
    cbn [fst snd] in *. rewrite !filter_cons. cbn. exact IH.
  - specialize (IH (S i) d info env).
    destruct (blockLoop rest (S i) d info env) as [[d2 info2] evs].
    cbn [fst snd] in *. rewrite !filter_cons. cbn. exact IH.
Qed.

(** The calls of [getOrCreateIPInfo] start with the lookup in the store;
    the external lookup, if any, comes second; none is a notification. *)
Lemma getOrCreateIPInfo_trace (g : GateKeeper) (ip path : string)
  (r : Request) (env : Env) :
  (exists found rest,
     (getOrCreateIPInfo g ip path r env).2 = EvDbGet ip found :: rest)
  /\ filter (fun e => isNotify e = true) (getOrCreateIPInfo g ip path r env).2 = []
  /\ notifier (getOrCreateIPInfo g ip path r env).1.1 = notifier g.
Proof.
  unfold getOrCreateIPInfo.
  destruct (database.Get (db g) ip (now_get env) (get_fault env)) as [entry|].
  { cbn. split; [eauto|]. easy. }
  destruct (match check env with Some sc => sc | None => (0, "Unknown"%string) end)
    as [score country].
  destruct (if config.Payload_Enabled (config.Payload (config g)) then _ else _)
    as [ipInfo evPayload] eqn:Hp.
  assert (HnP : filter (fun e => isNotify e = true) evPayload = []).
  { destruct (config.Payload_Enabled _); inversion Hp; subst; reflexivity. }
  destruct (IsHighRisk ipInfo && (0 <? length (unifiClients g))%nat).
  - unfold blockIPInUniFi. cbn [unifiClients db with_db].
    pose proof (blockLoop_no_lookup_no_notify (unifiClients g) 0
                  (database.Set_ (db g) ipInfo (now_set env) (set_fault env)).1
                  ipInfo env) as [_ Hn].
    destruct (blockLoop (unifiClients g) 0 _ ipInfo env) as [[d2 info2] evs].
    cbn [fst snd] in *. split; [eauto|]. split; [|reflexivity].
    rewrite !filter_app, Hn, HnP. reflexivity.
  - cbn [fst snd]. split; [eauto|]. split; [|reflexivity].
    rewrite !filter_app, HnP. reflexivity.
Qed.

Lemma filter_imap_all {A} (P : Event -> bool) (ms : list A) :
  forall f : nat -> A -> Event,
    (forall i m, P (f i m) = true) ->
    filter (fun e => P e = true) (imap f ms) = imap f ms.
Proof.
  induction ms as [|m ms IH]; intros f Hf; [reflexivity|].
  cbn [imap]. rewrite filter_cons, decide_True by apply Hf.
  f_equal. apply IH. intros i m'. apply Hf.
Qed.

Lemma filter_imap_none {A} (P : Event -> bool) (ms : list A) :
  forall f : nat -> A -> Event,
    (forall i m, P (f i m) = false) ->
    filter (fun e => P e = true) (imap f ms) = [].
Proof.
  induction ms as [|m ms IH]; intros f Hf; [reflexivity|].
  cbn [imap]. rewrite filter_cons, decide_False by (rewrite Hf; discriminate).
  apply IH. intros i m'. apply Hf.
Qed.

Lemma notifyEvents_all (g : GateKeeper) (info : IPInfo) (env : Env) :
  filter (fun e => isNotify e = true) (notifyEvents g info env)
  = notifyEvents g info env
  /\ length (notifyEvents g info env) = length (notifier g).
Proof.
  unfold notifyEvents, notification.Notify.
  split; [|now rewrite length_imap, length_map].
  now apply filter_imap_all.
Qed.

End HandlerTrace.

(** C8. For every handled request: when the identity is on the exclusion
    list the handler answers 200 and calls nothing, the rate limiter
    included, and changes nothing; when it is not and the rate limiter
    denies, the handler answers 429 after that one call and the store is not
    touched; when the limiter allows, the calls are the rate check, then the
    lookup in the store, then the rest. So a lookup, in the store or at the
    reputation source, occurs only for an identity that is not excluded and
    that the limiter allowed. *)
Theorem lookups_only_after_both_checks
  (TrimSpace : string -> string) (g : gatekeeper.GateKeeper)
  (r : gatekeeper.Request) (env : gatekeeper.Env) :
  (gatekeeper.isExcludedIP g (gatekeeper.extractClientIP TrimSpace r) = true ->
   gatekeeper.handler TrimSpace g r env = (g, gatekeeper.StatusOK, [])) /\
  (gatekeeper.isExcludedIP g (gatekeeper.extractClientIP TrimSpace r) = false ->
   (ratelimit.Allow (gatekeeper.rateLimiter g)
      (gatekeeper.extractClientIP TrimSpace r) (gatekeeper.now_allow env)).2 = false ->
   (gatekeeper.handler TrimSpace g r env).1.2 = gatekeeper.StatusTooManyRequests
   /\ (gatekeeper.handler TrimSpace g r env).2
      = [gatekeeper.EvAllow (gatekeeper.extractClientIP TrimSpace r) false]
   /\ gatekeeper.db (gatekeeper.handler TrimSpace g r env).1.1 = gatekeeper.db g) /\
  (gatekeeper.isExcludedIP g (gatekeeper.extractClientIP TrimSpace r) = false ->
   (ratelimit.Allow (gatekeeper.rateLimiter g)
      (gatekeeper.extractClientIP TrimSpace r) (gatekeeper.now_allow env)).2 = true ->
   exists found rest,
     (gatekeeper.handler TrimSpace g r env).2
     = gatekeeper.EvAllow (gatekeeper.extractClientIP TrimSpace r) true
         :: gatekeeper.EvDbGet (gatekeeper.extractClientIP TrimSpace r) found
         :: rest) /\
  (forall e,
     e ∈ (gatekeeper.handler TrimSpace g r env).2 ->
     gatekeeper.isLookup e = true ->
     gatekeeper.isExcludedIP g (gatekeeper.extractClientIP TrimSpace r) = false
     /\ (ratelimit.Allow (gatekeeper.rateLimiter g)
           (gatekeeper.extractClientIP TrimSpace r) (gatekeeper.now_allow env)).2
        = true).
Proof.
  unfold gatekeeper.handler.
  set (ip := gatekeeper.extractClientIP TrimSpace r).
  destruct (gatekeeper.isExcludedIP g ip).
  { split; [|split; [|split]]; try discriminate; [reflexivity|].
    intros e He. inversion He. }
  destruct (ratelimit.Allow (gatekeeper.rateLimiter g) ip (gatekeeper.now_allow env))
    as [rl allowed].
  destruct allowed; cbn [negb fst snd].
  - pose proof (getOrCreateIPInfo_trace (gatekeeper.with_rateLimiter g rl) ip
                  (gatekeeper.RequestURI r) r env) as [(found & rest & Htr) _].
    destruct (gatekeeper.getOrCreateIPInfo (gatekeeper.with_rateLimiter g rl) ip
                (gatekeeper.RequestURI r) r env) as [[g1 ipInfo] evs].
    cbn [fst snd] in *. subst evs.
    split; [|split; [|split]]; try discriminate.
    + intros _ _. eexists found, _. reflexivity.
    + intros e _ _. split; reflexivity.
  - split; [|split; [|split]]; try discriminate.
    + intros _ _. repeat split.
    + intros e He. apply list_elem_of_singleton in He. subst e. discriminate.
Qed.

(** Six requests of one address in one minute, with the limit at 5: the
    sixth is answered 429 and the only call made for it is the rate check. *)
Example sixth_request_rejected_before_lookup :
  (gatekeeper.serve (fun s => s) samples.g0
     [(samples.req "203.0.113.9", samples.world 1000 10);
      (samples.req "203.0.113.9", samples.world 1001 10);
      (samples.req "203.0.113.9", samples.world 1002 10);
      (samples.req "203.0.113.9", samples.world 1003 10);
      (samples.req "203.0.113.9", samples.world 1004 10);
      (samples.req "203.0.113.9", samples.world 1005 10)]).2 !! 5%nat
  = Some (gatekeeper.StatusTooManyRequests,
          [gatekeeper.EvAllow "203.0.113.9" false]).
Proof. vm_compute. reflexivity. Qed.

Example excluded_request_allowed :
  gatekeeper.handler (fun s => s) samples.g0 (samples.req "192.0.2.1")
                     (samples.world 1000 90)
  = (samples.g0, gatekeeper.StatusOK, []).
Proof. vm_compute. reflexivity. Qed.

Section NotificationOutcome.
Import domain gatekeeper.

Lemma blockLoop_notify_ok (clients : list config.UnifiConfig) (f : nat -> bool) :
  forall i d info env,
    blockLoop clients i d info (with_notify_ok env f)
    = blockLoop clients i d info env.
Proof.
  induction clients as [|c rest IH]; intros i d info env; [reflexivity|].
  cbn [blockLoop with_notify_ok fw_ok now_mark mark_fault].
  now rewrite !IH.
Qed.

Lemma getOrCreateIPInfo_notify_ok (g : GateKeeper) (ip path : string)
  (r : Request) (env : Env) (f : nat -> bool) :
  getOrCreateIPInfo g ip path r (with_notify_ok env f)
  = getOrCreateIPInfo g ip path r env.
Proof.
  unfold getOrCreateIPInfo, blockIPInUniFi, savePayload.
  cbn [with_notify_ok now_get get_fault check now_info payload_file now_set
       set_fault].
  destruct (database.Get (db g) ip (now_get env) (get_fault env)); [reflexivity|].
  destruct (match check env with Some sc => sc | None => (0, "Unknown"%string) end).
  destruct (if config.Payload_Enabled (config.Payload (config g)) then _ else _).
  destruct (IsHighRisk _ && _); [|reflexivity].
  change (mkEnv (now_allow env) (now_get env) (get_fault env) (check env)
            (now_info env) (payload_file env) (now_set env) (set_fault env)
            (fw_ok env) (now_mark env) (mark_fault env) f (hijack env))
    with (with_notify_ok env f).
  now rewrite blockLoop_notify_ok.
Qed.

End NotificationOutcome.

(** C9, as the code has it. A notification is dispatched to every
    configured notifier for every request that passes the exclusion and rate
    checks, whether the record resolved for it is high-risk (tarpit) or not
    (drop): the messages are those of the resolved record, one per notifier.
    A request that is allowed as excluded or rejected by the rate limiter
    produces none. Whether the deliveries succeed changes neither the
    response nor the state the handler leaves. *)
Theorem notifications_follow_resolution
  (TrimSpace : string -> string) (g : gatekeeper.GateKeeper)
  (r : gatekeeper.Request) (env : gatekeeper.Env) :
  length (filter (fun e => gatekeeper.isNotify e = true)
                 (gatekeeper.handler TrimSpace g r env).2)
  = (if gatekeeper.isExcludedIP g (gatekeeper.extractClientIP TrimSpace r) then 0
     else if (ratelimit.Allow (gatekeeper.rateLimiter g)
                (gatekeeper.extractClientIP TrimSpace r)
                (gatekeeper.now_allow env)).2
          then length (gatekeeper.notifier g)
          else 0)%nat
  /\ (gatekeeper.isExcludedIP g (gatekeeper.extractClientIP TrimSpace r) = false ->
      (ratelimit.Allow (gatekeeper.rateLimiter g)
         (gatekeeper.extractClientIP TrimSpace r) (gatekeeper.now_allow env)).2 = true ->
      filter (fun e => gatekeeper.isNotify e = true)
             (gatekeeper.handler TrimSpace g r env).2
      = imap (fun i m => gatekeeper.EvNotify i m (gatekeeper.notify_ok env i))
             (notification.Notify (gatekeeper.notifier g)
                (gatekeeper.getOrCreateIPInfo
                   (gatekeeper.with_rateLimiter g
                      (ratelimit.Allow (gatekeeper.rateLimiter g)
                         (gatekeeper.extractClientIP TrimSpace r)
                         (gatekeeper.now_allow env)).1)
                   (gatekeeper.extractClientIP TrimSpace r)
                   (gatekeeper.RequestURI r) r env).1.2))
  /\ (forall f,
        (gatekeeper.handler TrimSpace g r (gatekeeper.with_notify_ok env f)).1
        = (gatekeeper.handler TrimSpace g r env).1).
Proof.
  unfold gatekeeper.handler.
  set (ip := gatekeeper.extractClientIP TrimSpace r).
  destruct (gatekeeper.isExcludedIP g ip); [repeat split; discriminate|].
  change (gatekeeper.now_allow (gatekeeper.with_notify_ok env _))
    with (gatekeeper.now_allow env).
  destruct (ratelimit.Allow (gatekeeper.rateLimiter g) ip (gatekeeper.now_allow env))
    as [rl allowed].
  destruct allowed; cbn [negb fst snd]; [|repeat split; discriminate].
  pose proof (getOrCreateIPInfo_trace (gatekeeper.with_rateLimiter g rl) ip
                (gatekeeper.RequestURI r) r env) as (_ & Hnone & Hnotifier).
  assert (Hirr : forall f,
             gatekeeper.getOrCreateIPInfo (gatekeeper.with_rateLimiter g rl) ip
               (gatekeeper.RequestURI r) r (gatekeeper.with_notify_ok env f)
             = gatekeeper.getOrCreateIPInfo (gatekeeper.with_rateLimiter g rl) ip
                 (gatekeeper.RequestURI r) r env)
    by (intros f; apply getOrCreateIPInfo_notify_ok).
  destruct (gatekeeper.getOrCreateIPInfo (gatekeeper.with_rateLimiter g rl) ip
              (gatekeeper.RequestURI r) r env) as [[g1 ipInfo] evs] eqn:Hres.
  cbn [fst snd] in *.
  pose proof (notifyEvents_all g1 ipInfo env) as [Hall Hlen].
  assert (Hfilter : filter (fun e => gatekeeper.isNotify e = true)
                      (gatekeeper.EvAllow ip true
                         :: evs ++ gatekeeper.notifyEvents g1 ipInfo env)
                    = gatekeeper.notifyEvents g1 ipInfo env).
  { rewrite filter_cons. cbn. now rewrite filter_app, Hnone, Hall. }
  split; [|split].
  - rewrite Hfilter, Hlen. now rewrite Hnotifier.
  - intros _ _. rewrite Hfilter. unfold gatekeeper.notifyEvents.
    now rewrite Hnotifier.
  - intros f. rewrite Hirr. reflexivity.
Qed.

(** A request whose record scores 10 is dropped, and the notifier is sent
    the message of a low-severity sighting. *)
Lemma dropped_request_is_notified :
  (gatekeeper.handler (fun s => s) samples.g0 (samples.req "203.0.113.8")
                      (samples.world 1000 10)).1.2
  = gatekeeper.Closed
  /\ filter (fun e => gatekeeper.isNotify e = true)
       (gatekeeper.handler (fun s => s) samples.g0 (samples.req "203.0.113.8")
                           (samples.world 1000 10)).2
     = [gatekeeper.EvNotify 0
          (notification.mkMessage "-1001"
             (notification.mkTemplateData "🟢" "`203.0.113.8`" "FR" 10 "Low"
                                          "Non" "/admin"))
          true].
Proof. vm_compute. split; reflexivity. Qed.

(** ** The limiter of a configuration that disables rate limiting *)

Lemma NewGateKeeper_disabled (cfg : config.Configuration)
  (login_ok : nat -> bool) (stored : gmap string database.Row) (db_ok : bool)
  (g : gatekeeper.GateKeeper) :
  gatekeeper.NewGateKeeper cfg login_ok stored db_ok = Some g ->
  config.RateLimit_Enabled (config.RateLimit cfg) = false ->
  gatekeeper.rateLimiter g = ratelimit.NewIPRateLimiter 5 (1 * Minute).
Proof.
  unfold gatekeeper.NewGateKeeper. intros Hg Hoff. rewrite Hoff in Hg.
  destruct (decide _); [discriminate|]. destruct db_ok; [|discriminate].
  injection Hg as <-. reflexivity.
Qed.

(** C4, on the code. With [enabled: false] and 10 requests per minute in the
    configuration file, [LoadConfiguration] keeps rate limiting disabled, and
    [NewGateKeeper] installs the default limiter of 5 requests per minute:
    of six requests of one address within a minute the sixth is denied by
    [Allow] and answered 429 by the handler. *)
Theorem disabled_rate_limit_still_limits :
  config.RateLimit_Enabled (config.RateLimit samples.cfgDisabled) = false
  /\ match gatekeeper.NewGateKeeper samples.cfgDisabled (fun _ => true) ∅ true with
     | Some g =>
         gatekeeper.rateLimiter g = ratelimit.NewIPRateLimiter 5 (1 * Minute)
         /\ (ratelimit.allows (gatekeeper.rateLimiter g) "203.0.113.9"
               [0; 1 * Second; 2 * Second; 3 * Second; 4 * Second; 5 * Second]).2
            = [true; true; true; true; true; false]
         /\ (gatekeeper.serve (fun s => s) g
               [(samples.req "203.0.113.9", samples.world 1000 10);
                (samples.req "203.0.113.9", samples.world 1001 10);
                (samples.req "203.0.113.9", samples.world 1002 10);
                (samples.req "203.0.113.9", samples.world 1003 10);
                (samples.req "203.0.113.9", samples.world 1004 10);
                (samples.req "203.0.113.9", samples.world 1005 10)]).2 !! 5%nat
            = Some (gatekeeper.StatusTooManyRequests,
                    [gatekeeper.EvAllow "203.0.113.9" false])
     | None => False
     end.
Proof. vm_compute. repeat split. Qed.

(** ** Concurrent resolutions *)

Section Interleaving.
Import domain gatekeeper interleaving.

Lemma alone_add (n m : nat) :
  forall w c, alone (n + m) w c = alone m (alone n w c).1 (alone n w c).2.
Proof.
  induction n as [|n IH]; intros w c; [reflexivity|].
  cbn [Nat.add alone]. destruct (step w c) as [w1 c1]. apply IH.
Qed.

(** The statements of the blocking loop, run one by one, do what
    [blockLoop] does. *)
Lemma alone_blockLoop (ip path : string) (r : Request) (env : Env)
  (clients : list config.UnifiConfig) :
  forall i g k info,
    alone (length clients) (mkWorld g k)
          (mkCall ip path r env (blockFrom info i clients))
    = (mkWorld (with_db g (blockLoop clients i (db g) info env).1.1) k,
       mkCall ip path r env
              (Returned (blockLoop clients i (db g) info env).1.2)).
Proof.
  induction clients as [|c rest IH]; intros i g k info.
  - cbn. now destruct g.
  - cbn [length alone blockFrom step c_point c_env w_g w_checks blockLoop].
    destruct (fw_ok env i).
    + unfold at_point. cbn [c_ip c_path c_req c_env].
      rewrite IH. cbn [db with_db].
      destruct (blockLoop rest (S i) _ _ env) as [[d2 info2] evs].
      reflexivity.
    + unfold at_point. cbn [c_ip c_path c_req c_env].
      rewrite IH.
      destruct (blockLoop rest (S i) _ _ env) as [[d2 info2] evs].
      reflexivity.
Qed.

Lemma getOrCreateIPInfo_miss (g : GateKeeper) (ip path : string)
  (r : Request) (env : Env) :
  database.Get (db g) ip (now_get env) (get_fault env) = None ->
  (getOrCreateIPInfo g ip path r env).1 =
    let ipInfo := resolved g ip path r env in
    let g1 :=
      with_db g (database.Set_ (db g) ipInfo (now_set env) (set_fault env)).1 in
    if IsHighRisk ipInfo && (0 <? length (unifiClients g))%nat
    then (blockIPInUniFi g1 ipInfo env).1
    else (g1, ipInfo).
Proof.
  intros Hget. unfold getOrCreateIPInfo, resolved. rewrite Hget.
  destruct (check env) as [[score country]|];
    destruct (config.Payload_Enabled (config.Payload (config g)));
    try destruct (decide (savePayload g r env = ""));
    cbn zeta;
    match goal with
    | |- context [IsHighRisk ?i && ?b] =>
        destruct (IsHighRisk i && b);
        [destruct (blockIPInUniFi _ i env) as [[? ?] ?]|]; reflexivity
    end.
Qed.

Lemma alone_returned (n : nat) :
  forall w c i, c_point c = Returned i -> alone n w c = (w, c).
Proof.
  induction n as [|n IH]; intros w c i Hc; [reflexivity|].
  cbn [alone]. unfold step. rewrite Hc. now apply (IH w c i).
Qed.

(** A call that runs alone reaches its return after finitely many
    statements, with the store and the record of [getOrCreateIPInfo]. *)
Lemma alone_getOrCreateIPInfo (g : GateKeeper) (k : nat) (ip path : string)
  (r : Request) (env : Env) :
  exists n k',
    alone n (mkWorld g k) (mkCall ip path r env AtGet)
    = (mkWorld (getOrCreateIPInfo g ip path r env).1.1 k',
       mkCall ip path r env
              (Returned (getOrCreateIPInfo g ip path r env).1.2)).
Proof.
  destruct (database.Get (db g) ip (now_get env) (get_fault env))
    as [entry|] eqn:Hget.
  { exists 1%nat, k. unfold getOrCreateIPInfo. cbn. now rewrite Hget. }
  rewrite (getOrCreateIPInfo_miss g ip path r env Hget). cbn zeta.
  set (ipInfo := resolved g ip path r env).
  set (g1 := with_db g (database.Set_ (db g) ipInfo (now_set env)
                                      (set_fault env)).1).
  assert (H3 : alone 3 (mkWorld g k) (mkCall ip path r env AtGet)
               = (mkWorld g1 (S k),
                  mkCall ip path r env
                    (if IsHighRisk ipInfo && (0 <? length (unifiClients g))%nat
                     then blockFrom ipInfo 0 (unifiClients g)
                     else Returned ipInfo))).
  { cbn [alone]. unfold step at 1.
    cbn [c_point c_env c_ip c_path c_req w_g w_checks]. rewrite Hget.
    reflexivity. }
  exists (3 + length (unifiClients g))%nat, (S k).
  rewrite (alone_add 3), H3. cbn [fst snd].
  destruct (IsHighRisk ipInfo && (0 <? length (unifiClients g))%nat).
  - pose proof (alone_blockLoop ip path r env (unifiClients g) 0 g1 (S k) ipInfo)
      as Hloop.
    rewrite Hloop. unfold blockIPInUniFi.
    change (unifiClients g1) with (unifiClients g).
    destruct (blockLoop (unifiClients g) 0 (db g1) ipInfo env) as [[d2 info2] evs].
    reflexivity.
  - now rewrite (alone_returned _ _ _ ipInfo).
Qed.

End Interleaving.

(** C5, on the code. Two first-time resolutions of one address run
    concurrently, each statement of the one followed by the same statement of
    the other: both miss the store before either has written to it, the
    reputation source is called twice, and since it answers the first call
    and fails the second the two callers return records that differ in score
    and country. *)
Theorem concurrent_resolutions_call_out_twice :
  interleaving.w_checks
    (interleaving.run (interleaving.mkWorld samples.g0 0) samples.twoCalls
                      [0; 1; 0; 1; 0; 1; 0; 1]%nat).1
  = 2%nat
  /\ (fun c => (fun i => (domain.Score i, domain.Country i))
                 <$> interleaving.returned c)
       <$> (interleaving.run (interleaving.mkWorld samples.g0 0) samples.twoCalls
                             [0; 1; 0; 1; 0; 1; 0; 1]%nat).2
     = [Some (90, "FR"%string); Some (0, "Unknown"%string)].
Proof. vm_compute. split; reflexivity. Qed.

(** Run one after the other, the same two resolutions call the source
    once, and the second returns the record of the first. *)
Example sequential_resolutions_call_out_once :
  interleaving.w_checks
    (interleaving.run (interleaving.mkWorld samples.g0 0) samples.twoCalls
                      [0; 0; 0; 0; 1]%nat).1
  = 1%nat
  /\ (fun c => (fun i => (domain.Score i, domain.Country i))
                 <$> interleaving.returned c)
       <$> (interleaving.run (interleaving.mkWorld samples.g0 0) samples.twoCalls
                             [0; 0; 0; 0; 1]%nat).2
     = [Some (90, "FR"%string); Some (90, "FR"%string)].
Proof. vm_compute. split; reflexivity. Qed.

(** * Further properties of the code *)

(** ** Strings *)

Section GoStrings.
Import gostrings.

Lemma slice_0_cons (a : ascii) (s : string) (n : nat) :
  slice (String a s) 0 (S n) = String a (slice s 0 n).
Proof. unfold slice. cbn. now rewrite Nat.sub_0_r. Qed.

Lemma slice_0_0 (s : string) : slice s 0 0 = ""%string.
Proof. unfold slice. now destruct s. Qed.

(** The text before the first occurrence of a byte holds no occurrence of
    it, and the byte follows it. *)
Lemma IndexByte_split (c : ascii) (s : string) :
  forall n,
    IndexByte s c = Some n ->
    CountByte (slice s 0 n) c = 0%nat
    /\ exists rest, s = (slice s 0 n ++ String c rest)%string.
Proof.
  induction s as [|a s IH]; intros n Hn; [discriminate|].
  cbn [IndexByte] in Hn. destruct (decide (a = c)) as [->|Hne].
  - injection Hn as <-. rewrite slice_0_0. split; [reflexivity|].
    now exists s.
  - destruct (IndexByte s c) as [m|] eqn:Hm; [|discriminate].
    cbn in Hn. injection Hn as <-. destruct (IH m eq_refl) as [Hc [rest Hrest]].
    rewrite slice_0_cons. split.
    + cbn [CountByte]. now rewrite decide_False by exact Hne.
    + exists rest.
      change (String a s = String a (slice s 0 m ++ String c rest)%string).
      f_equal. exact Hrest.
Qed.

Lemma IndexByte_None (c : ascii) (s : string) :
  IndexByte s c = None -> CountByte s c = 0%nat.
Proof.
  induction s as [|a s IH]; intros Hn; [reflexivity|].
  cbn [IndexByte] in Hn. cbn [CountByte].
  destruct (decide (a = c)); [discriminate|].
  destruct (IndexByte s c); [discriminate|]. now apply IH.
Qed.

Lemma append_cons (a : ascii) (s t : string) :
  (String a s ++ t = String a (s ++ t))%string.
Proof. reflexivity. Qed.

Lemma append_empty (t : string) : ("" ++ t = t)%string.
Proof. reflexivity. Qed.

Lemma IndexByte_app_fresh (c : ascii) (s rest : string) :
  CountByte s c = 0%nat ->
  IndexByte (s ++ String c rest) c = Some (String.length s).
Proof.
  induction s as [|a s IH]; intros Hc.
  - rewrite append_empty. cbn. now rewrite decide_True.
  - rewrite append_cons. cbn [CountByte] in Hc. cbn [IndexByte String.length].
    destruct (decide (a = c)); [discriminate|].
    now rewrite (IH Hc).
Qed.

Lemma CountByte_app (c : ascii) (s t : string) :
  CountByte (s ++ t) c = (CountByte s c + CountByte t c)%nat.
Proof.
  induction s as [|a s IH]; [reflexivity|].
  rewrite append_cons. cbn [CountByte].
  destruct (decide (a = c)); cbn; now rewrite IH.
Qed.

Lemma slice_0_length_app (s t : string) :
  slice (s ++ t) 0 (String.length s) = s.
Proof.
  induction s as [|a s IH]; [apply slice_0_0|].
  change (slice (String a (s ++ t)) 0 (S (String.length s)) = String a s).
  rewrite slice_0_cons. now rewrite IH.
Qed.

End GoStrings.

(** ** The rate limiter, further *)

Section RateLimiterMore.
Import ratelimit.

Lemma Allow_other (rl : IPRateLimiter) (ip ip' : string) (now : Time) :
  ip <> ip' ->
  visitors (Allow rl ip now).1 !! ip' = visitors rl !! ip'.
Proof.
  intros Hne. unfold Allow.
  destruct (visitors rl !! ip) as [v|]; [destruct (_ >? _)|];
    cbn; now rewrite lookup_insert_ne.
Qed.

Lemma Allow_settings (rl : IPRateLimiter) (ip : string) (now : Time) :
  rate (Allow rl ip now).1 = rate rl /\ window (Allow rl ip now).1 = window rl.
Proof.
  unfold Allow.
  destruct (visitors rl !! ip) as [v|]; [destruct (_ >? _)|]; easy.
Qed.

(** The verdict of a call depends on the limiter through the entry of the
    caller and the settings only. *)
Lemma Allow_verdict_local (rl rl' : IPRateLimiter) (ip : string) (now : Time) :
  visitors rl !! ip = visitors rl' !! ip ->
  rate rl = rate rl' ->
  window rl = window rl' ->
  (Allow rl ip now).2 = (Allow rl' ip now).2
  /\ visitors (Allow rl ip now).1 !! ip = visitors (Allow rl' ip now).1 !! ip.
Proof.
  intros Hv Hr Hw. unfold Allow. rewrite Hv, Hr, Hw.
  destruct (visitors rl' !! ip) as [v|]; [destruct (_ >? _)|];
    cbn; now rewrite !lookup_insert_eq.
Qed.

Lemma verdicts_lookup (limit : Z) (n : nat) :
  forall (c : Z) (k : nat),
    (k < n)%nat ->
    verdicts c limit n !! k = Some (c + 1 + Z.of_nat k <=? limit).
Proof.
  induction n as [|n IH]; intros c k Hk; [lia|].
  destruct k as [|k]; cbn [verdicts].
  - cbn. now rewrite Z.add_0_r.
  - cbn [lookup list_lookup]. change (verdicts (c + 1) limit n !! k
      = Some (c + 1 + Z.of_nat (S k) <=? limit)).
    rewrite IH by lia. do 2 f_equal. lia.
Qed.

Lemma Sub_mono (t u t' u' : Time) :
  t - u <= t' - u' -> Sub t u <= Sub t' u'.
Proof. unfold Sub, minDuration, maxDuration. lia. Qed.

End RateLimiterMore.

(** X1. The limiter counts per identity: a call of one identity leaves the
    window of every other identity as it was, and so does not change the
    verdict any other identity gets next. *)
Theorem rate_limit_per_identity
  (rl : ratelimit.IPRateLimiter) (ip1 ip2 : string) (t1 t2 : Time) :
  ip1 <> ip2 ->
  ratelimit.visitors (ratelimit.Allow rl ip1 t1).1 !! ip2
    = ratelimit.visitors rl !! ip2
  /\ (ratelimit.Allow (ratelimit.Allow rl ip1 t1).1 ip2 t2).2
     = (ratelimit.Allow rl ip2 t2).2.
Proof.
  intros Hne. split; [now apply Allow_other|].
  apply Allow_verdict_local; [now apply Allow_other | apply Allow_settings..].
Qed.

Lemma rate_limit_per_identity_witness :
  ratelimit.visitors
    (ratelimit.Allow (ratelimit.NewIPRateLimiter 1 Minute) "203.0.113.7" 0).1
    !! "203.0.113.9"
    = ratelimit.visitors (ratelimit.NewIPRateLimiter 1 Minute) !! "203.0.113.9"
  /\ (ratelimit.Allow
        (ratelimit.Allow (ratelimit.NewIPRateLimiter 1 Minute) "203.0.113.7" 0).1
        "203.0.113.9" 5).2
     = (ratelimit.Allow (ratelimit.NewIPRateLimiter 1 Minute) "203.0.113.9" 5).2.
Proof.
  apply (rate_limit_per_identity (ratelimit.NewIPRateLimiter 1 Minute)
           "203.0.113.7" "203.0.113.9" 0 5).
  discriminate.
Defined.

(** X2. In one window the k-th call of an identity (k counted from 1) is
    allowed exactly when it is the first or k is at most the rate: a rate of
    zero or less still lets the first call of every window through. This
    holds for any number of calls below 2^63, where the counter would wrap. *)
Theorem window_kth_call
  (rl : ratelimit.IPRateLimiter) (ip : string) (t1 : Time) (times : list Time)
  (k : nat) :
  ratelimit.visitors rl !! ip = None ->
  Forall (fun t => Sub t t1 <= ratelimit.window rl) times ->
  Z.of_nat (length times) + 1 < 2 ^ 63 ->
  (k <= length times)%nat ->
  (ratelimit.allows rl ip (t1 :: times)).2 !! k
  = Some (bool_decide (k = 0%nat) || (Z.of_nat k + 1 <=? ratelimit.rate rl)).
Proof.
  intros Hnone Hall Hlen Hk.
  set (v1 := ratelimit.mkVisitor 1 t1 t1).
  set (rl1 := ratelimit.with_visitors rl (<[ip := v1]> (ratelimit.visitors rl))).
  assert (Hv1 : ratelimit.visitors rl1 !! ip = Some v1)
    by (unfold rl1; cbn; apply lookup_insert_eq).
  destruct (allows_within times rl1 ip v1 Hv1) as [Hb _];
    [cbn; lia | cbn; lia | exact Hall |].
  cbn [ratelimit.allows]. rewrite (Allow_first rl ip t1 Hnone).
  fold v1. fold rl1.
  destruct (ratelimit.allows rl1 ip times) as [rl2 bs]. cbn [fst snd] in *.
  subst bs. destruct k as [|k]; [reflexivity|].
  cbn [lookup list_lookup].
  change ((verdicts (ratelimit.count v1) (ratelimit.rate rl1) (length times)) !! k
          = Some (bool_decide (S k = 0%nat)
                  || (Z.of_nat (S k) + 1 <=? ratelimit.rate rl))).
  rewrite verdicts_lookup by lia. cbn [ratelimit.count v1].
  rewrite bool_decide_false by discriminate. cbn [orb].
  do 2 f_equal. lia.
Qed.

(** With the rate at 0, the first of three calls in a minute is allowed and
    the third is not. *)
Lemma window_kth_call_witness :
  (ratelimit.allows (ratelimit.NewIPRateLimiter 0 Minute) "203.0.113.9"
     [0; Second; 2 * Second]).2 !! 0%nat
  = Some (bool_decide (0%nat = 0%nat) || (Z.of_nat 0 + 1 <=? 0)).
Proof.
  apply (window_kth_call (ratelimit.NewIPRateLimiter 0 Minute) "203.0.113.9"
           0 [Second; 2 * Second] 0).
  - reflexivity.
  - repeat constructor; vm_compute; discriminate.
  - vm_compute. reflexivity.
  - cbn. lia.
Defined.

Section RateLimiterEviction.
Import ratelimit.

Lemma cleanup_visitors_lookup (rl : IPRateLimiter) (now : Time) (ip : string) :
  visitors (cleanup rl now) !! ip =
    match visitors rl !! ip with
    | Some v =>
        if Sub now (lastAccess v) >? wrap64 (window rl * 2) then None else Some v
    | None => None
    end.
Proof.
  unfold cleanup. cbn. rewrite map_lookup_filter.
  destruct (visitors rl !! ip) as [v|]; [|reflexivity]. cbn.
  destruct (Sub now (lastAccess v) >? wrap64 (window rl * 2));
    case_guard; cbn in *; first [reflexivity | congruence].
Qed.

Lemma wellTimed_new (limit : Z) (w : Duration) :
  wellTimed (NewIPRateLimiter limit w).
Proof.
  intros ip' v' Hv'. cbn in Hv'. rewrite lookup_empty in Hv'. discriminate.
Qed.

Lemma wellTimed_Allow (rl : IPRateLimiter) (ip : string) (now : Time) :
  wellTimed rl ->
  (forall v, visitors rl !! ip = Some v -> lastReset v <= now) ->
  wellTimed (Allow rl ip now).1.
Proof.
  intros Hwt Hclock ip' v' Hv'. destruct (decide (ip = ip')) as [<-|Hne].
  - unfold Allow in Hv'.
    destruct (visitors rl !! ip) as [v|] eqn:Hv;
      [destruct (_ >? _)|]; cbn in Hv'; rewrite lookup_insert_eq in Hv';
      injection Hv' as <-; cbn; first [lia | now apply Hclock].
  - rewrite Allow_other in Hv' by exact Hne. now apply (Hwt ip').
Qed.

Lemma empty_has_no_window (limit : Z) (w : Duration) (ip : string)
  (v : visitor) :
  visitors (NewIPRateLimiter limit w) !! ip = Some v -> False.
Proof. cbn. rewrite lookup_empty. discriminate. Qed.

End RateLimiterEviction.

(** X3. Eviction is invisible to the verdicts. When the window is not
    negative (and below 2^62 nanoseconds, so that twice the window does not
    wrap) and the limiter is well timed, a call issued after an eviction
    pass gets the verdict, and leaves the window, it would have got and left
    without the pass: an evicted identity had been idle for more than two
    windows, so its window had elapsed and the call restarts it either way. *)
Theorem eviction_keeps_verdicts
  (rl : ratelimit.IPRateLimiter) (ip : string) (now now' : Time) :
  0 <= ratelimit.window rl < 2 ^ 62 ->
  now <= now' ->
  wellTimed rl ->
  (ratelimit.Allow (ratelimit.cleanup rl now) ip now').2
    = (ratelimit.Allow rl ip now').2
  /\ ratelimit.visitors (ratelimit.Allow (ratelimit.cleanup rl now) ip now').1 !! ip
     = ratelimit.visitors (ratelimit.Allow rl ip now').1 !! ip.
Proof.
  intros Hw Hnow Hwt.
  pose proof (cleanup_visitors_lookup rl now ip) as Hl.
  destruct (ratelimit.visitors rl !! ip) as [v|] eqn:Hv.
  - destruct (Z.gtb_spec (Sub now (ratelimit.lastAccess v))
                         (wrap64 (ratelimit.window rl * 2))) as [Hidle|Hfresh].
    + rewrite wrap64_small in Hidle by lia.
      assert (Hel : Sub now' (ratelimit.lastReset v) > ratelimit.window rl).
      { pose proof (Hwt ip v Hv).
        pose proof (Sub_mono now (ratelimit.lastAccess v) now'
                      (ratelimit.lastReset v)). lia. }
      rewrite (Allow_first _ ip now' Hl), (Allow_elapsed rl ip v now' Hv Hel).
      cbn. split; [reflexivity|]. now rewrite !lookup_insert_eq.
    + apply Allow_verdict_local; [now rewrite Hl, Hv | reflexivity..].
  - apply Allow_verdict_local; [now rewrite Hl, Hv | reflexivity..].
Qed.

Lemma eviction_keeps_verdicts_witness :
  (ratelimit.Allow
     (ratelimit.cleanup
        (ratelimit.Allow (ratelimit.NewIPRateLimiter 5 Minute) "203.0.113.9" 0).1
        (3 * Minute))
     "203.0.113.9" (4 * Minute)).2
  = (ratelimit.Allow
       (ratelimit.Allow (ratelimit.NewIPRateLimiter 5 Minute) "203.0.113.9" 0).1
       "203.0.113.9" (4 * Minute)).2.
Proof.
  refine (proj1 (eviction_keeps_verdicts
    (ratelimit.Allow (ratelimit.NewIPRateLimiter 5 Minute) "203.0.113.9" 0).1
    "203.0.113.9" (3 * Minute) (4 * Minute) _ _ _)).
  - vm_compute. split; [discriminate | reflexivity].
  - vm_compute. discriminate.
  - apply wellTimed_Allow; [apply wellTimed_new|].
    intros v Hv. now apply empty_has_no_window in Hv.
Defined.

(** X4. The limiter stays well timed: a new limiter is, and a call read at
    a clock that is not behind the start of the caller's window leaves it
    so. *)
Theorem Allow_keeps_wellTimed
  (rl : ratelimit.IPRateLimiter) (ip : string) (now : Time) :
  wellTimed rl ->
  (forall v, ratelimit.visitors rl !! ip = Some v -> ratelimit.lastReset v <= now) ->
  wellTimed (ratelimit.Allow rl ip now).1
  /\ (forall limit window, wellTimed (ratelimit.NewIPRateLimiter limit window)).
Proof.
  intros Hwt Hclock. split; [now apply wellTimed_Allow|].
  intros limit window. apply wellTimed_new.
Qed.

Lemma Allow_keeps_wellTimed_witness :
  wellTimed
    (ratelimit.Allow (ratelimit.NewIPRateLimiter 5 Minute) "203.0.113.9" 7).1.
Proof.
  refine (proj1 (Allow_keeps_wellTimed (ratelimit.NewIPRateLimiter 5 Minute)
                   "203.0.113.9" 7 _ _)).
  - apply wellTimed_new.
  - intros v Hv. now apply empty_has_no_window in Hv.
Defined.

(** X5. The statistics of the limiter: the active limiters are at most the
    identities held, an eviction pass never adds an identity, and when the
    window is not negative an identity that has just called is counted
    active at the instant of its call. *)
Theorem limiter_stats_bounds
  (rl : ratelimit.IPRateLimiter) (ip : string) (now : Time) :
  0 <= ratelimit.ActiveLimiters (ratelimit.GetStats rl now)
       <= ratelimit.TotalIPs (ratelimit.GetStats rl now)
  /\ (forall t,
        ratelimit.TotalIPs (ratelimit.GetStats (ratelimit.cleanup rl t) now)
        <= ratelimit.TotalIPs (ratelimit.GetStats rl now))
  /\ (0 <= ratelimit.window rl ->
      1 <= ratelimit.ActiveLimiters
             (ratelimit.GetStats (ratelimit.Allow rl ip now).1 now)).
Proof.
  split; [|split].
  - unfold ratelimit.GetStats. cbn.
    pose proof (map_size_filter
                  (fun kv : string * ratelimit.visitor =>
                     Sub now (ratelimit.lastReset kv.2) <= ratelimit.window rl)
                  (ratelimit.visitors rl)). lia.
  - intros t. unfold ratelimit.GetStats, ratelimit.cleanup. cbn.
    pose proof (map_size_filter
                  (fun kv : string * ratelimit.visitor =>
                     negb (Sub t (ratelimit.lastAccess kv.2)
                           >? wrap64 (ratelimit.window rl * 2)) = true)
                  (ratelimit.visitors rl)). lia.
  - intros Hw. unfold ratelimit.GetStats. cbn.
    destruct (Allow_settings rl ip now) as [_ Hwin]. rewrite Hwin.
    assert (Hin : exists v,
               ratelimit.visitors (ratelimit.Allow rl ip now).1 !! ip = Some v
               /\ Sub now (ratelimit.lastReset v) <= ratelimit.window rl).
    { assert (Hzero : Sub now now <= ratelimit.window rl)
        by (unfold Sub, minDuration, maxDuration; lia).
      unfold ratelimit.Allow.
      destruct (ratelimit.visitors rl !! ip) as [v|] eqn:Hv;
        [destruct (Z.gtb_spec (Sub now (ratelimit.lastReset v)) (ratelimit.window rl))|];
        cbn; rewrite lookup_insert_eq; eexists; (split; [reflexivity|]); cbn;
        first [exact Hzero | lia]. }
    destruct Hin as (v & Hv & Hact).
    assert (Hne : filter (fun kv : string * ratelimit.visitor =>
                            Sub now (ratelimit.lastReset kv.2) <= ratelimit.window rl)
                         (ratelimit.visitors (ratelimit.Allow rl ip now).1) <> ∅).
    { intros Hempty.
      assert (Hf : filter (fun kv : string * ratelimit.visitor =>
                             Sub now (ratelimit.lastReset kv.2) <= ratelimit.window rl)
                          (ratelimit.visitors (ratelimit.Allow rl ip now).1) !! ip
                   = Some v)
        by (apply map_lookup_filter_Some; split; [exact Hv | exact Hact]).
      rewrite Hempty, lookup_empty in Hf. discriminate. }
    apply map_size_non_empty_iff in Hne. lia.
Qed.

(** X6. [Reset] forgets one identity and no other: whatever its count was,
    the next call of the identity is allowed and opens a window with count
    1, and the windows of the other identities are untouched. *)
Theorem Reset_forgets_one
  (rl : ratelimit.IPRateLimiter) (ip : string) (now : Time) :
  (ratelimit.Allow (ratelimit.Reset rl ip) ip now).2 = true
  /\ ratelimit.visitors (ratelimit.Allow (ratelimit.Reset rl ip) ip now).1 !! ip
     = Some (ratelimit.mkVisitor 1 now now)
  /\ (forall ip',
        ip' <> ip ->
        ratelimit.visitors (ratelimit.Reset rl ip) !! ip'
        = ratelimit.visitors rl !! ip').
Proof.
  assert (Hnone : ratelimit.visitors (ratelimit.Reset rl ip) !! ip = None)
    by (cbn; apply lookup_delete_eq).
  rewrite (Allow_first _ ip now Hnone). cbn.
  split; [reflexivity|]. split; [apply lookup_insert_eq|].
  intros ip' Hne. now apply lookup_delete_ne.
Qed.

(** X7. [extractIP] of the limiter's middleware returns a prefix of the
    text it reads: of the forwarded-for header when there is one, and then
    without any comma; else of the remote address, and then without any
    colon (so a bracketed IPv6 remote address is cut to its opening
    bracket). *)
Theorem extractIP_prefix (xff remoteAddr : string) :
  (xff <> ""%string ->
   gostrings.CountByte (ratelimit.extractIP xff remoteAddr) "," = 0%nat
   /\ exists rest, xff = (ratelimit.extractIP xff remoteAddr ++ rest)%string) /\
  (xff = ""%string ->
   gostrings.CountByte (ratelimit.extractIP xff remoteAddr) ":" = 0%nat
   /\ exists rest,
        remoteAddr = (ratelimit.extractIP xff remoteAddr ++ rest)%string) /\
  ratelimit.extractIP "" "[::1]:40312" = "["%string.
Proof.
  assert (Hgen : forall (c : ascii) (s : string),
             let r := match gostrings.IndexByte s c with
                      | Some idx => gostrings.slice s 0 idx
                      | None => s
                      end in
             gostrings.CountByte r c = 0%nat /\ exists rest, s = (r ++ rest)%string).
  { intros c s. cbn zeta.
    destruct (gostrings.IndexByte s c) as [idx|] eqn:Hi.
    - destruct (IndexByte_split c s idx Hi) as [Hc [rest Hrest]]. eauto.
    - split; [now apply IndexByte_None|]. exists ""%string.
      clear. induction s as [|a s IH]; [reflexivity|].
      rewrite append_cons. now rewrite <- IH. }
  unfold ratelimit.extractIP. repeat split.
  - rewrite decide_False by assumption. apply Hgen.
  - rewrite decide_False by assumption. apply Hgen.
  - subst. cbn [decide]. apply Hgen.
  - subst. apply Hgen.
Qed.

(** ** The store, further *)

Section StoreMore.
Import domain database.

Lemma cleanup_rows_lookup (db : IPDatabase) (now : Z) (ip : string) :
  rows (cleanup db now false).1 !! ip =
    match rows db !! ip with
    | Some r => if expired (ttlSeconds db) now r then None else Some r
    | None => None
    end.
Proof.
  unfold cleanup. cbn. rewrite map_lookup_filter.
  destruct (rows db !! ip) as [r|]; [|reflexivity]. cbn.
  destruct (expired (ttlSeconds db) now r);
    case_guard; cbn in *; first [reflexivity | congruence].
Qed.

Lemma expired_not_live_later (secs now now' : Z) (r : Row) :
  now <= now' -> expired secs now r = true -> live secs now' r = false.
Proof.
  unfold expired, live. destruct (datetime_plus (timestamp r) secs); [|easy].
  intros Hle He. apply Z.ltb_lt in He.
  destruct (Z.gtb_spec z now'); [lia | reflexivity].
Qed.

Lemma not_live_later (secs now now' : Z) (r : Row) :
  now <= now' -> live secs now r = false -> live secs now' r = false.
Proof.
  unfold live. destruct (datetime_plus (timestamp r) secs); [|easy].
  intros Hle He.
  destruct (Z.gtb_spec z now), (Z.gtb_spec z now'); first [lia | easy].
Qed.

Lemma size_filter_split (P : Row -> bool) (m : gmap string Row) :
  (size (filter (fun kv : string * Row => P kv.2 = true) m)
   + size (filter (fun kv : string * Row => P kv.2 = false) m))%nat
  = size m.
Proof.
  rewrite <- (map_filter_union_complement
                (fun kv : string * Row => P kv.2 = true) m) at 3.
  rewrite map_size_disj_union by apply map_disjoint_filter_complement.
  f_equal. f_equal. apply map_filter_ext. intros i x _. cbn.
  destruct (P x); split; congruence.
Qed.

End StoreMore.

(** X8. The sweep is invisible to later lookups: whatever the TTL, a [Get]
    at or after the time of a [cleanup] returns what it would have returned
    without the sweep. The sweep is the more lenient of the two at the
    boundary: a row whose deadline is the very second of the sweep is kept,
    though [Get] no longer returns it. *)
Theorem sweep_invisible_to_Get
  (db : database.IPDatabase) (ip : string) (now now' : Z) (fc f : bool) :
  now <= now' ->
  database.Get (database.cleanup db now fc).1 ip now' f = database.Get db ip now' f
  /\ (forall r,
        0 <= database.ttlSeconds db ->
        database.rows db !! ip = Some r ->
        database.timestamp r + database.ttlSeconds db = now ->
        database.rows (database.cleanup db now false).1 !! ip = Some r
        /\ database.Get db ip now false = None).
Proof.
  intros Hle. split.
  - destruct fc; [reflexivity|]. unfold database.Get. destruct f; [reflexivity|].
    rewrite cleanup_rows_lookup.
    change (database.ttlSeconds (database.cleanup db now false).1)
      with (database.ttlSeconds db).
    destruct (database.rows db !! ip) as [r|]; [|reflexivity].
    destruct (database.expired (database.ttlSeconds db) now r) eqn:He;
      [|reflexivity].
    now rewrite (expired_not_live_later _ now now' r Hle He).
  - intros r Httl Hr Hd. rewrite cleanup_rows_lookup, Hr.
    rewrite Get_lookup, Hr by exact Httl.
    unfold database.expired, database.datetime_plus.
    destruct (Z.ltb_spec (database.ttlSeconds db) 0); [lia|].
    destruct (Z.ltb_spec (database.timestamp r + database.ttlSeconds db) now);
      [lia|].
    destruct (Z.ltb_spec now (database.timestamp r + database.ttlSeconds db));
      [lia|]. easy.
Qed.

Lemma sweep_invisible_to_Get_witness :
  database.Get
    (database.cleanup
       (database.Set_ (database.NewIPDatabase ∅ gatekeeper.DefaultCacheTTL)
          (domain.mkIPInfo "203.0.113.7" 90 "FR" "/" "" false 0) 1000 false).1
       4000 false).1
    "203.0.113.7" 4500 false
  = database.Get
      (database.Set_ (database.NewIPDatabase ∅ gatekeeper.DefaultCacheTTL)
         (domain.mkIPInfo "203.0.113.7" 90 "FR" "/" "" false 0) 1000 false).1
      "203.0.113.7" 4500 false.
Proof.
  refine (proj1 (sweep_invisible_to_Get _ "203.0.113.7" 4000 4500 false false _)).
  vm_compute. discriminate.
Defined.

(** X9. The accounts of the sweep: [RowsAffected] is the number of expired
    rows, the total drops by exactly that number, and the number of active
    entries at the time of the sweep is unchanged. *)
Theorem sweep_accounts (db : database.IPDatabase) (now : Z) :
  (database.cleanup db now false).2
  = Z.of_nat (size (filter (fun kv : string * database.Row =>
                              database.expired (database.ttlSeconds db) now kv.2
                              = true)
                           (database.rows db)))
  /\ database.TotalEntries (database.GetStats (database.cleanup db now false).1 now)
     = database.TotalEntries (database.GetStats db now)
       - (database.cleanup db now false).2
  /\ database.ActiveEntries (database.GetStats (database.cleanup db now false).1 now)
     = database.ActiveEntries (database.GetStats db now).
Proof.
  pose proof (size_filter_split (database.expired (database.ttlSeconds db) now)
                (database.rows db)) as Hsplit.
  unfold database.cleanup, database.GetStats. cbn.
  split; [lia|]. split; [lia|].
  do 2 f_equal. apply map_eq. intros i.
  change (database.ttlSeconds _) with (database.ttlSeconds db).
  rewrite !map_lookup_filter.
  destruct (database.rows db !! i) as [r|]; [|reflexivity]. cbn.
  destruct (database.expired (database.ttlSeconds db) now r) eqn:He.
  - pose proof (expired_not_live_later _ now now r (Z.le_refl now) He) as Hl.
    repeat (case_guard; cbn in *); first [reflexivity | congruence].
  - repeat (case_guard; cbn in *); first [reflexivity | congruence].
Qed.

(** X10. The statistics of the store: active and blocked entries are each
    at most the total, and the active entries are those addresses for which
    a [Get] at that time returns a record. *)
Theorem store_stats_bounds (db : database.IPDatabase) (now : Z) :
  0 <= database.ActiveEntries (database.GetStats db now)
       <= database.TotalEntries (database.GetStats db now)
  /\ 0 <= database.BlockedEntries (database.GetStats db now)
          <= database.TotalEntries (database.GetStats db now)
  /\ database.ActiveEntries (database.GetStats db now)
     = Z.of_nat (size (filter (fun kv : string * database.Row =>
                                 is_Some (database.Get db kv.1 now false))
                              (database.rows db))).
Proof.
  unfold database.GetStats. cbn. split; [|split].
  - pose proof (map_size_filter
                  (fun kv : string * database.Row =>
                     database.live (database.ttlSeconds db) now kv.2 = true)
                  (database.rows db)). lia.
  - pose proof (map_size_filter
                  (fun kv : string * database.Row =>
                     database.blocked_in_fw kv.2 = true)
                  (database.rows db)). lia.
  - do 2 f_equal. apply map_filter_ext. intros i r Hr. cbn.
    unfold database.Get. rewrite Hr.
    destruct (database.live (database.ttlSeconds db) now r); split; intros H;
      first [reflexivity | discriminate | now eexists
            | destruct H as [? H]; discriminate H].
Qed.

(** X11. [Set] does not revive a row: the upsert keeps the creation time, so
    when the row of an address is no longer live at some time, it is not a
    hit of [Get] at any later time either, however often and whenever it is
    written in between. *)
Theorem Set_does_not_revive
  (db : database.IPDatabase) (ip : string) (old : database.Row)
  (ws : list StoreWrite) (now now' : Z) (f : bool) :
  database.rows db !! ip = Some old ->
  database.live (database.ttlSeconds db) now old = false ->
  now <= now' ->
  database.Get (applyWrites db ws) ip now' f = None.
Proof.
  intros Hold Hdead Hle.
  assert (Hc : created db ip = Some (database.timestamp old))
    by (unfold created; now rewrite Hold).
  destruct (applyWrites_keeps ws db ip _ Hc) as [Hc' Ht'].
  unfold database.Get. destruct f; [reflexivity|].
  unfold created in Hc'.
  destruct (database.rows (applyWrites db ws) !! ip) as [r|]; [|reflexivity].
  cbn in Hc'. injection Hc' as Hts. rewrite Ht'.
  assert (Hlive : database.live (database.ttlSeconds db) now' r
                  = database.live (database.ttlSeconds db) now' old)
    by (unfold database.live; now rewrite Hts).
  rewrite Hlive, (not_live_later _ now now' old Hle Hdead). reflexivity.
Qed.

(** A row of second 1000 has expired at second 4600; written again at
    second 5000, it is still not returned at second 5001. *)
Lemma Set_does_not_revive_witness :
  database.Get
    (applyWrites
       (database.Set_ (database.NewIPDatabase ∅ gatekeeper.DefaultCacheTTL)
          (domain.mkIPInfo "203.0.113.7" 90 "FR" "/" "" false 0) 1000 false).1
       [WSet (domain.mkIPInfo "203.0.113.7" 90 "FR" "/again" "" false 0) 5000 false])
    "203.0.113.7" 5001 false
  = None.
Proof.
  apply (Set_does_not_revive _ "203.0.113.7"
           (database.mkRow 90 "FR" "/" None false 1000 1000) _ 4600 5001 false).
  - vm_compute. reflexivity.
  - vm_compute. reflexivity.
  - vm_compute. discriminate.
Defined.

(** ** The request path and the store *)

Section RequestWrites.
Import domain gatekeeper.

Lemma applyWrites_cons (d : database.IPDatabase) (w : StoreWrite)
  (ws : list StoreWrite) :
  applyWrites d (w :: ws) = applyWrites (applyWrite d w) ws.
Proof. reflexivity. Qed.

Lemma applyWrites_app (ws us : list StoreWrite) (d : database.IPDatabase) :
  applyWrites d (ws ++ us) = applyWrites (applyWrites d ws) us.
Proof. unfold applyWrites. apply fold_left_app. Qed.

(** What the blocking loop does to the store is a run of block marks. *)
Lemma blockLoop_writes (clients : list config.UnifiConfig) :
  forall i d info env,
    exists ws, (blockLoop clients i d info env).1.1 = applyWrites d ws.
Proof.
  induction clients as [|c rest IH]; intros i d info env.
  - now exists [].
  - cbn [blockLoop]. destruct (fw_ok env i).
    + destruct (IH (S i)
        (database.MarkBlocked d (Address (with_BlockedInFW info true))
           (now_mark env i) (mark_fault env i)).1
        (with_BlockedInFW info true) env) as [ws Hws].
      destruct (blockLoop rest (S i) _ _ env) as [[d2 info2] evs].
      cbn [fst snd] in *.
      exists (WMarkBlocked (Address (with_BlockedInFW info true))
                           (now_mark env i) (mark_fault env i) :: ws).
      now rewrite applyWrites_cons.
    + destruct (IH (S i) d info env) as [ws Hws].
      destruct (blockLoop rest (S i) d info env) as [[d2 info2] evs].
      now exists ws.
Qed.

(** What a resolution does to the store is a run of upserts and block
    marks; it changes nothing else of the gatekeeper. *)
Lemma getOrCreateIPInfo_writes (g : GateKeeper) (ip path : string)
  (r : Request) (env : Env) :
  exists ws,
    (getOrCreateIPInfo g ip path r env).1.1
    = with_db g (applyWrites (db g) ws).
Proof.
  unfold getOrCreateIPInfo.
  destruct (database.Get (db g) ip (now_get env) (get_fault env)) as [entry|].
  { exists []. cbn. now destruct g. }
  destruct (match check env with Some sc => sc | None => (0, "Unknown"%string) end)
    as [score country].
  destruct (if config.Payload_Enabled (config.Payload (config g)) then _ else _)
    as [ipInfo evPayload].
  destruct (IsHighRisk ipInfo && (0 <? length (unifiClients g))%nat).
  - unfold blockIPInUniFi. cbn [unifiClients db with_db].
    destruct (blockLoop_writes (unifiClients g) 0
                (database.Set_ (db g) ipInfo (now_set env) (set_fault env)).1
                ipInfo env) as [ws Hws].
    destruct (blockLoop (unifiClients g) 0 _ ipInfo env) as [[d2 info2] evs].
    cbn [fst snd] in *. subst d2.
    exists (WSet ipInfo (now_set env) (set_fault env) :: ws).
    now rewrite applyWrites_cons.
  - exists [WSet ipInfo (now_set env) (set_fault env)]. reflexivity.
Qed.

Section WithTrim.
Variable TrimSpace : string -> string.

Lemma handler_writes (g : GateKeeper) (r : Request) (env : Env) :
  exists ws,
    db (handler TrimSpace g r env).1.1 = applyWrites (db g) ws.
Proof.
  unfold handler. destruct (isExcludedIP g _); [now exists []|].
  destruct (ratelimit.Allow (rateLimiter g) _ (now_allow env)) as [rl allowed].
  destruct allowed; cbn [negb]; [|now exists []].
  destruct (getOrCreateIPInfo_writes (with_rateLimiter g rl)
              (extractClientIP TrimSpace r) (RequestURI r) r env) as [ws Hws].
  destruct (getOrCreateIPInfo (with_rateLimiter g rl) _ _ r env)
    as [[g1 ipInfo] evs].
  cbn [fst snd] in *. subst g1. now exists ws.
Qed.

Lemma serve_writes (reqs : list (Request * Env)) :
  forall g, exists ws, db (serve TrimSpace g reqs).1 = applyWrites (db g) ws.
Proof.
  induction reqs as [|[r env] reqs IH]; intros g; [now exists []|].
  cbn [serve]. destruct (handler_writes g r env) as [ws Hws].
  destruct (handler TrimSpace g r env) as [[g1 resp] evs]. cbn [fst snd] in Hws.
  destruct (IH g1) as [us Hus].
  destruct (serve TrimSpace g1 reqs) as [g2 outs]. cbn [fst snd] in *.
  exists (ws ++ us). now rewrite applyWrites_app, <- Hws.
Qed.

End WithTrim.
End RequestWrites.

(** X12. The request path never deletes a row and never restarts its TTL:
    after any run of requests, whatever the world answers, every address
    that had a row still has one, created at the same time, and the TTL of
    the store is the same. *)
Theorem requests_never_delete
  (TrimSpace : string -> string) (g : gatekeeper.GateKeeper)
  (reqs : list (gatekeeper.Request * gatekeeper.Env)) (ip : string) (T : Z) :
  created (gatekeeper.db g) ip = Some T ->
  created (gatekeeper.db (gatekeeper.serve TrimSpace g reqs).1) ip = Some T
  /\ database.ttlSeconds (gatekeeper.db (gatekeeper.serve TrimSpace g reqs).1)
     = database.ttlSeconds (gatekeeper.db g).
Proof.
  intros Hc. destruct (serve_writes TrimSpace reqs g) as [ws ->].
  now apply applyWrites_keeps.
Qed.

Lemma requests_never_delete_witness :
  created
    (gatekeeper.db
       (gatekeeper.serve (fun s => s)
          (gatekeeper.serve (fun s => s) samples.g0
             [(samples.req "203.0.113.7", samples.world 1000 90)]).1
          [(samples.req "203.0.113.7", samples.world 9000 10);
           (samples.req "198.51.100.4", samples.world 9500 95)]).1)
    "203.0.113.7"
  = Some 1000.
Proof.
  refine (proj1 (requests_never_delete (fun s => s) _ _ "203.0.113.7" 1000 _)).
  vm_compute. reflexivity.
Defined.

(** X13. Expiry is permanent. Once the row of an identity is past its TTL,
    every request of that identity that passes the exclusion and rate checks
    misses the store and calls the reputation source, and leaves the row
    with its old creation time, so that the same holds for the next
    request. *)
Theorem expired_identity_always_looked_up
  (TrimSpace : string -> string) (g : gatekeeper.GateKeeper)
  (r : gatekeeper.Request) (env : gatekeeper.Env) (T : Z) :
  0 <= database.ttlSeconds (gatekeeper.db g) ->
  created (gatekeeper.db g) (gatekeeper.extractClientIP TrimSpace r) = Some T ->
  T + database.ttlSeconds (gatekeeper.db g) <= gatekeeper.now_get env ->
  gatekeeper.isExcludedIP g (gatekeeper.extractClientIP TrimSpace r) = false ->
  (ratelimit.Allow (gatekeeper.rateLimiter g)
     (gatekeeper.extractClientIP TrimSpace r) (gatekeeper.now_allow env)).2 = true ->
  (exists rest,
     (gatekeeper.handler TrimSpace g r env).2
     = gatekeeper.EvAllow (gatekeeper.extractClientIP TrimSpace r) true
         :: gatekeeper.EvDbGet (gatekeeper.extractClientIP TrimSpace r) false
         :: gatekeeper.EvCheck (gatekeeper.extractClientIP TrimSpace r)
         :: rest)
  /\ created (gatekeeper.db (gatekeeper.handler TrimSpace g r env).1.1)
             (gatekeeper.extractClientIP TrimSpace r) = Some T.
Proof.
  intros Httl Hc Hexp Hex Hallow. split.
  - unfold gatekeeper.handler. rewrite Hex.
    destruct (ratelimit.Allow (gatekeeper.rateLimiter g) _ (gatekeeper.now_allow env))
      as [rl allowed]. cbn [snd] in Hallow. subst allowed. cbn [negb].
    set (ip := gatekeeper.extractClientIP TrimSpace r) in *.
    assert (Hmiss : database.Get (gatekeeper.db (gatekeeper.with_rateLimiter g rl))
                      ip (gatekeeper.now_get env) (gatekeeper.get_fault env) = None).
    { destruct (gatekeeper.get_fault env); [reflexivity|].
      now apply (Get_created (gatekeeper.db g) ip _ T Httl Hc). }
    unfold gatekeeper.getOrCreateIPInfo. rewrite Hmiss.
    destruct (match gatekeeper.check env with
              | Some sc => sc | None => (0, "Unknown"%string) end)
      as [score country].
    destruct (if config.Payload_Enabled _ then _ else _) as [ipInfo evPayload].
    destruct (domain.IsHighRisk ipInfo && _).
    + destruct (gatekeeper.blockIPInUniFi _ ipInfo env) as [[g2 info2] evBlock].
      cbn. eauto.
    + cbn. eauto.
  - destruct (handler_writes TrimSpace g r env) as [ws ->].
    now apply applyWrites_keeps.
Qed.

(** The address was resolved at second 1000; at second 9000 its request
    calls the reputation source again. *)
Lemma expired_identity_always_looked_up_witness :
  exists rest,
    (gatekeeper.handler (fun s => s)
       (gatekeeper.serve (fun s => s) samples.g0
          [(samples.req "203.0.113.7", samples.world 1000 90)]).1
       (samples.req "203.0.113.7") (samples.world 9000 90)).2
    = gatekeeper.EvAllow "203.0.113.7" true
        :: gatekeeper.EvDbGet "203.0.113.7" false
        :: gatekeeper.EvCheck "203.0.113.7"
        :: rest.
Proof.
  refine (proj1 (expired_identity_always_looked_up (fun s => s)
    (gatekeeper.serve (fun s => s) samples.g0
       [(samples.req "203.0.113.7", samples.world 1000 90)]).1
    (samples.req "203.0.113.7") (samples.world 9000 90) 1000 _ _ _ _ _)).
  - vm_compute. discriminate.
  - vm_compute. reflexivity.
  - vm_compute. discriminate.
  - vm_compute. reflexivity.
  - vm_compute. reflexivity.
Defined.

(** ** The firewall fan-out *)

Section FanOut.
Import domain gatekeeper.

Lemma blockLoop_fan_out (clients : list config.UnifiConfig) :
  forall i d info env,
    filter (fun e => isFirewallCall e = true) (blockLoop clients i d info env).2
    = map (fun j => EvAddIPToFirewall j (Address info) (fw_ok env j))
          (seq i (length clients))
    /\ BlockedInFW (blockLoop clients i d info env).1.2
       = BlockedInFW info || existsb (fw_ok env) (seq i (length clients))
    /\ length (filter (fun e => isStoreWrite e = true)
                      (blockLoop clients i d info env).2)
       = length (filter (fun j => fw_ok env j = true) (seq i (length clients)))
    /\ with_BlockedInFW (blockLoop clients i d info env).1.2 false
       = with_BlockedInFW info false.
Proof.
  induction clients as [|c rest IH]; intros i d info env.
  - cbn. rewrite orb_false_r. easy.
  - cbn [blockLoop length seq map existsb]. rewrite (filter_cons _ i).
    destruct (fw_ok env i) eqn:Hok.
    + specialize (IH (S i)
        (database.MarkBlocked d (Address (with_BlockedInFW info true))
           (now_mark env i) (mark_fault env i)).1
        (with_BlockedInFW info true) env).
      destruct (blockLoop rest (S i) _ _ env) as [[d2 info2] evs].
      cbn [fst snd] in *. destruct IH as (IH1 & IH2 & IH3 & IH4).
      rewrite !filter_cons. cbn.
      repeat case_decide; try discriminate; try congruence.
      cbn [length]. rewrite IH1, IH2, IH3, IH4.
      rewrite orb_true_r. easy.
    + specialize (IH (S i) d info env).
      destruct (blockLoop rest (S i) d info env) as [[d2 info2] evs].
      cbn [fst snd] in *. destruct IH as (IH1 & IH2 & IH3 & IH4).
      rewrite !filter_cons. cbn.
      repeat case_decide; try discriminate; try congruence.
      rewrite IH1, IH2, IH3, IH4. easy.
Qed.

(** Once a backend has confirmed and the mark has been written, the row is
    flagged when the loop ends. *)
Lemma blockLoop_marks (clients : list config.UnifiConfig) (T : Z) :
  forall i d info env,
    created d (Address info) = Some T ->
    (exists j, (i <= j < i + length clients)%nat
               /\ fw_ok env j = true /\ mark_fault env j = false) ->
    blockedSince (blockLoop clients i d info env).1.1 (Address info) T.
Proof.
  induction clients as [|c rest IH]; intros i d info env Hc (j & Hj & Hok & Hmf).
  - cbn in Hj. lia.
  - cbn [blockLoop]. destruct (fw_ok env i) eqn:Hoki.
    + set (d1 := (database.MarkBlocked d (Address (with_BlockedInFW info true))
                    (now_mark env i) (mark_fault env i)).1).
      assert (Hc1 : created d1 (Address info) = Some T)
        by (apply (created_applyWrite d
                     (WMarkBlocked (Address (with_BlockedInFW info true))
                                   (now_mark env i) (mark_fault env i)));
            exact Hc).
      destruct (decide (j = i)) as [->|Hji].
      * pose proof (blockLoop_keeps (Address info) T rest (S i) d1
                      (with_BlockedInFW info true) env) as Hkeep.
        destruct (blockLoop rest (S i) d1 _ env) as [[d2 info2] evs].
        cbn [fst snd] in *. apply Hkeep.
        unfold blockedSince, d1. rewrite Hmf.
        rewrite MarkBlocked_lookup, decide_True by reflexivity.
        unfold created in Hc.
        destruct (database.rows d !! Address info) as [row|]; [|discriminate].
        cbn in *. injection Hc as Hc. eexists. repeat split. exact Hc.
      * specialize (IH (S i) d1 (with_BlockedInFW info true) env Hc1).
        destruct (blockLoop rest (S i) d1 _ env) as [[d2 info2] evs].
        cbn [fst snd] in *. apply IH. exists j. cbn [length] in Hj.
        repeat split; first [lia | assumption].
    + assert (Hji : j <> i) by congruence.
      specialize (IH (S i) d info env Hc).
      destruct (blockLoop rest (S i) d info env) as [[d2 info2] evs].
      cbn [fst snd] in *. apply IH. exists j. cbn [length] in Hj.
      repeat split; first [lia | assumption].
Qed.

Lemma blockLoop_keeps_ttl (clients : list config.UnifiConfig) :
  forall i d info env,
    database.ttl (blockLoop clients i d info env).1.1 = database.ttl d.
Proof.
  induction clients as [|c rest IH]; intros i d info env; [reflexivity|].
  cbn [blockLoop]. destruct (fw_ok env i).
  - specialize (IH (S i)
      (database.MarkBlocked d (Address (with_BlockedInFW info true))
         (now_mark env i) (mark_fault env i)).1
      (with_BlockedInFW info true) env).
    destruct (blockLoop rest (S i) _ _ env) as [[d2 info2] evs].
    cbn [fst snd] in *. rewrite IH. unfold database.MarkBlocked.
    now destruct (mark_fault env i).
  - specialize (IH (S i) d info env).
    now destruct (blockLoop rest (S i) d info env) as [[d2 info2] evs].
Qed.

Lemma blockIPInUniFi_score (g : GateKeeper) (info : IPInfo) (env : Env) :
  Score (blockIPInUniFi g info env).1.2 = Score info.
Proof.
  unfold blockIPInUniFi.
  pose proof (blockLoop_fan_out (unifiClients g) 0 (db g) info env)
    as (_ & _ & _ & H4).
  destruct (blockLoop (unifiClients g) 0 (db g) info env) as [[d2 info2] evs].
  cbn [fst snd] in *. now apply (f_equal Score) in H4.
Qed.

End FanOut.

(** X14. The firewall fan-out does not short-circuit: [blockIPInUniFi] calls
    every logged-in controller once, in order, whatever the earlier ones
    answered; it writes one block mark per success; the record it returns is
    flagged blocked exactly when it already was or at least one controller
    succeeded, and is otherwise the record it was given. When a controller
    succeeds and its mark is written, the stored row of the address ends up
    flagged. *)
Theorem firewall_fan_out
  (g : gatekeeper.GateKeeper) (info : domain.IPInfo) (env : gatekeeper.Env) :
  filter (fun e => isFirewallCall e = true) (gatekeeper.blockIPInUniFi g info env).2
  = map (fun j => gatekeeper.EvAddIPToFirewall j (domain.Address info)
                    (gatekeeper.fw_ok env j))
        (seq 0 (length (gatekeeper.unifiClients g)))
  /\ domain.BlockedInFW (gatekeeper.blockIPInUniFi g info env).1.2
     = domain.BlockedInFW info
       || existsb (gatekeeper.fw_ok env) (seq 0 (length (gatekeeper.unifiClients g)))
  /\ length (filter (fun e => isStoreWrite e = true)
                    (gatekeeper.blockIPInUniFi g info env).2)
     = length (filter (fun j => gatekeeper.fw_ok env j = true)
                      (seq 0 (length (gatekeeper.unifiClients g))))
  /\ domain.with_BlockedInFW (gatekeeper.blockIPInUniFi g info env).1.2 false
     = domain.with_BlockedInFW info false
  /\ (forall T j,
        created (gatekeeper.db g) (domain.Address info) = Some T ->
        (j < length (gatekeeper.unifiClients g))%nat ->
        gatekeeper.fw_ok env j = true ->
        gatekeeper.mark_fault env j = false ->
        blockedSince (gatekeeper.db (gatekeeper.blockIPInUniFi g info env).1.1)
                     (domain.Address info) T).
Proof.
  unfold gatekeeper.blockIPInUniFi.
  pose proof (blockLoop_fan_out (gatekeeper.unifiClients g) 0 (gatekeeper.db g)
                info env) as (H1 & H2 & H3 & H4).
  assert (H5 : forall T j,
             created (gatekeeper.db g) (domain.Address info) = Some T ->
             (j < length (gatekeeper.unifiClients g))%nat ->
             gatekeeper.fw_ok env j = true ->
             gatekeeper.mark_fault env j = false ->
             blockedSince
               (gatekeeper.blockLoop (gatekeeper.unifiClients g) 0
                  (gatekeeper.db g) info env).1.1
               (domain.Address info) T).
  { intros T j Hc Hj Hok Hmf. apply blockLoop_marks; [exact Hc|].
    exists j. repeat split; first [lia | assumption]. }
  destruct (gatekeeper.blockLoop (gatekeeper.unifiClients g) 0 (gatekeeper.db g)
              info env) as [[d2 info2] evs].
  cbn [fst snd gatekeeper.db gatekeeper.with_db] in *. easy.
Qed.

(** X15. The firewall is reached on a first sighting of a high-risk
    identity only: a resolution that makes a firewall call has missed the
    store and returns a record that scores above 75. A record served from
    the store is never sent to the firewall again, blocked or not. *)
Theorem firewall_only_on_fresh_high_risk
  (g : gatekeeper.GateKeeper) (ip path : string) (r : gatekeeper.Request)
  (env : gatekeeper.Env) :
  filter (fun e => isFirewallCall e = true)
         (gatekeeper.getOrCreateIPInfo g ip path r env).2 <> [] ->
  database.Get (gatekeeper.db g) ip (gatekeeper.now_get env)
               (gatekeeper.get_fault env) = None
  /\ domain.Score (gatekeeper.getOrCreateIPInfo g ip path r env).1.2 > 75
  /\ gatekeeper.unifiClients g <> [].
Proof.
  unfold gatekeeper.getOrCreateIPInfo.
  destruct (database.Get (gatekeeper.db g) ip (gatekeeper.now_get env)
              (gatekeeper.get_fault env)) as [entry|];
    [intros H; exfalso; apply H; reflexivity|].
  destruct (match gatekeeper.check env with
            | Some sc => sc | None => (0, "Unknown"%string) end)
    as [score country].
  destruct (if config.Payload_Enabled _ then _ else _) as [ipInfo evPayload] eqn:Hp.
  assert (HnP : filter (fun e => isFirewallCall e = true) evPayload = []).
  { destruct (config.Payload_Enabled _); inversion Hp; subst; reflexivity. }
  destruct (domain.IsHighRisk ipInfo) eqn:Hrisk; cbn [andb].
  - destruct (0 <? length (gatekeeper.unifiClients g))%nat eqn:Hlen.
    + pose proof (blockIPInUniFi_score
                    (gatekeeper.with_db g
                       (database.Set_ (gatekeeper.db g) ipInfo
                          (gatekeeper.now_set env) (gatekeeper.set_fault env)).1)
                    ipInfo env) as Hsame.
      destruct (gatekeeper.blockIPInUniFi _ ipInfo env) as [[g2 info2] evBlock].
      cbn [fst snd] in *. intros _. split; [reflexivity|]. split.
      * rewrite Hsame. now apply IsHighRisk_spec.
      * destruct (gatekeeper.unifiClients g); [discriminate | congruence].
    + cbn [fst snd]. rewrite !filter_app, HnP.
      intros H; exfalso; apply H; reflexivity.
  - cbn [fst snd]. rewrite !filter_app, HnP.
    intros H; exfalso; apply H; reflexivity.
Qed.

Lemma firewall_only_on_fresh_high_risk_witness :
  database.Get (gatekeeper.db samples.g0) "203.0.113.7"
               (gatekeeper.now_get (samples.world 1000 90))
               (gatekeeper.get_fault (samples.world 1000 90)) = None
  /\ domain.Score
       (gatekeeper.getOrCreateIPInfo samples.g0 "203.0.113.7" "/admin"
          (samples.req "203.0.113.7") (samples.world 1000 90)).1.2 > 75
  /\ gatekeeper.unifiClients samples.g0 <> [].
Proof.
  apply firewall_only_on_fresh_high_risk.
  vm_compute. discriminate.
Defined.

(** ** The resolver *)

Section Resolver.
Import domain gatekeeper.

Lemma blockLoop_sameRecord (clients : list config.UnifiConfig) (a : string) :
  forall i d info env r,
    database.rows d !! a = Some r ->
    exists r',
      database.rows (blockLoop clients i d info env).1.1 !! a = Some r'
      /\ sameRecord r r'.
Proof.
  induction clients as [|c rest IH]; intros i d info env r Hr.
  - exists r. cbn. unfold sameRecord. easy.
  - cbn [blockLoop]. destruct (fw_ok env i).
    + set (d1 := (database.MarkBlocked d (Address (with_BlockedInFW info true))
                    (now_mark env i) (mark_fault env i)).1).
      assert (Hr1 : exists r1, database.rows d1 !! a = Some r1 /\ sameRecord r r1).
      { unfold d1, database.MarkBlocked. destruct (mark_fault env i).
        - exists r. unfold sameRecord. easy.
        - cbn [fst database.rows database.with_rows].
          destruct (decide (Address (with_BlockedInFW info true) = a)) as [->|Hne].
          + rewrite lookup_alter_eq, Hr. cbn. eexists. split; [reflexivity|].
            unfold sameRecord. easy.
          + rewrite lookup_alter_ne by exact Hne. exists r.
            unfold sameRecord. easy. }
      destruct Hr1 as (r1 & Hr1 & Hs1).
      destruct (IH (S i) d1 (with_BlockedInFW info true) env r1 Hr1)
        as (r' & Hr' & Hs').
      destruct (blockLoop rest (S i) d1 _ env) as [[d2 info2] evs].
      cbn [fst snd] in *. exists r'. split; [exact Hr'|].
      unfold sameRecord in *. intuition congruence.
    + destruct (IH (S i) d info env r Hr) as (r' & Hr' & Hs').
      destruct (blockLoop rest (S i) d info env) as [[d2 info2] evs].
      cbn [fst snd] in *. eauto.
Qed.

Lemma blockIPInUniFi_country (g : GateKeeper) (info : IPInfo) (env : Env) :
  Country (blockIPInUniFi g info env).1.2 = Country info
  /\ Address (blockIPInUniFi g info env).1.2 = Address info.
Proof.
  unfold blockIPInUniFi.
  pose proof (blockLoop_fan_out (unifiClients g) 0 (db g) info env)
    as (_ & _ & _ & H4).
  destruct (blockLoop (unifiClients g) 0 (db g) info env) as [[d2 info2] evs].
  cbn [fst snd] in *.
  split; [now apply (f_equal Country) in H4 | now apply (f_equal Address) in H4].
Qed.

(** After a resolution that missed the store and whose upsert was written,
    the row of the address holds the score and country of the record
    returned, and was created at the time of the upsert unless a row was
    there before. *)
Lemma getOrCreateIPInfo_stores (g : GateKeeper) (ip path : string)
  (r : Request) (env : Env) :
  database.Get (db g) ip (now_get env) (get_fault env) = None ->
  set_fault env = false ->
  exists row,
    database.rows (db (getOrCreateIPInfo g ip path r env).1.1) !! ip = Some row
    /\ database.score row = Score (getOrCreateIPInfo g ip path r env).1.2
    /\ database.country row = Country (getOrCreateIPInfo g ip path r env).1.2
    /\ database.timestamp row = default (now_set env) (created (db g) ip)
    /\ database.ttl (db (getOrCreateIPInfo g ip path r env).1.1)
       = database.ttl (db g).
Proof.
  intros Hget Hset. rewrite (getOrCreateIPInfo_miss g ip path r env Hget).
  cbn zeta. set (ipInfo := interleaving.resolved g ip path r env).
  assert (Haddr : Address ipInfo = ip).
  { unfold ipInfo, interleaving.resolved.
    destruct (check env) as [[s c]|];
      destruct (config.Payload_Enabled _); try destruct (decide _); reflexivity. }
  set (d1 := (database.Set_ (db g) ipInfo (now_set env) (set_fault env)).1).
  assert (Hrow : exists row,
             database.rows d1 !! ip = Some row
             /\ database.score row = Score ipInfo
             /\ database.country row = Country ipInfo
             /\ database.timestamp row = default (now_set env) (created (db g) ip)).
  { unfold d1. rewrite Hset, Set_lookup, decide_True by exact Haddr.
    eexists. split; [reflexivity|]. cbn. easy. }
  destruct Hrow as (row & Hrow & Hs & Hc & Ht).
  assert (Httl : database.ttl d1 = database.ttl (db g))
    by (unfold d1, database.Set_; now destruct (set_fault env)).
  destruct (IsHighRisk ipInfo && (0 <? length (unifiClients g))%nat).
  - pose proof (blockIPInUniFi_score (with_db g d1) ipInfo env) as Hscore.
    pose proof (blockIPInUniFi_country (with_db g d1) ipInfo env) as [Hcountry _].
    unfold blockIPInUniFi in *. cbn [unifiClients db with_db] in *.
    destruct (blockLoop_sameRecord (unifiClients g) ip 0 d1 ipInfo env row Hrow)
      as (row' & Hrow' & Hsame).
    pose proof (blockLoop_keeps_ttl (unifiClients g) 0 d1 ipInfo env) as Hkeep.
    destruct (blockLoop (unifiClients g) 0 d1 ipInfo env) as [[d2 info2] evs].
    cbn [fst snd db with_db] in *. exists row'.
    unfold sameRecord in Hsame. intuition congruence.
  - cbn [fst snd db with_db]. exists row. easy.
Qed.

End Resolver.

(** X16. Resolver idempotence within the TTL. After the first sighting of
    an address (no row before; the upsert written at second [now_set]), a
    second resolution whose lookup is answered before [now_set + TTL] is
    served from the store: it makes no call but the lookup, leaves the
    gatekeeper as it is, and returns a record with the score and country of
    the first and the path of the second request. *)
Theorem second_sighting_served_from_store
  (g : gatekeeper.GateKeeper) (ip path1 path2 : string)
  (r1 r2 : gatekeeper.Request) (env1 env2 : gatekeeper.Env) :
  0 <= database.ttlSeconds (gatekeeper.db g) ->
  database.rows (gatekeeper.db g) !! ip = None ->
  gatekeeper.set_fault env1 = false ->
  gatekeeper.get_fault env2 = false ->
  gatekeeper.now_get env2
    < gatekeeper.now_set env1 + database.ttlSeconds (gatekeeper.db g) ->
  exists info2,
    gatekeeper.getOrCreateIPInfo
      (gatekeeper.getOrCreateIPInfo g ip path1 r1 env1).1.1 ip path2 r2 env2
    = ((gatekeeper.getOrCreateIPInfo g ip path1 r1 env1).1.1, info2,
       [gatekeeper.EvDbGet ip true])
    /\ domain.Address info2 = ip
    /\ domain.Score info2
       = domain.Score (gatekeeper.getOrCreateIPInfo g ip path1 r1 env1).1.2
    /\ domain.Country info2
       = domain.Country (gatekeeper.getOrCreateIPInfo g ip path1 r1 env1).1.2
    /\ domain.Path info2 = path2.
Proof.
  intros Httl Hnone Hset Hget2 Hnow.
  assert (Hmiss : database.Get (gatekeeper.db g) ip (gatekeeper.now_get env1)
                    (gatekeeper.get_fault env1) = None).
  { unfold database.Get. destruct (gatekeeper.get_fault env1); [reflexivity|].
    now rewrite Hnone. }
  destruct (getOrCreateIPInfo_stores g ip path1 r1 env1 Hmiss Hset)
    as (row & Hrow & Hscore & Hcountry & Hts & Hsame).
  assert (Hcr : created (gatekeeper.db g) ip = None)
    by (unfold created; now rewrite Hnone).
  rewrite Hcr in Hts. cbn in Hts.
  set (g1 := (gatekeeper.getOrCreateIPInfo g ip path1 r1 env1).1.1) in *.
  assert (Ht1 : database.ttlSeconds (gatekeeper.db g1)
                = database.ttlSeconds (gatekeeper.db g))
    by (unfold database.ttlSeconds; now rewrite Hsame).
  assert (Hhit : database.Get (gatekeeper.db g1) ip (gatekeeper.now_get env2)
                   (gatekeeper.get_fault env2)
                 = Some (database.scan ip row)).
  { rewrite Hget2, Get_lookup, Hrow by (rewrite Ht1; exact Httl).
    rewrite Ht1, Hts.
    destruct (Z.ltb_spec (gatekeeper.now_get env2)
                (gatekeeper.now_set env1 + database.ttlSeconds (gatekeeper.db g)));
      [reflexivity | lia]. }
  exists (domain.with_Path (database.scan ip row) path2).
  unfold gatekeeper.getOrCreateIPInfo at 1. rewrite Hhit. cbn.
  repeat split; assumption.
Qed.

Lemma second_sighting_served_from_store_witness :
  exists info2,
    gatekeeper.getOrCreateIPInfo
      (gatekeeper.getOrCreateIPInfo samples.g0 "203.0.113.7" "/admin"
         (samples.req "203.0.113.7") (samples.world 1000 90)).1.1
      "203.0.113.7" "/login" (samples.req "203.0.113.7") (samples.worldDown 2000)
    = ((gatekeeper.getOrCreateIPInfo samples.g0 "203.0.113.7" "/admin"
          (samples.req "203.0.113.7") (samples.world 1000 90)).1.1,
       info2, [gatekeeper.EvDbGet "203.0.113.7" true])
    /\ domain.Address info2 = "203.0.113.7"%string
    /\ domain.Score info2
       = domain.Score
           (gatekeeper.getOrCreateIPInfo samples.g0 "203.0.113.7" "/admin"
              (samples.req "203.0.113.7") (samples.world 1000 90)).1.2
    /\ domain.Country info2
       = domain.Country
           (gatekeeper.getOrCreateIPInfo samples.g0 "203.0.113.7" "/admin"
              (samples.req "203.0.113.7") (samples.world 1000 90)).1.2
    /\ domain.Path info2 = "/login"%string.
Proof.
  apply second_sighting_served_from_store.
  - vm_compute. discriminate.
  - reflexivity.
  - reflexivity.
  - reflexivity.
  - vm_compute. reflexivity.
Defined.

(** X17. An unreachable reputation source never blocks. When the identity
    passes the exclusion and rate checks, misses the store, and the
    reputation call fails, the handler drops the connection as for a
    low-risk identity, makes no firewall call, and (when the upsert is
    written) stores the identity with score 0, country Unknown and the flag
    clear. *)
Theorem unreachable_source_drops
  (TrimSpace : string -> string) (g : gatekeeper.GateKeeper)
  (r : gatekeeper.Request) (env : gatekeeper.Env) :
  gatekeeper.isExcludedIP g (gatekeeper.extractClientIP TrimSpace r) = false ->
  (ratelimit.Allow (gatekeeper.rateLimiter g)
     (gatekeeper.extractClientIP TrimSpace r) (gatekeeper.now_allow env)).2 = true ->
  database.Get (gatekeeper.db g) (gatekeeper.extractClientIP TrimSpace r)
               (gatekeeper.now_get env) (gatekeeper.get_fault env) = None ->
  gatekeeper.check env = None ->
  (gatekeeper.handler TrimSpace g r env).1.2 = gatekeeper.dropConnection env
  /\ filter (fun e => isFirewallCall e = true)
            (gatekeeper.handler TrimSpace g r env).2 = []
  /\ (gatekeeper.set_fault env = false ->
      exists row,
        database.rows (gatekeeper.db (gatekeeper.handler TrimSpace g r env).1.1)
          !! gatekeeper.extractClientIP TrimSpace r = Some row
        /\ database.score row = 0
        /\ database.country row = "Unknown"%string
        /\ database.blocked_in_fw row = false).
Proof.
  intros Hex Hallow Hmiss Hcheck. unfold gatekeeper.handler. rewrite Hex.
  set (ip := gatekeeper.extractClientIP TrimSpace r) in *.
  destruct (ratelimit.Allow (gatekeeper.rateLimiter g) ip (gatekeeper.now_allow env))
    as [rl allowed]. cbn [snd] in Hallow. subst allowed. cbn [negb].
  unfold gatekeeper.getOrCreateIPInfo.
  cbn [gatekeeper.db gatekeeper.with_rateLimiter gatekeeper.config
       gatekeeper.unifiClients].
  rewrite Hmiss, Hcheck.
  set (fresh := domain.mkIPInfo ip 0 "Unknown" (gatekeeper.RequestURI r) ""
                  false (gatekeeper.now_info env)).
  destruct (if config.Payload_Enabled (config.Payload (gatekeeper.config g))
            then _ else _) as [ipInfo evPayload] eqn:Hp.
  assert (Hinfo : domain.Address ipInfo = ip /\ domain.Score ipInfo = 0
                  /\ domain.Country ipInfo = "Unknown"%string
                  /\ domain.BlockedInFW ipInfo = false
                  /\ filter (fun e => isFirewallCall e = true) evPayload = []
                  /\ filter (fun e => gatekeeper.isNotify e = true) evPayload = []).
  { destruct (config.Payload_Enabled _); [|inversion Hp; subst; easy].
    destruct (decide _); inversion Hp; subst; easy. }
  destruct Hinfo as (Ha & Hs & Hc & Hb & HnP & _).
  assert (Hlow : domain.IsHighRisk ipInfo = false)
    by (unfold domain.IsHighRisk; now rewrite Hs).
  rewrite Hlow. cbn [andb fst snd gatekeeper.db gatekeeper.with_db].
  rewrite ?Hlow.
  split; [reflexivity|]. split.
  - rewrite filter_cons, decide_False by discriminate.
    rewrite !filter_app, HnP.
    unfold gatekeeper.notifyEvents.
    rewrite (filter_imap_none isFirewallCall) by reflexivity. reflexivity.
  - intros Hset. rewrite Hset, Set_lookup, decide_True by exact Ha.
    eexists. split; [reflexivity|]. cbn. easy.
Qed.

Lemma unreachable_source_drops_witness :
  (gatekeeper.handler (fun s => s) samples.g0 (samples.req "203.0.113.8")
                      (samples.worldDown 1000)).1.2
  = gatekeeper.dropConnection (samples.worldDown 1000).
Proof.
  refine (proj1 (unreachable_source_drops (fun s => s) samples.g0
                   (samples.req "203.0.113.8") (samples.worldDown 1000) _ _ _ _));
    vm_compute; reflexivity.
Defined.

(** X18. What each answer of the handler means. 200 is given to excluded
    identities only and 429 only on a denial of the rate limiter. A
    connection is tarpitted, or answered 503 or left unanswered when the
    takeover fails, only for a resolved record that scores above 75; it is
    closed, or answered 403 when the takeover fails, only for a record that
    scores 75 or less. *)
Theorem response_by_risk
  (TrimSpace : string -> string) (g : gatekeeper.GateKeeper)
  (r : gatekeeper.Request) (env : gatekeeper.Env) :
  ((gatekeeper.handler TrimSpace g r env).1.2 = gatekeeper.StatusOK ->
   gatekeeper.isExcludedIP g (gatekeeper.extractClientIP TrimSpace r) = true) /\
  ((gatekeeper.handler TrimSpace g r env).1.2 = gatekeeper.StatusTooManyRequests ->
   gatekeeper.isExcludedIP g (gatekeeper.extractClientIP TrimSpace r) = false
   /\ (ratelimit.Allow (gatekeeper.rateLimiter g)
         (gatekeeper.extractClientIP TrimSpace r) (gatekeeper.now_allow env)).2
      = false) /\
  ((gatekeeper.handler TrimSpace g r env).1.2 = gatekeeper.Tarpitted
   \/ (gatekeeper.handler TrimSpace g r env).1.2 = gatekeeper.StatusServiceUnavailable
   \/ (gatekeeper.handler TrimSpace g r env).1.2 = gatekeeper.NoResponse ->
   domain.Score
     (gatekeeper.getOrCreateIPInfo
        (gatekeeper.with_rateLimiter g
           (ratelimit.Allow (gatekeeper.rateLimiter g)
              (gatekeeper.extractClientIP TrimSpace r)
              (gatekeeper.now_allow env)).1)
        (gatekeeper.extractClientIP TrimSpace r) (gatekeeper.RequestURI r) r env).1.2
   > 75) /\
  ((gatekeeper.handler TrimSpace g r env).1.2 = gatekeeper.Closed
   \/ (gatekeeper.handler TrimSpace g r env).1.2 = gatekeeper.StatusForbidden ->
   domain.Score
     (gatekeeper.getOrCreateIPInfo
        (gatekeeper.with_rateLimiter g
           (ratelimit.Allow (gatekeeper.rateLimiter g)
              (gatekeeper.extractClientIP TrimSpace r)
              (gatekeeper.now_allow env)).1)
        (gatekeeper.extractClientIP TrimSpace r) (gatekeeper.RequestURI r) r env).1.2
   <= 75) /\
  ((gatekeeper.handler TrimSpace g r env).1.2 = gatekeeper.Tarpitted
   \/ (gatekeeper.handler TrimSpace g r env).1.2 = gatekeeper.Closed ->
   gatekeeper.hijack env = gatekeeper.Hijacked).
Proof.
  unfold gatekeeper.handler.
  set (ip := gatekeeper.extractClientIP TrimSpace r).
  destruct (gatekeeper.isExcludedIP g ip).
  { cbn. repeat split; intros; intuition discriminate. }
  destruct (ratelimit.Allow (gatekeeper.rateLimiter g) ip (gatekeeper.now_allow env))
    as [rl allowed].
  destruct allowed; cbn [negb fst snd].
  2: { repeat split; intros; intuition discriminate. }
  destruct (gatekeeper.getOrCreateIPInfo (gatekeeper.with_rateLimiter g rl) ip
              (gatekeeper.RequestURI r) r env) as [[g1 ipInfo] evs].
  cbn [fst snd].
  unfold gatekeeper.tarpit, gatekeeper.dropConnection.
  destruct (domain.IsHighRisk ipInfo) eqn:Hrisk;
    unfold domain.IsHighRisk, domain.ScoreThreshold in Hrisk;
    destruct (gatekeeper.hijack env);
    repeat split; intros; try (intuition discriminate); lia.
Qed.

(** ** The client identity *)

Section ClientIP.
Import gostrings gatekeeper.

Lemma HasPrefix_app (s t : string) (c : ascii) :
  s <> ""%string -> HasPrefix (s ++ t) c = HasPrefix s c.
Proof. destruct s; [congruence | reflexivity]. Qed.

Lemma Contains_counted (s : string) (c : ascii) :
  (0 < CountByte s c)%nat -> Contains s c = true.
Proof.
  intros Hc. unfold Contains. apply bool_decide_eq_true.
  destruct (IndexByte s c) eqn:Hi; [eauto|].
  apply IndexByte_None in Hi. lia.
Qed.

Lemma Contains_none (s : string) (c : ascii) :
  CountByte s c = 0%nat -> Contains s c = false.
Proof.
  intros Hc. unfold Contains. apply bool_decide_eq_false. intros [n Hn].
  destruct (IndexByte_split c s n Hn) as [_ [rest Hrest]].
  rewrite Hrest, CountByte_app in Hc. cbn [CountByte] in Hc.
  rewrite decide_True in Hc by reflexivity. lia.
Qed.

Lemma slice_1_cons (a : ascii) (s : string) (m : nat) :
  slice (String a s) 1 (S m) = slice s 0 m.
Proof. unfold slice. cbn. now rewrite !Nat.sub_0_r. Qed.

Lemma slice_0_length_app_cons (a : ascii) (s t : string) :
  slice (String a s ++ t) 0 (S (String.length s)) = String a s.
Proof. exact (slice_0_length_app (String a s) t). Qed.

Lemma CountByte_cons_same (c : ascii) (s : string) :
  CountByte (String c s) c = S (CountByte s c).
Proof. cbn. now rewrite decide_True. Qed.

End ClientIP.

(** X19. What [extractClientIP] makes of the usual forms, for a text that
    [TrimSpace] leaves as it is: of [host:port] with no other colon the
    host; of [[v6]:port] the text between the brackets; of a bare address
    with two or more colons, or with none, the address itself. With a
    forwarded-for header that starts with a non-empty element before its
    first comma, it is that element that is read and the remote address is
    ignored. *)
Theorem extractClientIP_forms
  (TrimSpace : string -> string) (uri body : string) :
  (forall host port,
     gostrings.CountByte host ":" = 0%nat ->
     gostrings.CountByte port ":" = 0%nat ->
     gostrings.HasPrefix host "[" = false ->
     TrimSpace (host ++ String ":" port)%string = (host ++ String ":" port)%string ->
     gatekeeper.extractClientIP TrimSpace
       (gatekeeper.mkRequest "" (host ++ String ":" port) uri body) = host) /\
  (forall v6 port,
     gostrings.CountByte v6 "]" = 0%nat ->
     TrimSpace (String "[" (v6 ++ String "]" (String ":" port)))%string
     = String "[" (v6 ++ String "]" (String ":" port))%string ->
     gatekeeper.extractClientIP TrimSpace
       (gatekeeper.mkRequest "" (String "[" (v6 ++ String "]" (String ":" port)))
                             uri body) = v6) /\
  (forall addr,
     gostrings.CountByte addr ":" <> 1%nat ->
     gostrings.HasPrefix addr "[" = false ->
     TrimSpace addr = addr ->
     gatekeeper.extractClientIP TrimSpace (gatekeeper.mkRequest "" addr uri body)
     = addr) /\
  (forall first more remote,
     first <> ""%string ->
     gostrings.CountByte first "," = 0%nat ->
     gatekeeper.extractClientIP TrimSpace
       (gatekeeper.mkRequest (first ++ String "," more) remote uri body)
     = gatekeeper.extractClientIP TrimSpace
         (gatekeeper.mkRequest "" first uri body)).
Proof.
  split; [|split; [|split]].
  - intros host port Hh Hp Hpre Htrim. unfold gatekeeper.extractClientIP.
    cbn [gatekeeper.XForwardedFor gatekeeper.RemoteAddr].
    rewrite decide_True by reflexivity. rewrite Htrim.
    assert (Hcount : gostrings.CountByte (host ++ String ":" port) ":" = 1%nat)
      by (rewrite CountByte_app, CountByte_cons_same; lia).
    rewrite Contains_counted by lia.
    assert (Hnp : gostrings.HasPrefix (host ++ String ":" port) "[" = false).
    { destruct host; [reflexivity|]. now rewrite HasPrefix_app by discriminate. }
    rewrite Hnp, Hcount. cbn [Nat.eqb].
    rewrite IndexByte_app_fresh by exact Hh. apply slice_0_length_app.
  - intros v6 port Hv Htrim. unfold gatekeeper.extractClientIP.
    cbn [gatekeeper.XForwardedFor gatekeeper.RemoteAddr].
    rewrite decide_True by reflexivity. rewrite Htrim.
    rewrite Contains_counted.
    2: { cbn [gostrings.CountByte]. rewrite decide_False by discriminate.
         rewrite CountByte_app. cbn [gostrings.CountByte].
         rewrite decide_False by discriminate. rewrite decide_True by reflexivity.
         lia. }
    cbn [gostrings.HasPrefix]. rewrite bool_decide_true by reflexivity.
    cbn [gostrings.IndexByte]. rewrite decide_False by discriminate.
    rewrite IndexByte_app_fresh by exact Hv. cbn [fmap option_fmap option_map].
    rewrite slice_1_cons. apply slice_0_length_app.
  - intros addr Hc Hpre Htrim. unfold gatekeeper.extractClientIP.
    cbn [gatekeeper.XForwardedFor gatekeeper.RemoteAddr].
    rewrite decide_True by reflexivity. rewrite Htrim, Hpre.
    destruct (gostrings.Contains addr ":"); [|reflexivity].
    destruct (Nat.eqb_spec (gostrings.CountByte addr ":") 1); [lia | reflexivity].
  - intros first more remote Hne Hc. unfold gatekeeper.extractClientIP.
    cbn [gatekeeper.XForwardedFor gatekeeper.RemoteAddr].
    rewrite decide_False by (destruct first; [congruence | discriminate]).
    rewrite decide_True by reflexivity.
    rewrite IndexByte_app_fresh by exact Hc.
    destruct first as [|a first]; [congruence|].
    cbn [String.length]. rewrite slice_0_length_app_cons. reflexivity.
Qed.

Lemma extractClientIP_forms_witness :
  gatekeeper.extractClientIP (fun s => s)
    (gatekeeper.mkRequest "" ("203.0.113.7" ++ String ":" "40312") "/" "")
  = "203.0.113.7"%string.
Proof.
  refine (proj1 (extractClientIP_forms (fun s => s) "/" "")
            "203.0.113.7"%string "40312"%string _ _ _ _); reflexivity.
Defined.

Example extractClientIP_bracketed :
  gatekeeper.extractClientIP (fun s => s)
    (gatekeeper.mkRequest "" "[2001:db8::1]:40312" "/" "")
  = "2001:db8::1"%string.
Proof. reflexivity. Qed.

(** ** The in-memory cache *)

Section Cache.
Import domain cache.

Lemma cache_cleanup_lookup (c : IPCache) (now : Time) (ip : string) :
  entries (cleanup c now) !! ip = Get c ip now.
Proof.
  unfold cleanup, Get. cbn. rewrite map_lookup_filter.
  destruct (entries c !! ip) as [e|]; [|reflexivity]. cbn.
  destruct (stale c now e); case_guard; cbn in *;
    first [reflexivity | congruence].
Qed.

Lemma stale_later (c : IPCache) (now now' : Time) (e : IPInfo) :
  now <= now' -> stale c now e = true -> stale c now' e = true.
Proof.
  unfold stale. intros Hle Hs.
  pose proof (Sub_mono now (Timestamp e) now' (Timestamp e)).
  destruct (Z.gtb_spec (Sub now (Timestamp e)) (ttl c)); [|discriminate].
  destruct (Z.gtb_spec (Sub now' (Timestamp e)) (ttl c)); [reflexivity | lia].
Qed.

End Cache.

(** X20. The cache restarts the TTL at every [Set]: whatever the cache held
    for the address, after a [Set] at [T] a [Get] returns the record, stamped
    [T], as long as no more than the TTL has passed (at exactly the TTL it is
    still returned) and nothing once more has passed; the entries of other
    addresses are not affected. *)
Theorem cache_Set_restarts_ttl
  (c : cache.IPCache) (info : domain.IPInfo) (T now : Time) :
  (Sub now T <= cache.ttl c ->
   cache.Get (cache.Set_ c info T) (domain.Address info) now
   = Some (cache.stamp info T)) /\
  (Sub now T > cache.ttl c ->
   cache.Get (cache.Set_ c info T) (domain.Address info) now = None) /\
  (forall ip,
     ip <> domain.Address info ->
     cache.Get (cache.Set_ c info T) ip now = cache.Get c ip now).
Proof.
  unfold cache.Get, cache.Set_, cache.stale. cbn.
  rewrite lookup_insert_eq. cbn. repeat split.
  - intros Hle. destruct (Z.gtb_spec (Sub now T) (cache.ttl c)); [lia | reflexivity].
  - intros Hgt. destruct (Z.gtb_spec (Sub now T) (cache.ttl c)); [reflexivity | lia].
  - intros ip Hne. now rewrite lookup_insert_ne by congruence.
Qed.

(** With a TTL of one hour, a record set at 0 is returned one hour later to
    the nanosecond. *)
Lemma cache_Set_restarts_ttl_witness :
  cache.Get
    (cache.Set_ (cache.NewIPCache Hour)
       (domain.mkIPInfo "203.0.113.7" 90 "FR" "/" "" false 0) 0)
    "203.0.113.7" Hour
  = Some (cache.stamp (domain.mkIPInfo "203.0.113.7" 90 "FR" "/" "" false 0) 0).
Proof.
  refine (proj1 (cache_Set_restarts_ttl (cache.NewIPCache Hour)
                   (domain.mkIPInfo "203.0.113.7" 90 "FR" "/" "" false 0) 0 Hour) _).
  vm_compute. discriminate.
Defined.

(** X21. The sweep of the cache removes exactly what [Get] no longer
    returns: after [cleanup] at [now] the map holds, for every address, the
    record a [Get] at [now] returns, and a [Get] at any later time returns
    what it would have returned without the sweep. *)
Theorem cache_cleanup_exact
  (c : cache.IPCache) (ip : string) (now now' : Time) :
  cache.entries (cache.cleanup c now) !! ip = cache.Get c ip now
  /\ (now <= now' -> cache.Get (cache.cleanup c now) ip now' = cache.Get c ip now').
Proof.
  split; [apply cache_cleanup_lookup|].
  intros Hle. unfold cache.Get at 1. rewrite cache_cleanup_lookup.
  unfold cache.Get.
  destruct (cache.entries c !! ip) as [e|]; [|reflexivity].
  change (cache.stale (cache.cleanup c now) now' e) with (cache.stale c now' e).
  destruct (cache.stale c now e) eqn:Hs; [|reflexivity].
  now rewrite (stale_later c now now' e Hle Hs).
Qed.

(** X22. [MarkBlocked] of the cache sets the flag of the entry and nothing
    else, its time stamp included: a [Get] of the address returns the record
    it returned before, flagged, and at the same times; other addresses are
    untouched, and without an entry the cache is unchanged. *)
Theorem cache_MarkBlocked_only_flag
  (c : cache.IPCache) (ip : string) (now : Time) :
  cache.Get (cache.MarkBlocked c ip) ip now
  = (fun e => domain.with_BlockedInFW e true) <$> cache.Get c ip now
  /\ (forall ip', ip' <> ip ->
        cache.Get (cache.MarkBlocked c ip) ip' now = cache.Get c ip' now)
  /\ (cache.entries c !! ip = None -> cache.MarkBlocked c ip = c).
Proof.
  unfold cache.Get, cache.MarkBlocked. cbn. repeat split.
  - rewrite lookup_alter_eq.
    destruct (cache.entries c !! ip) as [e|]; [|reflexivity]. cbn.
    change (cache.stale _ now (domain.with_BlockedInFW e true))
      with (cache.stale c now e).
    now destruct (cache.stale c now e).
  - intros ip' Hne. rewrite lookup_alter_ne by congruence.
    destruct (cache.entries c !! ip'); reflexivity.
  - intros Hnone. rewrite alter_id by (intros x Hx; congruence).
    now destruct c.
Qed.

(** ** The firewall client *)

Section Unifi.
Import unifi.

Lemma ipExistsInGroup_members_spec (members : list string) (ip : string) :
  ipExistsInGroup_members members ip = true <-> ip ∈ members.
Proof.
  induction members as [|m rest IH]; cbn.
  - split; [discriminate | intros H; inversion H].
  - destruct (decide (m = ip)) as [->|Hne].
    + split; [intros _; left | reflexivity].
    + rewrite IH. split; [now right|].
      intros H. apply elem_of_cons in H as [->|H]; [congruence | exact H].
Qed.

Lemma findFirewallGroup_named (groups : list FirewallGroup) (name : string)
  (g : FirewallGroup) :
  findFirewallGroup groups name = Some g -> Name g = name /\ g ∈ groups.
Proof.
  induction groups as [|h rest IH]; [discriminate|]. cbn.
  destruct (decide (Name h = name)) as [Hn|Hn].
  - intros [= <-]. split; [exact Hn | left].
  - intros H. destruct (IH H). split; [assumption | now right].
Qed.

End Unifi.

(** X23. What [AddIPToFirewall] sends. An update request is sent only when
    the fetch succeeded, a group named WAN_IN exists and the address is not
    among its members; it goes to that group and carries every member the
    group had, in order, followed by the address: no member is dropped and
    the address is not duplicated. Nothing is sent when the fetch fails or
    no group has the name, and the call then returns the error of that
    step. *)
Theorem AddIPToFirewall_request
  (fetched : option (list unifi.FirewallGroup)) (ip : string) (put_ok : bool) :
  (forall put,
     (unifi.AddIPToFirewall fetched ip put_ok).2 = Some put ->
     exists groups wan,
       fetched = Some groups
       /\ unifi.findFirewallGroup groups unifi.FirewallGroupName = Some wan
       /\ unifi.Name wan = "WAN_IN"%string
       /\ (ip ∉ unifi.Members wan)
       /\ unifi.put_id put = unifi.ID wan
       /\ unifi.put_members put = unifi.Members wan ++ [ip]
       /\ (unifi.AddIPToFirewall fetched ip put_ok).1
          = (if put_ok then None else Some unifi.ErrUpdate)) /\
  (fetched = None ->
   unifi.AddIPToFirewall fetched ip put_ok = (Some unifi.ErrFetch, None)) /\
  (forall groups,
     fetched = Some groups ->
     (forall g, g ∈ groups -> unifi.Name g <> "WAN_IN"%string) ->
     unifi.AddIPToFirewall fetched ip put_ok
     = (Some unifi.ErrFirewallGroupNotFound, None)).
Proof.
  split; [|split].
  - intros put Hput. unfold unifi.AddIPToFirewall in *.
    destruct fetched as [groups|]; [|discriminate].
    destruct (unifi.findFirewallGroup groups unifi.FirewallGroupName)
      as [wan|] eqn:Hfind; [|discriminate].
    destruct (unifi.ipExistsInGroup wan ip) eqn:Hex; [discriminate|].
    cbn in Hput. injection Hput as <-.
    destruct (findFirewallGroup_named _ _ _ Hfind) as [Hname _].
    exists groups, wan. repeat split; try assumption.
    intros Hin. apply ipExistsInGroup_members_spec in Hin.
    unfold unifi.ipExistsInGroup in Hex. congruence.
  - intros ->. reflexivity.
  - intros groups -> Hnone. unfold unifi.AddIPToFirewall.
    destruct (unifi.findFirewallGroup groups unifi.FirewallGroupName)
      as [wan|] eqn:Hfind; [|reflexivity].
    destruct (findFirewallGroup_named _ _ _ Hfind) as [Hname Hin].
    now destruct (Hnone wan Hin).
Qed.

(** X24. Adding an address twice is harmless: when the group named WAN_IN
    that the controller reports holds the address, as it does once the
    controller reports the members of an earlier update, [AddIPToFirewall]
    sends nothing and returns no error. *)
Theorem AddIPToFirewall_idempotent
  (groups groups' : list unifi.FirewallGroup) (ip : string)
  (put : unifi.Put) (wan' : unifi.FirewallGroup) (put_ok' : bool) :
  unifi.AddIPToFirewall (Some groups) ip true = (None, Some put) ->
  unifi.findFirewallGroup groups' unifi.FirewallGroupName = Some wan' ->
  unifi.Members wan' = unifi.put_members put ->
  unifi.AddIPToFirewall (Some groups') ip put_ok' = (None, None).
Proof.
  intros Hfirst Hfind Hmembers.
  assert (Hin : ip ∈ unifi.put_members put).
  { unfold unifi.AddIPToFirewall in Hfirst.
    destruct (unifi.findFirewallGroup groups unifi.FirewallGroupName) as [wan|];
      [|discriminate].
    destruct (unifi.ipExistsInGroup wan ip); [discriminate|].
    cbn in Hfirst. injection Hfirst as <-. cbn.
    apply elem_of_app. right. left. }
  unfold unifi.AddIPToFirewall. rewrite Hfind.
  unfold unifi.ipExistsInGroup. rewrite Hmembers.
  apply ipExistsInGroup_members_spec in Hin. now rewrite Hin.
Qed.

Lemma AddIPToFirewall_idempotent_witness :
  unifi.AddIPToFirewall
    (Some [unifi.mkGroup "g1" "LAN" [];
           unifi.mkGroup "g2" "WAN_IN" ["198.51.100.4"; "203.0.113.7"]])
    "203.0.113.7" false
  = (None, None).
Proof.
  apply (AddIPToFirewall_idempotent
           [unifi.mkGroup "g1" "LAN" []; unifi.mkGroup "g2" "WAN_IN" ["198.51.100.4"]]
           _ "203.0.113.7"
           (unifi.mkPut "g2" ["198.51.100.4"; "203.0.113.7"])
           (unifi.mkGroup "g2" "WAN_IN" ["198.51.100.4"; "203.0.113.7"]));
    reflexivity.
Defined.

(** ** The configuration *)

Section Config.
Import config.

Lemma defaultTemplate_not_empty : defaultTemplate <> ""%string.
Proof. discriminate. Qed.

Lemma fillTemplate_filled (t : TelegramNotificationConfig) :
  Template (fillTemplate t) <> ""%string
  /\ fillTemplate (fillTemplate t) = fillTemplate t.
Proof.
  unfold fillTemplate. destruct (decide (Template t = "")) as [He|Hne].
  - cbn. split; [apply defaultTemplate_not_empty|].
    now rewrite decide_False by apply defaultTemplate_not_empty.
  - split; [exact Hne|]. now rewrite decide_False by exact Hne.
Qed.

Lemma LoadConfiguration_rate (conf : Configuration) :
  RequestsPerMinute (RateLimit (LoadConfiguration conf)) <> 0.
Proof.
  unfold LoadConfiguration. cbn.
  destruct (Z.eqb_spec (RequestsPerMinute (RateLimit conf)) 0);
    [discriminate | assumption].
Qed.

End Config.

(** X25. [LoadConfiguration] fills every default and is idempotent: in a
    loaded configuration the rate is not 0, the payload limit is not 0, the
    payload directory and the dashboard port are not empty and every
    notifier has a template; loading a loaded configuration changes nothing.
    A configured rate of 0 is replaced by 5 and turns rate limiting on, even
    with [enabled: false]. *)
Theorem LoadConfiguration_defaults (conf : config.Configuration) :
  config.RequestsPerMinute (config.RateLimit (config.LoadConfiguration conf)) <> 0
  /\ config.MaxSize (config.Payload (config.LoadConfiguration conf)) <> 0
  /\ config.Directory (config.Payload (config.LoadConfiguration conf)) <> ""%string
  /\ config.Port (config.Dashboard (config.LoadConfiguration conf)) <> ""%string
  /\ Forall (fun t => config.Template t <> ""%string)
            (config.TelegramNotification (config.LoadConfiguration conf))
  /\ config.LoadConfiguration (config.LoadConfiguration conf)
     = config.LoadConfiguration conf
  /\ (config.RequestsPerMinute (config.RateLimit conf) = 0 ->
      config.RateLimit (config.LoadConfiguration conf) = config.mkRateLimit 5 true).
Proof.
  unfold config.LoadConfiguration. cbn.
  destruct (Z.eqb_spec (config.RequestsPerMinute (config.RateLimit conf)) 0)
    as [Hr|Hr];
  destruct (Z.eqb_spec (config.MaxSize (config.Payload conf)) 0) as [Hm|Hm];
  destruct (decide (config.Directory (config.Payload conf) = "")) as [Hd|Hd];
  destruct (decide (config.Port (config.Dashboard conf) = "")) as [Hp|Hp];
  cbn;
  (split; [first [discriminate | assumption]|]);
  (split; [first [discriminate | assumption]|]);
  (split; [first [discriminate | assumption]|]);
  (split; [first [discriminate | assumption]|]);
  (split; [apply Forall_map, Forall_forall; intros t _; apply fillTemplate_filled|]);
  (split; [|first [reflexivity | congruence]]).
  all: rewrite ?decide_False by first [discriminate | assumption].
  all: repeat match goal with
         | |- context [?a =? 0] =>
             destruct (Z.eqb_spec a 0); [first [discriminate | congruence]|]
         end.
  all: f_equal;
    try (rewrite map_map; apply map_ext; intros t; apply fillTemplate_filled);
    try (now destruct (config.RateLimit conf)).
Qed.

(** X26. What [NewGateKeeper] builds. It fails exactly when the API key is
    empty or the database does not open; a failed login to a controller is
    not fatal, the controller is left out. The gatekeeper built from a
    loaded configuration always limits: its limiter has a window of one
    minute and a rate that is not 0, and starts empty; its store has the TTL
    of one hour; it has one notifier per configured chat. *)
Theorem NewGateKeeper_built
  (conf : config.Configuration) (login_ok : nat -> bool)
  (stored : gmap string database.Row) (db_ok : bool) :
  (gatekeeper.NewGateKeeper (config.LoadConfiguration conf) login_ok stored db_ok
   = None
   <-> config.APIKey conf = ""%string \/ db_ok = false) /\
  (forall g,
     gatekeeper.NewGateKeeper (config.LoadConfiguration conf) login_ok stored db_ok
     = Some g ->
     ratelimit.window (gatekeeper.rateLimiter g) = Minute
     /\ ratelimit.rate (gatekeeper.rateLimiter g) <> 0
     /\ ratelimit.visitors (gatekeeper.rateLimiter g) = ∅
     /\ database.ttlSeconds (gatekeeper.db g) = 3600
     /\ database.rows (gatekeeper.db g) = stored
     /\ length (gatekeeper.notifier g)
        = length (config.TelegramNotification conf)
     /\ length (gatekeeper.unifiClients g)
        = length (filter (fun i => login_ok i = true)
                         (seq 0 (length (config.Unifi conf))))).
Proof.
  assert (Hlogged : forall cfgs i,
             length (gatekeeper.loggedIn cfgs i login_ok)
             = length (filter (fun j => login_ok j = true) (seq i (length cfgs)))).
  { induction cfgs as [|c rest IH]; intros i; [reflexivity|].
    cbn [gatekeeper.loggedIn length seq]. rewrite filter_cons.
    destruct (login_ok i); cbn; now rewrite IH. }
  unfold gatekeeper.NewGateKeeper.
  change (config.APIKey (config.LoadConfiguration conf)) with (config.APIKey conf).
  destruct (decide (config.APIKey conf = "")) as [Hk|Hk].
  { split; [tauto | discriminate]. }
  destruct db_ok.
  2: { split; [tauto | discriminate]. }
  split.
  { split; [discriminate | intros [?|?]; [contradiction | discriminate]]. }
  intros g [= <-]. cbn.
  pose proof (LoadConfiguration_rate conf) as Hrate.
  split; [|split; [|split; [|split; [|split; [|split]]]]].
  - now destruct (config.RateLimit_Enabled _).
  - destruct (config.RateLimit_Enabled _); [exact Hrate | discriminate].
  - now destruct (config.RateLimit_Enabled _).
  - reflexivity.
  - reflexivity.
  - unfold notification.NewMultiNotifier. now rewrite !length_map.
  - apply Hlogged.
Qed.

(** ** The keyed mutexes *)

Section Queue.
Import queue.

Lemma queueOk_new : queueOk NewIPQueue.
Proof.
  split; cbn; intros *; rewrite lookup_empty; discriminate.
Qed.

Lemma Get_spec (q : IPQueue) (key : string) :
  ipScan (Get q key).1 !! key = Some (Get q key).2
  /\ (forall k, k <> key -> ipScan (Get q key).1 !! k = ipScan q !! k)
  /\ (allocated q <= allocated (Get q key).1)%nat.
Proof.
  unfold Get. destruct (ipScan q !! key) as [m|] eqn:Hk; cbn.
  - repeat split; [exact Hk | lia].
  - rewrite lookup_insert_eq. repeat split; [|lia].
    intros k Hne. now rewrite lookup_insert_ne by congruence.
Qed.

Lemma queueOk_Get (q : IPQueue) (key : string) :
  queueOk q -> queueOk (Get q key).1.
Proof.
  intros [Hlt Hinj]. unfold Get.
  destruct (ipScan q !! key) as [m|] eqn:Hk; cbn; [now split|].
  split; cbn.
  - intros k m. destruct (decide (key = k)) as [->|Hne].
    + rewrite lookup_insert_eq. intros [= <-]. lia.
    + rewrite lookup_insert_ne by exact Hne. intros H. apply Hlt in H. lia.
  - intros k1 k2 m.
    destruct (decide (key = k1)) as [E1|H1], (decide (key = k2)) as [E2|H2];
      subst;
      rewrite ?lookup_insert_eq, ?lookup_insert_ne by assumption.
    + easy.
    + intros [= <-] H. apply Hlt in H. lia.
    + intros H [= <-]. apply Hlt in H. lia.
    + apply Hinj.
Qed.

Lemma queueOk_Remove (q : IPQueue) (key : string) :
  queueOk q -> queueOk (Remove q key).
Proof.
  intros [Hlt Hinj]. unfold Remove. split; cbn.
  - intros k m H. apply lookup_delete_Some in H as [_ H]. eauto.
  - intros k1 k2 m H1 H2.
    apply lookup_delete_Some in H1 as [_ H1].
    apply lookup_delete_Some in H2 as [_ H2]. eauto.
Qed.

End Queue.

(** X27. The queue of keyed mutexes. From a new queue, [Get] and [Remove]
    keep every mutex allocated by the queue and no mutex shared by two keys.
    In such a queue, asking twice for the same key gives the same mutex and
    asking for two keys gives two mutexes; but after [Remove] the key gets a
    new mutex, different from the one a caller may still hold. *)
Theorem queue_one_mutex_per_key (q : queue.IPQueue) (k1 k2 : string) :
  queueOk q ->
  queueOk (queue.Get q k1).1
  /\ queueOk (queue.Remove q k1)
  /\ (queue.Get (queue.Get q k1).1 k1).2 = (queue.Get q k1).2
  /\ (k1 <> k2 -> (queue.Get (queue.Get q k1).1 k2).2 <> (queue.Get q k1).2)
  /\ (queue.Get (queue.Remove (queue.Get q k1).1 k1) k1).2 <> (queue.Get q k1).2
  /\ queueOk queue.NewIPQueue.
Proof.
  intros Hok.
  pose proof (queueOk_Get q k1 Hok) as Hok1.
  destruct (Get_spec q k1) as (Hk1 & Hother & Hmono).
  split; [exact Hok1|]. split; [now apply queueOk_Remove|].
  split; [|split; [|split; [|apply queueOk_new]]].
  - unfold queue.Get at 1. now rewrite Hk1.
  - intros Hne Heq.
    destruct (Get_spec (queue.Get q k1).1 k2) as (Hk2 & Hother2 & _).
    rewrite Heq in Hk2.
    assert (Hk1' : queue.ipScan (queue.Get (queue.Get q k1).1 k2).1 !! k1
                   = Some (queue.Get q k1).2)
      by (rewrite Hother2 by exact Hne; exact Hk1).
    destruct (queueOk_Get _ k2 Hok1) as [_ Hinj].
    apply Hne. symmetry. exact (Hinj _ _ _ Hk2 Hk1').
  - destruct Hok1 as [Hlt _]. pose proof (Hlt _ _ Hk1) as Hbound.
    unfold queue.Get at 1. cbn [queue.Remove queue.ipScan queue.allocated].
    rewrite lookup_delete_eq. cbn. lia.
Qed.

Lemma queue_one_mutex_per_key_witness :
  (queue.Get (queue.Get queue.NewIPQueue "203.0.113.7").1 "203.0.113.7").2
  = (queue.Get queue.NewIPQueue "203.0.113.7").2.
Proof.
  refine (proj1 (proj2 (proj2
    (queue_one_mutex_per_key queue.NewIPQueue "203.0.113.7" "203.0.113.9" _)))).
  apply queueOk_new.
Defined.

(** ** The notifications *)

Section Notifications.
Import notification.

Lemma NotifyAll_posts_from (info : domain.IPInfo) (m : MultiNotifier) :
  forall (k : nat) (execute : nat -> TemplateData -> option string)
         (answer : nat -> Answer),
    length (omap snd (imap (fun i n =>
                              TelegramNotify n (execute (k + i)%nat)
                                             (answer (k + i)%nat) info) m))
    = length (filter (fun i => is_Some (execute i (formatMessage info)))
                     (seq k (length m))).
Proof.
  induction m as [|n m IH]; intros k execute answer; [reflexivity|].
  cbn [imap length seq]. rewrite filter_cons, Nat.add_0_r.
  rewrite (imap_ext _ (fun i n' => TelegramNotify n' (execute (S k + i)%nat)
                                                  (answer (S k + i)%nat) info))
    by (intros i x _; cbn; now rewrite Nat.add_succ_r).
  specialize (IH (S k) execute answer).
  cbn [omap list_omap]. unfold TelegramNotify at 1.
  destruct (execute k (formatMessage info)) as [message|].
  - rewrite decide_True by eauto.
    destruct (answer k) as [|code]; [|destruct (code =? 200)];
      cbn [snd length]; f_equal; exact IH.
  - rewrite decide_False by (intros [? ?]; discriminate). exact IH.
Qed.

End Notifications.

(** X28. What a notification posts. [TelegramNotifier.Notify] makes a
    request only when the template executes: then one request, to the
    sendMessage address of the notifier's token, with the notifier's chat,
    the text the template gave and the Markdown parse mode; it returns no
    error exactly when the template executed and the answer was 200.
    [MultiNotifier.Notify] runs one such call per configured notifier on the
    same record, and what a notifier does depends on its own template and
    answer only: the requests made are as many as the notifiers whose
    template executed. The severity written in the data is High exactly when
    the record scores above 75, and the block status reads Non exactly when
    the record is not flagged. *)
Theorem Notify_posts
  (configs : list config.TelegramNotificationConfig) (info : domain.IPInfo)
  (execute : nat -> notification.TemplateData -> option string)
  (answer : nat -> notification.Answer) :
  (forall t exec ans,
     (notification.TelegramNotify t exec ans info).2 = None
     <-> exec (notification.formatMessage info) = None) /\
  (forall t exec ans post,
     (notification.TelegramNotify t exec ans info).2 = Some post ->
     notification.url post
     = ("https://api.telegram.org/bot"
          ++ config.Token (notification.config t) ++ "/sendMessage")%string
     /\ notification.post_chat_id post = config.ChatId (notification.config t)
     /\ notification.parse_mode post = "Markdown"%string
     /\ exec (notification.formatMessage info) = Some (notification.text post)) /\
  (forall t exec ans,
     (notification.TelegramNotify t exec ans info).1 = None
     <-> is_Some (exec (notification.formatMessage info))
         /\ ans = notification.Status 200) /\
  (forall i cfg,
     configs !! i = Some cfg ->
     notification.NotifyAll (notification.NewMultiNotifier configs)
                            execute answer info !! i
     = Some (notification.TelegramNotify (notification.NewTelegramNotifier cfg)
               (execute i) (answer i) info)) /\
  length (omap snd (notification.NotifyAll
                      (notification.NewMultiNotifier configs)
                      execute answer info))
  = length (filter (fun i =>
                      is_Some (execute i (notification.formatMessage info)))
                   (seq 0 (length configs))) /\
  (notification.Severity (notification.formatMessage info) = "High"%string
   <-> domain.Score info > 75) /\
  (notification.Blocked (notification.formatMessage info) = "Non"%string
   <-> domain.BlockedInFW info = false).
Proof.
  split; [|split; [|split; [|split; [|split; [|split]]]]].
  - intros t exec ans. unfold notification.TelegramNotify.
    destruct (exec (notification.formatMessage info)) as [message|];
      [|easy].
    destruct ans as [|code]; [|destruct (code =? 200)]; cbn; split; discriminate.
  - intros t exec ans post. unfold notification.TelegramNotify.
    destruct (exec (notification.formatMessage info)) as [message|];
      [|discriminate].
    destruct ans as [|code]; [|destruct (code =? 200)]; cbn;
      intros [= <-]; easy.
  - intros t exec ans. unfold notification.TelegramNotify.
    destruct (exec (notification.formatMessage info)) as [message|].
    + destruct ans as [|code]; cbn.
      * split; [discriminate | intros [_ H]; discriminate H].
      * destruct (Z.eqb_spec code 200) as [->|Hne]; cbn.
        -- split; [eauto | reflexivity].
        -- split; [discriminate | intros [_ [= H]]; contradiction].
    + cbn. split; [discriminate | intros [[x Hx] _]; discriminate Hx].
  - intros i cfg Hcfg.
    unfold notification.NotifyAll, notification.NewMultiNotifier.
    rewrite list_lookup_imap, list_lookup_fmap, Hcfg. reflexivity.
  - unfold notification.NotifyAll.
    pose proof (NotifyAll_posts_from info (notification.NewMultiNotifier configs)
                  0 execute answer) as Hcount.
    cbn [Nat.add] in Hcount. rewrite Hcount.
    unfold notification.NewMultiNotifier. now rewrite length_map.
  - cbn. rewrite GetSeverity_cases.
    repeat case_decide; cbn; split; first [lia | discriminate | reflexivity].
  - cbn. destruct (domain.BlockedInFW info); split;
      first [reflexivity | discriminate].
Qed.

(** Two notifiers, the template of the first fails to execute: one request
    is made, to the chat of the second. *)
Example Notify_posts_one_of_two :
  omap snd
    (notification.NotifyAll
       (notification.NewMultiNotifier
          [config.mkTelegram "-1001" "tokenA" "{{.Nope}}";
           config.mkTelegram "-1002" "tokenB" "{{.IP}}"])
       (fun i d => if (i =? 0)%nat then None else Some (notification.IP d))
       (fun _ => notification.Status 200)
       (domain.mkIPInfo "203.0.113.7" 90 "FR" "/admin" "" false 0))
  = [notification.mkPost "https://api.telegram.org/bottokenB/sendMessage"
                         "-1002" "`203.0.113.7`" "Markdown"].
Proof. reflexivity. Qed.
